(** * Floor-plan generator service (app.py): a shallow embedding

    The service is a Flask application with six routes.  Its own code is
    routing glue: validation of the input, one call to the generative
    model, one JSON record written under [outputs/], and read-back of those
    records.  The embedding keeps that shape:

    - Python strings are byte strings ([string], UTF-8), dictionaries are
      association lists in insertion order, floats are IEEE binary64
      values ([spec_float]);
    - a handler is a computation in a state-and-exception monad over a
      [world] (the local disk and the trace of external interactions);
    - the collaborators the code calls but does not define (the clock, the
      model, the image decoder, werkzeug's [secure_filename], the json
      codec) are the fields of an [Env] record, shared by all handlers;
    - a [request] carries what werkzeug makes of its body and headers: the
      files of the form or the parser's refusal, the JSON value or the
      error of [get_json], the answer of [make_conditional] for a file;
    - start-up (the module body and the script under [__main__]) is a
      function of a [Host]: the environment variables, the folders and
      the client library it meets. *)

From Stdlib Require Import String Ascii List ZArith Lia Bool Arith DecimalString.
From Stdlib Require Import Permutation Sorted.
From Stdlib Require Import SpecFloat.
Import ListNotations.
Local Open Scope list_scope.
Local Open Scope string_scope.

(* ================================================================= *)
(** * The program *)

(* ----------------------------------------------------------------- *)
(** ** Python values raised or returned *)

(** The exceptions the service can meet.  werkzeug's [HTTPException]s are
    kept apart because Flask maps them to the registered error handlers;
    every other exception is kept as its message. *)
Inductive exn : Type :=
| HTTPException (code : nat) (name description : string)
| PyError (msg : string).

(** [str(e)], as the handlers interpolate it into their error messages. *)
Definition str_exn (e : exn) : string :=
  match e with
  | HTTPException code name description =>
      NilZero.string_of_uint (Nat.to_uint code) ++ " " ++ name ++ ": " ++ description
  | PyError msg => msg
  end.

(** The result of evaluating a Python expression: a value or a raised
    exception. *)
Inductive outcome (A : Type) : Type :=
| Val (a : A)
| Exc (e : exn).
Arguments Val {A} a.
Arguments Exc {A} e.

Definition obind {A B} (o : outcome A) (k : A -> outcome B) : outcome B :=
  match o with
  | Val a => k a
  | Exc e => Exc e
  end.

(* ----------------------------------------------------------------- *)
(** ** String operations of the Python runtime *)

Module PyStr.

(** [c in s] for a one-character needle. *)
Fixpoint contains (c : ascii) (s : string) : bool :=
  match s with
  | EmptyString => false
  | String a s' => Ascii.eqb a c || contains c s'
  end.

(** [s.rsplit(sep, 1)]: split at the last occurrence of [sep], if any. *)
Fixpoint rsplit1 (sep : ascii) (s : string) : list string :=
  match s with
  | EmptyString => [EmptyString]
  | String a s' =>
      match rsplit1 sep s' with
      | [h; t] => [String a h; t]
      | _ => if Ascii.eqb a sep then [EmptyString; s'] else [String a s']
      end
  end.

(** [s.split(sep)]: every occurrence of [sep] separates two fields. *)
Fixpoint split (sep : ascii) (s : string) : list string :=
  match s with
  | EmptyString => [EmptyString]
  | String a s' =>
      if Ascii.eqb a sep then EmptyString :: split sep s'
      else match split sep s' with
           | h :: t => String a h :: t
           | [] => [String a EmptyString]
           end
  end.

(** [sep.join(l)]. *)
Fixpoint join (sep : string) (l : list string) : string :=
  match l with
  | [] => EmptyString
  | [x] => x
  | x :: l' => x ++ sep ++ join sep l'
  end.

(** [c.lower()] on the ASCII range; bytes above it are left alone (no
    character outside ASCII lowers to a string of the letters of
    [ALLOWED_EXTENSIONS], so membership below is decided as in Python). *)
Definition lower_ascii (c : ascii) : ascii :=
  let n := nat_of_ascii c in
  if (65 <=? n)%nat && (n <=? 90)%nat then ascii_of_nat (n + 32) else c.

Fixpoint lower (s : string) : string :=
  match s with
  | EmptyString => EmptyString
  | String a s' => String (lower_ascii a) (lower s')
  end.

Fixpoint startswith (p s : string) : bool :=
  match p, s with
  | EmptyString, _ => true
  | String a p', String b s' => Ascii.eqb a b && startswith p' s'
  | String _ _, EmptyString => false
  end.

Fixpoint rev (s : string) : string :=
  match s with
  | EmptyString => EmptyString
  | String a s' => rev s' ++ String a EmptyString
  end.

Definition endswith (p s : string) : bool := startswith (rev p) (rev s).

(** [x in l] for a collection of strings. *)
Definition mem (x : string) (l : list string) : bool :=
  existsb (String.eqb x) l.

(** [l[i]]: an [IndexError] when out of range. *)
Definition index {A} (l : list A) (i : nat) : outcome A :=
  match nth_error l i with
  | Some a => Val a
  | None => Exc (PyError "list index out of range")
  end.

End PyStr.

(* ----------------------------------------------------------------- *)
(** ** Module-level configuration (app.py, lines 16-21) *)

Definition MAX_CONTENT_LENGTH : Z := 16 * 1024 * 1024.
Definition UPLOAD_FOLDER : string := "uploads".
Definition OUTPUT_FOLDER : string := "outputs".
Definition ALLOWED_EXTENSIONS : list string := ["png"; "jpg"; "jpeg"; "gif"; "bmp"].

(** [allowed_file] (lines 46-47).  [and] short-circuits, so the indexing is
    only evaluated on a name that holds a dot. *)
Definition allowed_file (filename : string) : outcome bool :=
  if PyStr.contains "." filename then
    obind (PyStr.index (PyStr.rsplit1 "." filename) 1)
          (fun ext => Val (PyStr.mem (PyStr.lower ext) ALLOWED_EXTENSIONS))
  else Val false.

(* ----------------------------------------------------------------- *)
(** ** JSON values and Python dictionaries *)

(** What [json.load] builds and [json.dump]/[jsonify] accept.  A [dict]
    keeps its keys in insertion order. *)
#[warnings="-register-all"]
Inductive json : Type :=
| JNull
| JBool (b : bool)
| JInt (n : Z)
| JFloat (x : spec_float)
| JStr (s : string)
| JList (l : list json)
| JDict (d : list (string * json)).

Module PyDict.

(** [d[k]] on the association list behind a dictionary. *)
Fixpoint lookup {A} (k : string) (d : list (string * A)) : option A :=
  match d with
  | [] => None
  | (k', v) :: d' => if String.eqb k k' then Some v else lookup k d'
  end.

(** [d[k] = v]: an existing key keeps its place, a new one goes last. *)
Fixpoint update {A} (k : string) (v : A) (d : list (string * A)) : list (string * A) :=
  match d with
  | [] => [(k, v)]
  | (k', v') :: d' =>
      if String.eqb k k' then (k', v) :: d' else (k', v') :: update k v d'
  end.

Definition has_key {A} (k : string) (d : list (string * A)) : bool :=
  match lookup k d with Some _ => true | None => false end.

End PyDict.

Definition AttributeError (what : string) : exn :=
  PyError ("'" ++ what ++ "' object has no attribute 'get'").

Definition type_name (v : json) : string :=
  match v with
  | JNull => "NoneType"
  | JBool _ => "bool"
  | JInt _ => "int"
  | JFloat _ => "float"
  | JStr _ => "str"
  | JList _ => "list"
  | JDict _ => "dict"
  end.

(** [data.get(key, default)]: only a [dict] has the method. *)
Definition py_get (data : json) (key : string) (default : json) : outcome json :=
  match data with
  | JDict d => Val (match PyDict.lookup key d with Some v => v | None => default end)
  | _ => Exc (AttributeError (type_name data))
  end.

(** [key in data] for a value that went through [data.get] already. *)
Definition py_in (key : string) (data : json) : bool :=
  match data with
  | JDict d => PyDict.has_key key d
  | _ => false
  end.

(** Truth value of a Python object, as [if not x] tests it. *)
Definition truthy (v : json) : bool :=
  match v with
  | JNull => false
  | JBool b => b
  | JInt n => negb (n =? 0)%Z
  | JFloat (S754_zero _) => false
  | JFloat _ => true
  | JStr s => negb (String.eqb s "")
  | JList l => match l with [] => false | _ => true end
  | JDict d => match d with [] => false | _ => true end
  end.

(* ----------------------------------------------------------------- *)
(** ** Floats: true division and [round] *)

Module PyFloat.

Definition prec : Z := 53.
Definition emax : Z := 1024.

(** The binary64 value nearest to [n / d] (ties to even), of sign [s]. *)
Definition nearest (s : bool) (n : Z) (d : positive) : spec_float :=
  match n with
  | Zpos p =>
      let '(mz, ez, lz) := SFdiv_core_binary prec emax (Zpos p) 0 (Zpos d) 0 in
      binary_round_aux prec emax s mz ez lz
  | _ => S754_zero s
  end.

Definition ZeroDivisionError : exn := PyError "division by zero".

(** [a / b] on two [int]s: the correctly rounded quotient.  (A quotient
    beyond the range of binary64, where Python raises [OverflowError],
    comes out as an infinity.) *)
Definition int_truediv (a b : Z) : outcome spec_float :=
  match b with
  | Z0 => Exc ZeroDivisionError
  | Zpos d => Val (nearest (a <? 0)%Z (Z.abs a) d)
  | Zneg d => Val (nearest (0 <? a)%Z (Z.abs a) d)
  end.

(** The integer nearest to [n / d], ties to the even one. *)
Definition div_half_even (n d : Z) : Z :=
  let q := (n / d)%Z in
  match (2 * (n mod d) ?= d)%Z with
  | Lt => q
  | Gt => (q + 1)%Z
  | Eq => if Z.even q then q else (q + 1)%Z
  end.

(** [round(x, ndigits)] for [ndigits >= 0]: the decimal with [ndigits]
    places nearest to the exact value of [x], then the float nearest to
    that decimal. *)
Definition round (x : spec_float) (ndigits : N) : spec_float :=
  match x with
  | S754_finite s m e =>
      let scale := match ndigits with N0 => 1%positive | Npos p => Pos.pow 10 p end in
      let q := match e with
               | Zneg k => div_half_even (Zpos (scale * m)) (Zpos (Pos.pow 2 k))
               | _ => (Zpos (scale * m) * 2 ^ e)%Z
               end in
      nearest s q scale
  | _ => x
  end.

End PyFloat.

(* ----------------------------------------------------------------- *)
(** ** Wall-clock time *)

Record datetime : Type := {
  year : N; month : N; day : N;
  hour : N; minute : N; second : N;
  microsecond : N
}.

Module Strftime.
Local Open Scope N_scope.

Definition digit (n : N) : ascii := ascii_of_N (48 + n mod 10).

Definition pad2 (n : N) : string :=
  String (digit (n / 10)) (String (digit n) EmptyString).

Definition pad4 (n : N) : string :=
  String (digit (n / 1000)) (String (digit (n / 100)) (pad2 n)).

Definition pad6 (n : N) : string :=
  String (digit (n / 100000)) (String (digit (n / 10000)) (pad4 n)).

(** [t.strftime("%Y%m%d_%H%M%S")].  Every field is printed on its full
    width, as for the four-digit years [datetime.now()] gives. *)
Definition compact (t : datetime) : string :=
  pad4 (year t) ++ pad2 (month t) ++ pad2 (day t) ++ "_" ++
  pad2 (hour t) ++ pad2 (minute t) ++ pad2 (second t).

(** [t.isoformat()]. *)
Definition isoformat (t : datetime) : string :=
  pad4 (year t) ++ "-" ++ pad2 (month t) ++ "-" ++ pad2 (day t) ++ "T" ++
  pad2 (hour t) ++ ":" ++ pad2 (minute t) ++ ":" ++ pad2 (second t) ++
  match microsecond t with
  | N0 => EmptyString
  | us => "." ++ pad6 us
  end.

End Strftime.

(* ----------------------------------------------------------------- *)
(** ** The world a request runs in *)

(** A decoded picture: PIL's [image.size] and the bytes it was read from. *)
Record Image : Type := { size : Z * Z; source : string }.

(** One element of the list handed to [generate_content]. *)
Inductive part : Type :=
| Text (s : string)
| Picture (image : Image).

(** What a handler does to the outside, newest event first in a trace. *)
Inductive event : Type :=
| EvClock
| EvModel (prompt : list part)
| EvRead (path : string)
| EvWrite (path : string).

(** The local disk (path and content of every file, in directory order)
    and the interactions so far. *)
Record world : Type := {
  disk : list (string * string);
  trace : list event
}.

(** The collaborators app.py calls and does not define.  A reading that can
    change from one call to the next is indexed by the number of earlier
    interactions. *)
Record Env : Type := {
  (** [datetime.now()] *)
  clock : nat -> datetime;
  (** [GenerativeModel.generate_content(parts).text] *)
  generate_content : nat -> list part -> outcome string;
  (** PIL's [Image.open] on the bytes of a file: its [size], or an error *)
  decode : string -> outcome (Z * Z);
  (** [werkzeug.utils.secure_filename] *)
  secure_filename : string -> string;
  (** [json.dump(obj, f, indent=2)] and [json.load(f)] *)
  json_dump : json -> string;
  json_load : string -> outcome json;
  (** [str(x)] of a value that is not a string, inside an f-string *)
  py_str : json -> string;
  (** [list.sort] on keys that are not all strings *)
  sort_mixed : list (list (string * json)) -> outcome (list (list (string * json)));
  (** an [OSError] when a file is opened for writing *)
  write_fault : nat -> string -> option exn;
  (** [render_template] on the text of a template *)
  render : string -> outcome string;
  (** [json.dump] giving up on a value it cannot print (a [RecursionError]
      on one nested too deep): what it had written by then, and the error *)
  dump_fault : json -> option (string * exn);
  (** the error Flask's [jsonify] raises on such a value, if it raises *)
  unserializable : json -> option exn;
  (** [app.root_path], the directory of app.py, as a path from the working
      directory: empty when the service is started in its own directory *)
  root_path : string;
  (** [os.getenv('GEMINI_API_KEY')]; start-up exits when it is missing *)
  GEMINI_API_KEY : string
}.

(** A handler's body: it may change the world and may raise; what it did
    before raising stays done. *)
Definition M (A : Type) : Type := world -> outcome A * world.

Definition ret {A} (a : A) : M A := fun w => (Val a, w).

Definition bind {A B} (c : M A) (k : A -> M B) : M B :=
  fun w => match c w with
           | (Val a, w') => k a w'
           | (Exc e, w') => (Exc e, w')
           end.

Definition raise {A} (e : exn) : M A := fun w => (Exc e, w).

Definition lift {A} (o : outcome A) : M A := fun w => (o, w).

(** [try: body except Exception as e: handler(e)] *)
Definition try_except {A} (body : M A) (handler : exn -> M A) : M A :=
  fun w => match body w with
           | (Val a, w') => (Val a, w')
           | (Exc e, w') => handler e w'
           end.

Declare Scope py_scope.
Delimit Scope py_scope with py.
Notation "x <- c ;; k" := (bind c (fun x => k))
  (at level 100, c at next level, right associativity) : py_scope.
Notation "c ;;; k" := (bind c (fun _ => k))
  (at level 100, right associativity) : py_scope.
Local Open Scope py_scope.

Section Effects.
Variable E : Env.

(** [datetime.now()] *)
Definition datetime_now : M datetime :=
  fun w => (Val (clock E (length (trace w))),
            {| disk := disk w; trace := EvClock :: trace w |}).

(** [generate_content(parts)] followed by [.text] *)
Definition model_text (parts : list part) : M string :=
  fun w => (generate_content E (length (trace w)) parts,
            {| disk := disk w; trace := EvModel parts :: trace w |}).

(** [open(path, 'w')] and the write of [content]: the file is created or
    replaced; nothing is written when the open fails. *)
Definition write_file (path content : string) : M unit :=
  fun w => match write_fault E (length (trace w)) path with
           | Some e => (Exc e, w)
           | None => (Val tt, {| disk := PyDict.update path content (disk w);
                                 trace := EvWrite path :: trace w |})
           end.

Definition FileNotFoundError (path : string) : exn :=
  PyError ("[Errno 2] No such file or directory: '" ++ path ++ "'").

(** [open(path, 'r').read()] *)
Definition read_file (path : string) : M string :=
  fun w => match PyDict.lookup path (disk w) with
           | Some content => (Val content, {| disk := disk w; trace := EvRead path :: trace w |})
           | None => (Exc (FileNotFoundError path), w)
           end.

End Effects.

(* ----------------------------------------------------------------- *)
(** ** Paths (posixpath) and werkzeug's file serving *)

Module posixpath.

Definition isabs (p : string) : bool := PyStr.startswith "/" p.

(** [os.path.join(a, b)] *)
Definition join (a b : string) : string :=
  if isabs b then b
  else if String.eqb a "" || PyStr.endswith "/" a then a ++ b
  else a ++ "/" ++ b.

(** One turn of the loop of [normpath]; [new_comps] is kept last-first. *)
Definition norm_step (initial_slashes : nat) (new_comps : list string) (comp : string)
  : list string :=
  if String.eqb comp "" || String.eqb comp "." then new_comps
  else if negb (String.eqb comp "..")
          || (Nat.eqb initial_slashes 0 && match new_comps with [] => true | _ => false end)
          || match new_comps with last :: _ => String.eqb last ".." | [] => false end
       then comp :: new_comps
       else match new_comps with
            | _ :: popped => popped
            | [] => new_comps
            end.

Fixpoint slashes (n : nat) : string :=
  match n with
  | O => EmptyString
  | S k => String "/" (slashes k)
  end.

(** [os.path.normpath(path)] *)
Definition normpath (path : string) : string :=
  if String.eqb path "" then "."
  else
    let initial_slashes :=
      if PyStr.startswith "/" path then
        if PyStr.startswith "//" path && negb (PyStr.startswith "///" path) then 2%nat
        else 1%nat
      else 0%nat in
    let comps := fold_left (norm_step initial_slashes) (PyStr.split "/" path) [] in
    let joined := slashes initial_slashes ++ PyStr.join "/" (List.rev comps) in
    if String.eqb joined "" then "." else joined.

End posixpath.

Module werkzeug.

Definition NotFound : exn :=
  HTTPException 404 "Not Found"
    "The requested URL was not found on the server. If you entered the URL manually please check your spelling and try again.".

Definition RequestEntityTooLarge : exn :=
  HTTPException 413 "Request Entity Too Large"
    "The data value transmitted exceeds the capacity limit.".

Definition RequestedRangeNotSatisfiable : exn :=
  HTTPException 416 "Requested Range Not Satisfiable"
    "The server cannot provide the requested range.".

(** [safe_join(directory, filename)] on a POSIX host: [None] for a name
    that would leave [directory]. *)
Definition safe_join (directory filename : string) : option string :=
  let directory := if String.eqb directory "" then "." else directory in
  let filename := if String.eqb filename "" then filename else posixpath.normpath filename in
  if posixpath.isabs filename
     || String.eqb filename ".."
     || PyStr.startswith "../" filename
  then None
  else Some (posixpath.join directory filename).

End werkzeug.

(* ----------------------------------------------------------------- *)
(** ** Requests and responses *)

Inductive http_method : Type := GET | HEAD | POST | PUT | PATCH | DELETE | OPTIONS.

(** An uploaded file of a multipart form. *)
Record FileStorage : Type := { filename : string; content : string }.

(** What werkzeug's [make_conditional] makes of a file about to be sent,
    by the [Range] and [If-...] headers of the request. *)
Inductive conditional : Type :=
| Whole                      (** none of them applies: 200 and the file *)
| PartialContent (first size : nat)
                             (** a range that can be met: 206 and [size]
                                 bytes of the file, from offset [first] *)
| NotModified                (** 304 and no body *)
| PreconditionFailed         (** [If-Match] fails: 412 *)
| RangeNotSatisfiable.       (** a range that cannot be met: 416 is raised *)

Record request : Type := {
  method : http_method;
  (** the decoded path of the URL *)
  path : string;
  (** the size of the body in bytes *)
  content_length : Z;
  (** the file fields of the form, by field name *)
  form_files : list (string * FileStorage);
  (** the error werkzeug's form parser raises on a body within
      [MAX_CONTENT_LENGTH], if it raises: 413 for a field longer than
      [MAX_FORM_MEMORY_SIZE] or a form of more than [MAX_FORM_PARTS] parts *)
  form_fault : option exn;
  (** what [get_json] makes of a body it may read: the parsed value, 415
      when the Content-Type is not JSON, 400 when the text does not parse *)
  json_payload : outcome json;
  (** [make_conditional] for the file at a path, with its bytes; [Whole]
      throughout for a request without [Range] and [If-...] headers *)
  make_conditional : string -> string -> conditional
}.

Inductive body : Type :=
| Json (j : json)
| File (content : string)
| FilePart (slice : string)
| Html (text : string)
| ErrorPage
| Redirect (location : string)
| NoBody.

Record response : Type := { status : nat; payload : body }.

(** [jsonify(d)], with Flask's default status. *)
Definition jsonify (d : list (string * json)) : response :=
  {| status := 200; payload := Json (JDict d) |}.

(** [return response, code] *)
Definition with_status (r : response) (code : nat) : response :=
  {| status := code; payload := payload r |}.

(** The envelope of every failure: [{'error': msg, 'success': False}]. *)
Definition failure (msg : string) : list (string * json) :=
  [("error", JStr msg); ("success", JBool false)].

(** Flask refuses to read a body longer than [MAX_CONTENT_LENGTH]: the
    refusal is raised where the view touches the body. *)
Definition over_limit (req : request) : bool :=
  (MAX_CONTENT_LENGTH <? content_length req)%Z.

(** [request.files]: the stream is refused when the body is over the
    limit; within it, the form parser can still refuse the form. *)
Definition request_files (req : request) : outcome (list (string * FileStorage)) :=
  if over_limit req then Exc werkzeug.RequestEntityTooLarge
  else match form_fault req with
       | Some e => Exc e
       | None => Val (form_files req)
       end.

(** werkzeug's [is_json]: the Content-Type announces JSON. *)
Definition is_json (req : request) : bool :=
  match json_payload req with
  | Exc (HTTPException code _ _) => negb (Nat.eqb code 415)
  | _ => true
  end.

(** [request.get_json()]: the Content-Type is tested first, without a look
    at the body; only then is the body read, and refused over the limit. *)
Definition get_json (req : request) : outcome json :=
  if negb (is_json req) then json_payload req
  else if over_limit req then Exc werkzeug.RequestEntityTooLarge
  else json_payload req.

(* ----------------------------------------------------------------- *)
(** ** The prompts (analyze_image, lines 93-123; generate_plan, 176-189) *)

Definition quote : string := String (ascii_of_nat 34) EmptyString.

Definition prompt : string := "
        You are an expert architect and floor plan analyzer. Analyze this floor plan image and provide:

        1. **DIMENSIONS ANALYSIS:**
           - Estimate the total floor area in square feet
           - Identify the approximate length and width of the property
           - Calculate room dimensions where visible

        2. **SPACE IDENTIFICATION:**
           - List all identifiable rooms and spaces
           - Estimate the size of each room in square feet
           - Identify doors, windows, and openings

        3. **OPTIMAL LAYOUT RECOMMENDATIONS:**
           - Suggest improvements for space utilization
           - Recommend furniture placement for each room
           - Identify potential traffic flow issues
           - Suggest lighting and ventilation considerations

        4. **MEASUREMENTS & SPECIFICATIONS:**
           - Provide specific measurements in feet and inches
           - Calculate total usable space vs. circulation space
           - Identify any structural elements (walls, columns, etc.)

        5. **DESIGN SUGGESTIONS:**
           - Recommend color schemes for different areas
           - Suggest materials for flooring in different rooms
           - Provide storage solutions for each space

        Please format your response in clear sections with bullet points and specific measurements where possible.
        ".

Definition plan_prompt (requirements : string) : string :=
  "
        Based on these requirements: " ++ quote ++ requirements ++ quote ++ "
        
        Generate a detailed floor plan with:
        1. Room layout and dimensions
        2. Door and window placements
        3. Furniture arrangement suggestions
        4. Traffic flow optimization
        5. Lighting and electrical recommendations
        6. Plumbing considerations
        7. Storage solutions
        
        Provide specific measurements and practical implementation details.
        ".

(* ----------------------------------------------------------------- *)
(** ** The handlers of app.py *)

(** [process_image_dimensions] (lines 49-57) *)
Definition process_image_dimensions (image : Image) : outcome (list (string * json)) :=
  let '(width, height) := size image in
  obind (PyFloat.int_truediv width height) (fun aspect_ratio =>
  Val [("width", JInt width);
       ("height", JInt height);
       ("aspect_ratio", JFloat (PyFloat.round aspect_ratio 2))]).

(** [s] without its prefix [p], when it has that prefix. *)
Fixpoint strip_prefix (p s : string) : option string :=
  match p, s with
  | EmptyString, _ => Some s
  | String a p', String b s' => if Ascii.eqb a b then strip_prefix p' s' else None
  | String _ _, EmptyString => None
  end.

(** The name a file at [path] has in [folder], when it lies directly in it. *)
Definition entry_name (folder path : string) : option string :=
  match strip_prefix (folder ++ "/") path with
  | Some name =>
      if String.eqb name "" || PyStr.contains "/" name then None else Some name
  | None => None
  end.

(** [os.listdir(folder)]: the names directly under [folder], in the order
    the directory gives them. *)
Definition listdir (folder : string) (w : world) : list string :=
  flat_map (fun f => match entry_name folder (fst f) with
                     | Some name => [name]
                     | None => []
                     end) (disk w).

(** [files.sort(key=lambda x: x['timestamp'], reverse=True)] on string
    keys: a stable sort, largest key first. *)
Fixpoint insert_desc {A} (x : string * A) (l : list (string * A)) : list (string * A) :=
  match l with
  | [] => [x]
  | y :: l' => if String.ltb (fst x) (fst y) then y :: insert_desc x l' else x :: l
  end.

Definition sort_desc {A} (l : list (string * A)) : list (string * A) :=
  fold_right insert_desc [] l.

(** The sort key of every entry, when each is a string. *)
Fixpoint str_keys (files : list (list (string * json)))
  : option (list (string * list (string * json))) :=
  match files with
  | [] => Some []
  | x :: rest =>
      match PyDict.lookup "timestamp" x, str_keys rest with
      | Some (JStr t), Some keyed => Some ((t, x) :: keyed)
      | _, _ => None
      end
  end.

Section App.
Variable E : Env.

Definition sort_newest_first (files : list (list (string * json)))
  : outcome (list (list (string * json))) :=
  match str_keys files with
  | Some keyed => Val (map snd (sort_desc keyed))
  | None => sort_mixed E files
  end.

(** [file.save(filepath)] *)
Definition save (file : FileStorage) (filepath : string) : M unit :=
  write_file E filepath (content file).

(** [Image.open(filepath)] *)
Definition Image_open (filepath : string) : M Image :=
  bytes <- read_file filepath ;;
  dims <- lift (decode E bytes) ;;
  ret {| size := dims; source := bytes |}.

(** [with open(path, 'w') as f: json.dump(data, f, indent=2)] *)
Definition dump_to (path : string) (data : list (string * json)) : M unit :=
  write_file E path (json_dump E (JDict data)).

(** An f-string's [{x}]. *)
Definition format_value (x : json) : string :=
  match x with
  | JStr s => s
  | _ => py_str E x
  end.

(** The record [analyze_image] builds (lines 139-145). *)
Definition analysis_record (timestamp filename : string)
    (image_info : list (string * json)) (text : string) : list (string * json) :=
  [("timestamp", JStr timestamp);
   ("filename", JStr filename);
   ("image_info", JDict image_info);
   ("analysis", JStr text);
   ("success", JBool true)].

(** The [try] block of [analyze_image] (lines 66-155), less its [print]s. *)
Definition analyze_image_try (req : request) : M response :=
  files <- lift (request_files req) ;;
  match PyDict.lookup "image" files with
  | None => ret (jsonify (failure "No image uploaded"))
  | Some file =>
      if String.eqb (filename file) "" then
        ret (jsonify (failure "No file selected"))
      else
        allowed <- lift (allowed_file (filename file)) ;;
        if negb allowed then
          ret (jsonify (failure "Invalid file type. Please upload an image."))
        else
          let filename0 := secure_filename E (filename file) in
          now <- datetime_now E ;;
          let timestamp := Strftime.compact now in
          let filename := timestamp ++ "_" ++ filename0 in
          let filepath := posixpath.join UPLOAD_FOLDER filename in
          save file filepath ;;;
          image <- Image_open filepath ;;
          image_info <- lift (process_image_dimensions image) ;;
          text <- model_text E [Text prompt; Picture image] ;;
          if String.eqb text "" then
            ret (jsonify (failure "No response from AI model"))
          else
            let analysis_data := analysis_record timestamp filename image_info text in
            let analysis_filename := "analysis_" ++ timestamp ++ ".json" in
            let analysis_path := posixpath.join OUTPUT_FOLDER analysis_filename in
            dump_to analysis_path analysis_data ;;;
            ret (jsonify analysis_data)
  end.

(** [analyze_image] (lines 63-162): the block, and its [except Exception]. *)
Definition analyze_image (req : request) : M response :=
  try_except (analyze_image_try req)
    (fun e => ret (jsonify (failure ("Error processing image: " ++ str_exn e)))).

(** The record [generate_plan] builds (lines 205-210). *)
Definition plan_record (timestamp : string) (requirements : json) (text : string)
  : list (string * json) :=
  [("timestamp", JStr timestamp);
   ("requirements", requirements);
   ("generated_plan", JStr text);
   ("success", JBool true)].

(** [json.dump(plan_data, f, indent=2)] (lines 213-216).  The record
    holds [requirements] as the request gave it, any JSON value: when the
    encoder gives up on it, the file is open, and what was written by then
    stays. *)
Definition dump_plan (path : string) (plan_data : list (string * json)) : M unit :=
  match dump_fault E (JDict plan_data) with
  | Some (written, e) => write_file E path written ;;; raise e
  | None => dump_to path plan_data
  end.

(** [jsonify(plan_data)] (line 220).  Flask serialises the answer on the
    spot: this call can raise as well, after the record was written. *)
Definition jsonify_plan (plan_data : list (string * json)) : M response :=
  match unserializable E (JDict plan_data) with
  | Some e => raise e
  | None => ret (jsonify plan_data)
  end.

(** The [try] block of [generate_plan] (lines 167-220), less its [print]s. *)
Definition generate_plan_try (req : request) : M response :=
  data <- lift (get_json req) ;;
  requirements <- lift (py_get data "requirements" (JStr "")) ;;
  if negb (truthy requirements) then
    ret (jsonify (failure "No requirements provided"))
  else
    text <- model_text E [Text (plan_prompt (format_value requirements))] ;;
    if String.eqb text "" then
      ret (jsonify (failure "No response from AI model"))
    else
      now <- datetime_now E ;;
      let timestamp := Strftime.compact now in
      let plan_data := plan_record timestamp requirements text in
      let plan_filename := "plan_" ++ timestamp ++ ".json" in
      let plan_path := posixpath.join OUTPUT_FOLDER plan_filename in
      dump_plan plan_path plan_data ;;;
      jsonify_plan plan_data.

(** [generate_plan] (lines 164-227): the block, and its [except Exception]. *)
Definition generate_plan (req : request) : M response :=
  try_except (generate_plan_try req)
    (fun e => ret (jsonify (failure ("Error generating plan: " ++ str_exn e)))).

Definition api_key_configured : json :=
  JBool (negb (String.eqb (GEMINI_API_KEY E) "")).

(** [test_api] (lines 229-247) *)
Definition test_api : M response :=
  try_except
    (text <- model_text E [Text "Say 'Hello, Gemini API is working!'"] ;;
     ret (jsonify [("success", JBool true);
                   ("message", JStr "API connection successful");
                   ("response", JStr text);
                   ("api_key_configured", api_key_configured)]))
    (fun e => ret (jsonify [("success", JBool false);
                            ("error", JStr (str_exn e));
                            ("api_key_configured", api_key_configured)])).

(** The body of the loop of [get_history] (lines 255-266): one listed
    name, appended to [files] when it reads and parses as a record. *)
Definition history_entry (filename : string) (data : json)
  : outcome (list (string * json)) :=
  obind (py_get data "timestamp" (JStr "")) (fun timestamp =>
  Val [("filename", JStr filename);
       ("timestamp", timestamp);
       ("type", JStr (if py_in "analysis" data then "analysis" else "plan"))]).

Definition scan_one (files : list (list (string * json))) (filename : string)
  : M (list (list (string * json))) :=
  if PyStr.endswith ".json" filename then
    let filepath := posixpath.join OUTPUT_FOLDER filename in
    try_except
      (text <- read_file filepath ;;
       data <- lift (json_load E text) ;;
       entry <- lift (history_entry filename data) ;;
       ret (files ++ [entry])%list)
      (fun _ => ret files)
  else ret files.

Fixpoint scan (names : list string) (files : list (list (string * json)))
  : M (list (list (string * json))) :=
  match names with
  | [] => ret files
  | filename :: rest => files' <- scan_one files filename ;; scan rest files'
  end.

(** [get_history] (lines 249-276).  A missing [outputs] directory lists
    nothing, like an empty one. *)
Definition get_history : M response :=
  try_except
    (names <- (fun w => (Val (listdir OUTPUT_FOLDER w), w)) ;;
     files <- scan names [] ;;
     sorted <- lift (sort_newest_first files) ;;
     ret (jsonify [("files", JList (map JDict sorted)); ("success", JBool true)]))
    (fun e => ret (jsonify (failure ("Error fetching history: " ++ str_exn e)))).

(** Where Flask looks for a path it is given relative to the
    application: under [app.root_path]. *)
Definition under_root (p : string) : string := posixpath.join (root_path E) p.

(** [send_file], with the [NotFound] of [send_from_directory] for a path
    that is no file: the file is opened, then the answer is made
    conditional on the headers of the request. *)
Definition send_file (req : request) (full : string) : M response :=
  bytes <- try_except (read_file full) (fun _ => raise werkzeug.NotFound) ;;
  match make_conditional req full bytes with
  | Whole => ret {| status := 200; payload := File bytes |}
  | PartialContent first size =>
      ret {| status := 206; payload := FilePart (String.substring first size bytes) |}
  | NotModified => ret {| status := 304; payload := NoBody |}
  | PreconditionFailed => ret {| status := 412; payload := File bytes |}
  | RangeNotSatisfiable => raise werkzeug.RequestedRangeNotSatisfiable
  end.

(** Flask's [send_from_directory(directory, path)] for the request being
    served: the joined path is looked up under [app.root_path]. *)
Definition send_from_directory (req : request) (directory path : string) : M response :=
  match werkzeug.safe_join directory path with
  | None => raise werkzeug.NotFound
  | Some full => send_file req (under_root full)
  end.

(** [download_file] (lines 278-286) *)
Definition download_file (req : request) (filename : string) : M response :=
  try_except
    (send_from_directory req OUTPUT_FOLDER filename)
    (fun e => ret (jsonify (failure ("File not found: " ++ str_exn e)))).

(** [health_check] (lines 288-295) *)
Definition health_check : M response :=
  now <- datetime_now E ;;
  ret (jsonify [("status", JStr "healthy");
                ("timestamp", JStr (Strftime.isoformat now));
                ("gemini_configured", api_key_configured);
                ("api_key_length",
                 JInt (if String.eqb (GEMINI_API_KEY E) "" then 0
                       else Z.of_nat (String.length (GEMINI_API_KEY E))))]).

Definition TemplateNotFound (name : string) : exn := PyError name.

(** [index] (lines 59-61); the templates are looked up under
    [app.root_path]. *)
Definition index : M response :=
  text <- try_except (read_file (under_root "templates/index.html"))
                     (fun _ => raise (TemplateNotFound "index.html")) ;;
  page <- lift (render E text) ;;
  ret {| status := 200; payload := Html page |}.

End App.

(* ----------------------------------------------------------------- *)
(** ** Routing and the error handlers *)

(** [too_large], [not_found], [internal_error] (lines 298-317) *)
Definition too_large : response :=
  with_status (jsonify (failure "File too large. Maximum size is 16MB.")) 413.

Definition not_found : response :=
  with_status (jsonify (failure "Endpoint not found")) 404.

Definition internal_error : response :=
  with_status (jsonify (failure "Internal server error")) 500.

(** The view functions the [@app.route] decorators register, and the
    static files view Flask adds by itself. *)
Inductive endpoint : Type :=
| ep_index
| ep_analyze_image
| ep_generate_plan
| ep_test_api
| ep_get_history
| ep_download_file (filename : string)
| ep_health_check
| ep_static (filename : string).

(** [<filename>], the default converter: one non-empty path segment. *)
Definition string_converter (segment : string) : bool :=
  negb (String.eqb segment "") && negb (PyStr.contains "/" segment).

(** [<path:filename>]: non-empty, slashes allowed but not in front. *)
Definition path_converter (rest : string) : bool :=
  negb (String.eqb rest "") && negb (PyStr.startswith "/" rest).

(** The rule a path matches, if any. *)
Definition match_rule (p : string) : option endpoint :=
  if String.eqb p "/" then Some ep_index
  else if String.eqb p "/analyze" then Some ep_analyze_image
  else if String.eqb p "/generate_plan" then Some ep_generate_plan
  else if String.eqb p "/test_api" then Some ep_test_api
  else if String.eqb p "/history" then Some ep_get_history
  else if String.eqb p "/health" then Some ep_health_check
  else match strip_prefix "/download/" p with
       | Some segment =>
           if string_converter segment then Some (ep_download_file segment) else None
       | None =>
           match strip_prefix "/static/" p with
           | Some rest => if path_converter rest then Some (ep_static rest) else None
           | None => None
           end
       end.

(** The methods of a rule: [methods=['POST']] where the decorator says so,
    [GET] and [HEAD] otherwise, and [OPTIONS] everywhere. *)
Definition rule_allows (ep : endpoint) (m : http_method) : bool :=
  match ep, m with
  | _, OPTIONS => true
  | (ep_analyze_image | ep_generate_plan), POST => true
  | (ep_analyze_image | ep_generate_plan), _ => false
  | _, (GET | HEAD) => true
  | _, _ => false
  end.

(** The path of the router's second try: every run of slashes merged
    into one. *)
Fixpoint merge_slashes (p : string) : string :=
  match p with
  | EmptyString => EmptyString
  | String a rest =>
      match rest with
      | String b _ =>
          if Ascii.eqb a "/" && Ascii.eqb b "/" then merge_slashes rest
          else String a (merge_slashes rest)
      | EmptyString => String a EmptyString
      end
  end.

Inductive routing : Type :=
| Route (ep : endpoint)
| RequestRedirect (new_path : string)
| MethodNotAllowed
| NoMatch.

(** One pass over the rules: the rule found, and whether some rule
    matched the path under another method. *)
Definition find_rule (p : string) (m : http_method) : option endpoint * bool :=
  match match_rule p with
  | Some ep => if rule_allows ep m then (Some ep, false) else (None, true)
  | None => (None, false)
  end.

(** [path_info.lstrip("/")] *)
Fixpoint lstrip_slashes (p : string) : string :=
  match p with
  | String a rest => if Ascii.eqb a "/" then lstrip_slashes rest else p
  | EmptyString => EmptyString
  end.

(** The router matches the path with the slashes in front of it reduced
    to one, and answers without a redirect when a rule fits; failing
    that, it tries the path with its slashes merged. *)
Definition url_match (path_info : string) (m : http_method) : routing :=
  let p := "/" ++ lstrip_slashes path_info in
  match find_rule p m with
  | (Some ep, _) => Route ep
  | (None, other_method) =>
      let merged := merge_slashes p in
      match find_rule merged m with
      | (Some _, _) => RequestRedirect merged
      | (None, other_method') =>
          if other_method || other_method' then MethodNotAllowed else NoMatch
      end
  end.

Section Server.
Variable E : Env.

Definition view (ep : endpoint) (req : request) : M response :=
  match ep with
  | ep_index => index E
  | ep_analyze_image => analyze_image E req
  | ep_generate_plan => generate_plan E req
  | ep_test_api => test_api E
  | ep_get_history => get_history E
  | ep_download_file filename => download_file E req filename
  | ep_health_check => health_check E
  | ep_static filename => send_from_directory E req "static" filename
  end.

(** Flask's [dispatch_request]: routing failures are raised, [OPTIONS] is
    answered without calling the view. *)
Definition dispatch_request (req : request) : M response :=
  match url_match (path req) (method req) with
  | Route ep =>
      match method req with
      | OPTIONS => ret {| status := 200; payload := NoBody |}
      | _ => view ep req
      end
  | RequestRedirect new_path => ret {| status := 308; payload := Redirect new_path |}
  | MethodNotAllowed =>
      raise (HTTPException 405 "Method Not Allowed"
               "The method is not allowed for the requested URL.")
  | NoMatch => raise werkzeug.NotFound
  end.

(** The handler registered for an exception that left the view. *)
Definition handle_exception (e : exn) : response :=
  match e with
  | HTTPException code _ _ =>
      if Nat.eqb code 413 then too_large
      else if Nat.eqb code 404 then not_found
      else if Nat.eqb code 500 then internal_error
      else {| status := code; payload := ErrorPage |}
  | PyError _ => internal_error
  end.

(** One request, from the router to the response. *)
Definition wsgi_app (req : request) (w : world) : response * world :=
  match dispatch_request req w with
  | (Val r, w') => (r, w')
  | (Exc e, w') => (handle_exception e, w')
  end.

End Server.

(* ----------------------------------------------------------------- *)
(** ** Start-up (app.py, lines 12-44 and 319-337) *)

(** What the module asks of its host while it is loaded. *)
Record Host : Type := {
  (** [os.getenv], once [load_dotenv()] has read the .env file *)
  getenv : string -> option string;
  (** [os.makedirs(path, exist_ok=True)] *)
  makedirs : string -> outcome unit;
  (** [genai.configure(api_key=...)], then [genai.GenerativeModel(...)] *)
  configure : string -> outcome unit;
  (** [GenerativeModel(...).generate_content(prompt)], the answer unused *)
  probe : string -> outcome unit
}.

(** The calls start-up makes, newest first in a log. *)
Inductive boot_event : Type :=
| BootMakedirs (path : string)
| BootConfigure (api_key : string)
| BootProbe (prompt : string)
| BootRun (host : string) (port : Z) (debug : bool).

(** How loading ends: the module is loaded and holds the key, the
    interpreter exits with a status, or an exception is left uncaught. *)
Inductive boot : Type :=
| Loaded (api_key : string)
| SystemExit (code : Z)
| Uncaught (e : exn).

(** The [os.makedirs] calls (lines 24-27), in order; the first one that
    raises ends the import. *)
Fixpoint make_folders (H : Host) (paths : list string) (log : list boot_event)
  : outcome unit * list boot_event :=
  match paths with
  | [] => (Val tt, log)
  | p :: rest =>
      match makedirs H p with
      | Val _ => make_folders H rest (BootMakedirs p :: log)
      | Exc e => (Exc e, BootMakedirs p :: log)
      end
  end.

(** The module body (lines 12-44), less its [print]s. *)
Definition module_body (H : Host) : boot * list boot_event :=
  match make_folders H [UPLOAD_FOLDER; OUTPUT_FOLDER; "templates"; "static"] [] with
  | (Exc e, log) => (Uncaught e, log)
  | (Val _, log) =>
      match getenv H "GEMINI_API_KEY" with
      | None => (SystemExit 1, log)
      | Some key =>
          if String.eqb key "" then (SystemExit 1, log)
          else match configure H key with
               | Val _ => (Loaded key, BootConfigure key :: log)
               | Exc _ => (SystemExit 1, BootConfigure key :: log)
               end
      end
  end.

(** The script (lines 319-337), less its [print]s: the connection test,
    whose two outcomes differ by what is printed only, then [app.run]. *)
Definition script (H : Host) : boot * list boot_event :=
  match module_body H with
  | (Loaded key, log) =>
      let log := BootProbe "Test connection" :: log in
      match probe H "Test connection" with
      | Val _ => (Loaded key, BootRun "0.0.0.0" 5000 true :: log)
      | Exc _ => (Loaded key, BootRun "0.0.0.0" 5000 true :: log)
      end
  | stopped => stopped
  end.

(* ================================================================= *)
(** * Specification vocabulary *)

(** The predicates the theorems below are stated with.  None of them is
    used by the handlers. *)

(** The words of the specification for an accepted upload: the name holds
    a dot, and what follows its last dot, lowercased, is an allowed
    extension. *)
Definition has_allowed_extension (filename : string) : Prop :=
  exists stem ext,
    filename = stem ++ "." ++ ext /\
    PyStr.contains "." ext = false /\
    In (PyStr.lower ext) ALLOWED_EXTENSIONS.

(** What a response of the two pipelines can be. *)
Definition is_failure (r : response) : Prop :=
  exists msg, r = jsonify (failure msg).

Definition is_analysis (r : response) : Prop :=
  exists timestamp filename image_info text,
    r = jsonify (analysis_record timestamp filename image_info text).

Definition is_plan (r : response) : Prop :=
  exists timestamp requirements text,
    r = jsonify (plan_record timestamp requirements text).

Definition invalid_file_type : response :=
  jsonify (failure "Invalid file type. Please upload an image.").

Definition no_file_selected : response :=
  jsonify (failure "No file selected").

(** The validation passed: the handler went on to read the clock, the
    first thing it does on the way to saving the upload. *)
Definition went_on (w w' : world) : Prop :=
  exists later, trace w' = (later ++ EvClock :: trace w)%list.

(** [r] is [x] rounded to two decimal places: the float nearest to
    [q / 100] for an integer [q] within one half of [100 * x] (the value
    of a finite [x] being [m * 2 ^ e]). *)
Definition two_places (x r : spec_float) : Prop :=
  match x with
  | S754_finite s m e =>
      exists q : Z,
        r = PyFloat.nearest s q 100 /\
        (0 <= e -> q = 100 * Zpos m * 2 ^ e)%Z /\
        (e < 0 -> Z.abs (2 * (100 * Zpos m) - 2 * q * 2 ^ (- e)) <= 2 ^ (- e))%Z
  | _ => r = x
  end.

Definition float_one : spec_float := S754_finite false 4503599627370496 (-52).

Definition is_digit (c : ascii) : bool :=
  let n := N_of_ascii c in (48 <=? n)%N && (n <=? 57)%N.

(** The shape YYYYMMDD_HHMMSS: eight digits, an underscore, six digits. *)
Definition is_compact_timestamp (s : string) : bool :=
  match s with
  | String y1 (String y2 (String y3 (String y4 (String m1 (String m2
      (String d1 (String d2 (String u (String h1 (String h2 (String n1
      (String n2 (String s1 (String s2 EmptyString)))))))))))))) =>
      forallb is_digit [y1; y2; y3; y4; m1; m2; d1; d2; h1; h2; n1; n2; s1; s2]
      && Ascii.eqb u "_"
  | _ => false
  end.

Definition clock_readings (events : list event) : nat :=
  length (filter (fun e => match e with EvClock => true | _ => false end) events).

(** The names a request can write under: an upload or a record named
    after a clock reading of this very request. *)
Definition timestamp_named (E : Env) (w : world) (p : string) : Prop :=
  exists n name,
    (n = length (trace w) \/ n = S (length (trace w))) /\
    (p = "uploads/" ++ Strftime.compact (clock E n) ++ "_" ++ name \/
     p = "outputs/analysis_" ++ Strftime.compact (clock E n) ++ ".json" \/
     p = "outputs/plan_" ++ Strftime.compact (clock E n) ++ ".json").

(** The names an analysis request can write under: the upload and the
    record, both named after its one clock reading. *)
Definition analysis_named (E : Env) (w : world) (p : string) : Prop :=
  let timestamp := Strftime.compact (clock E (length (trace w))) in
  (exists name, p = "uploads/" ++ timestamp ++ "_" ++ name) \/
  p = "outputs/analysis_" ++ timestamp ++ ".json".

(** The name a plan request can write under: the record, named after the
    clock reading that follows the answer of the model. *)
Definition plan_named (E : Env) (w : world) (p : string) : Prop :=
  p = "outputs/plan_" ++ Strftime.compact (clock E (S (length (trace w)))) ++ ".json".

(** The disk after is the disk before with at most two files written,
    each under a timestamp name. *)
Definition wrote_timestamp_named (E : Env) (w w' : world) : Prop :=
  disk w' = disk w \/
  (exists p text, timestamp_named E w p /\ disk w' = PyDict.update p text (disk w)) \/
  (exists p text p' text',
     timestamp_named E w p /\ timestamp_named E w p' /\
     disk w' = PyDict.update p' text' (PyDict.update p text (disk w))).

Inductive kind : Type := Analysis | Plan.

Definition kind_name (k : kind) : string :=
  match k with Analysis => "analysis" | Plan => "plan" end.

(** What a file of the output directory holds, for the listing: a
    well-formed record (a JSON object with a string [timestamp]), an
    analysis when the object has an [analysis] field and a plan
    otherwise; or nothing the listing keeps (another kind of file, text
    that does not parse, a JSON value that is no object). *)
Inductive holds (E : Env) (name text : string) : option (string * kind) -> Prop :=
| holds_analysis d timestamp :
    PyStr.endswith ".json" name = true ->
    json_load E text = Val (JDict d) ->
    PyDict.lookup "timestamp" d = Some (JStr timestamp) ->
    PyDict.has_key "analysis" d = true ->
    holds E name text (Some (timestamp, Analysis))
| holds_plan d timestamp :
    PyStr.endswith ".json" name = true ->
    json_load E text = Val (JDict d) ->
    PyDict.lookup "timestamp" d = Some (JStr timestamp) ->
    PyDict.has_key "analysis" d = false ->
    holds E name text (Some (timestamp, Plan))
| holds_unparseable e :
    json_load E text = Exc e ->
    holds E name text None
| holds_no_object v :
    json_load E text = Val v ->
    (forall d, v <> JDict d) ->
    holds E name text None
| holds_other_file :
    PyStr.endswith ".json" name = false ->
    holds E name text None.

(** The files directly under [folder], with their contents, in directory
    order. *)
Definition folder_files (folder : string) (w : world) : list (string * string) :=
  flat_map (fun name => match PyDict.lookup (posixpath.join folder name) (disk w) with
                        | Some text => [(name, text)]
                        | None => []
                        end) (listdir folder w).

(** The entry of the listing for a record. *)
Definition history_record (name timestamp : string) (k : kind) : list (string * json) :=
  [("filename", JStr name); ("timestamp", JStr timestamp); ("type", JStr (kind_name k))].

Definition listed (name : string) (c : option (string * kind)) : list (list (string * json)) :=
  match c with
  | Some (timestamp, k) => [history_record name timestamp k]
  | None => []
  end.

Fixpoint expected (files : list (string * string)) (cs : list (option (string * kind)))
  : list (list (string * json)) :=
  match files, cs with
  | f :: files', c :: cs' => (listed (fst f) c ++ expected files' cs')%list
  | _, _ => []
  end.

Definition count_kind (k : kind) (cs : list (option (string * kind))) : nat :=
  length (filter (fun c => match c, k with
                           | Some (_, Analysis), Analysis => true
                           | Some (_, Plan), Plan => true
                           | _, _ => false
                           end) cs).

(** [x] is at least as new as [y], by their timestamp strings. *)
Definition newer_or_equal (x y : list (string * json)) : Prop :=
  exists tx ty,
    PyDict.lookup "timestamp" x = Some (JStr tx) /\
    PyDict.lookup "timestamp" y = Some (JStr ty) /\
    String.leb ty tx = true.

(** What one listed name adds to [files] in [get_history]. *)
Definition scanned (E : Env) (w : world) (name : string) : list (list (string * json)) :=
  if PyStr.endswith ".json" name then
    match PyDict.lookup (posixpath.join OUTPUT_FOLDER name) (disk w) with
    | Some text =>
        match json_load E text with
        | Val data =>
            match history_entry name data with
            | Val entry => [entry]
            | Exc _ => []
            end
        | Exc _ => []
        end
    | None => []
    end
  else [].

Definition desc {A} (a b : string * A) : Prop := String.leb (fst b) (fst a) = true.

(** Every entry is paired with its own timestamp. *)
Definition keyed_by_timestamp (kx : string * list (string * json)) : Prop :=
  PyDict.lookup "timestamp" (snd kx) = Some (JStr (fst kx)).

(** A name that is one path segment and no directory. *)
Definition plain_name (name : string) : Prop :=
  PyStr.contains "/" name = false /\ name <> "" /\ name <> "." /\ name <> "..".




Definition segment_ok (s : string) : Prop :=
  s <> ".." /\ PyStr.contains "/" s = false.

(** A relative path that only descends: segments joined by slashes, none
    of them [..]. *)
Definition descends (rel : string) : Prop :=
  exists segments, rel = PyStr.join "/" segments /\ Forall segment_ok segments.

(** The stack of [normpath] on a relative path, last segment first: proper
    segments on top of leading [..]s. *)
Inductive stack_ok : list string -> Prop :=
| stack_dots k : stack_ok (repeat ".." k)
| stack_push c s : segment_ok c -> stack_ok s -> stack_ok (c :: s).

(** The answer to a method the route does not take: Flask's own page,
    no handler being registered for 405. *)
Definition method_not_allowed : response := {| status := 405; payload := ErrorPage |}.

(** The answer of [download_file] when [send_from_directory] raised
    [NotFound]. *)
Definition file_not_found : response :=
  jsonify (failure "File not found: 404 Not Found: The requested URL was not found on the server. If you entered the URL manually please check your spelling and try again.").

Definition model_calls (events : list event) : nat :=
  length (filter (fun e => match e with EvModel _ => true | _ => false end) events).


(** The reads of a scan over [names]: one per name that ends in .json,
    the last one first. *)
Definition opened (names : list string) : list event :=
  map (fun name => EvRead ("outputs/" ++ name))
      (rev (filter (PyStr.endswith ".json") names)).

(** A reading of [datetime.now()]: a four-digit year, and every other
    field within its range. *)
Definition calendar (t : datetime) : Prop :=
  (1000 <= year t <= 9999 /\ 1 <= month t <= 12 /\ 1 <= day t <= 31 /\
   hour t <= 23 /\ minute t <= 59 /\ second t <= 59)%N.

(** Lexicographic combination of two comparisons. *)
Definition then_by (c rest : comparison) : comparison :=
  match c with Eq => rest | _ => c end.

(** Which of two readings is the earlier one, to the second. *)
Definition compare_seconds (a b : datetime) : comparison :=
  then_by (year a ?= year b)%N
    (then_by (month a ?= month b)%N
       (then_by (day a ?= day b)%N
          (then_by (hour a ?= hour b)%N
             (then_by (minute a ?= minute b)%N (second a ?= second b)%N)))).

Definition same_second (a b : datetime) : Prop :=
  year a = year b /\ month a = month b /\ day a = day b /\
  hour a = hour b /\ minute a = minute b /\ second a = second b.

(** The entries of a listing that carry a given timestamp. *)
Definition with_timestamp (timestamp : string) (x : list (string * json)) : bool :=
  match PyDict.lookup "timestamp" x with
  | Some (JStr t) => String.eqb t timestamp
  | _ => false
  end.

Definition key_is {A} (timestamp : string) (kx : string * A) : bool :=
  String.eqb (fst kx) timestamp.

(** No object stored in the output directory has a [timestamp] that is
    not a string. *)
Definition timestamps_are_strings (E : Env) (w : world) : Prop :=
  forall name text d v,
    In name (listdir OUTPUT_FOLDER w) ->
    PyDict.lookup ("outputs/" ++ name) (disk w) = Some text ->
    json_load E text = Val (JDict d) ->
    PyDict.lookup "timestamp" d = Some v ->
    exists s, v = JStr s.

(** The log of a start-up that made its four folders. *)
Definition folders_made : list boot_event :=
  [BootMakedirs "static"; BootMakedirs "templates";
   BootMakedirs "outputs"; BootMakedirs "uploads"].

(* ================================================================= *)
(** * Test doubles

    One concrete environment, in the manner of a test suite: a fixed
    clock, a model gateway that answers a fixed text, a decoder that
    reports a 10x10 picture, and a JSON codec that prints like
    [json.dump(..., indent=2)] and reads back the documents of a given
    corpus. *)

Module Fixtures.

Definition nl : string := String (ascii_of_nat 10) EmptyString.
Definition backslash : string := String (ascii_of_nat 92) EmptyString.

Fixpoint escape (s : string) : string :=
  match s with
  | EmptyString => EmptyString
  | String a s' =>
      (if Ascii.eqb a (ascii_of_nat 34) then backslash ++ quote
       else if Ascii.eqb a (ascii_of_nat 92) then backslash ++ backslash
       else if Ascii.eqb a (ascii_of_nat 10) then backslash ++ "n"
       else String a EmptyString) ++ escape s'
  end.

Definition dump_int (n : Z) : string := NilZero.string_of_int (Z.to_int n).

(** A float that [round(_, 2)] produced, printed as [repr] prints it. *)
Definition dump_float (x : spec_float) : string :=
  match x with
  | S754_finite s m e =>
      let q := match e with
               | Zneg k => PyFloat.div_half_even (Zpos (100 * m)) (Zpos (Pos.pow 2 k))
               | _ => (Zpos (100 * m) * 2 ^ e)%Z
               end in
      let cents := (q mod 100)%Z in
      (if s then "-" else "") ++ dump_int (q / 100) ++ "." ++
      (if (cents mod 10 =? 0)%Z then dump_int (cents / 10)
       else dump_int (cents / 10) ++ dump_int (cents mod 10))
  | S754_zero s => if s then "-0.0" else "0.0"
  | S754_infinity s => if s then "-Infinity" else "Infinity"
  | S754_nan => "NaN"
  end.

Fixpoint dump (indent : string) (v : json) {struct v} : string :=
  match v with
  | JNull => "null"
  | JBool b => if b then "true" else "false"
  | JInt n => dump_int n
  | JFloat x => dump_float x
  | JStr s => quote ++ escape s ++ quote
  | JList l =>
      match l with
      | [] => "[]"
      | _ =>
          "[" ++ nl ++
          (fix items (l : list json) : string :=
             match l with
             | [] => EmptyString
             | [x] => indent ++ "  " ++ dump (indent ++ "  ") x
             | x :: l' => indent ++ "  " ++ dump (indent ++ "  ") x ++ "," ++ nl ++ items l'
             end) l ++ nl ++ indent ++ "]"
      end
  | JDict d =>
      match d with
      | [] => "{}"
      | _ =>
          "{" ++ nl ++
          (fix items (d : list (string * json)) : string :=
             match d with
             | [] => EmptyString
             | [(k, x)] =>
                 indent ++ "  " ++ quote ++ escape k ++ quote ++ ": " ++ dump (indent ++ "  ") x
             | (k, x) :: d' =>
                 indent ++ "  " ++ quote ++ escape k ++ quote ++ ": " ++ dump (indent ++ "  ") x
                 ++ "," ++ nl ++ items d'
             end) d ++ nl ++ indent ++ "}"
      end
  end.

Definition dumps (v : json) : string := dump EmptyString v.

Definition JSONDecodeError : exn := PyError "Expecting value: line 1 column 1 (char 0)".

(** Reads back a text that [dumps] printed from a document of [corpus]. *)
Definition loads (corpus : list json) (text : string) : outcome json :=
  match find (fun v => String.eqb (dumps v) text) corpus with
  | Some v => Val v
  | None => Exc JSONDecodeError
  end.

Definition noon : datetime :=
  {| year := 2024; month := 5; day := 17;
     hour := 12; minute := 30; second := 45; microsecond := 0 |}.

Definition env (corpus : list json) : Env :=
  {| clock := fun _ => noon;
     generate_content := fun _ _ => Val "ROOM: 100sqft";
     decode := fun _ => Val (10%Z, 10%Z);
     secure_filename := fun name => name;
     json_dump := dumps;
     json_load := loads corpus;
     py_str := dumps;
     sort_mixed := fun files => Val files;
     write_fault := fun _ _ => None;
     render := fun text => Val text;
     dump_fault := fun _ => None;
     unserializable := fun _ => None;
     root_path := "";
     GEMINI_API_KEY := "test-key" |}.

Definition empty_world : world := {| disk := []; trace := [] |}.

Definition UnsupportedMediaType : exn :=
  HTTPException 415 "Unsupported Media Type"
    "Did not attempt to load JSON data because the request Content-Type was not 'application/json'.".

(** No [Range] and no [If-...] header. *)
Definition unconditional (full bytes : string) : conditional := Whole.

Definition upload (name bytes : string) : request :=
  {| method := POST; path := "/analyze"; content_length := Z.of_nat (String.length bytes);
     form_files := [("image", {| filename := name; content := bytes |})];
     form_fault := None;
     json_payload := Exc UnsupportedMediaType;
     make_conditional := unconditional |}.

Definition post_json (url : string) (doc : json) : request :=
  {| method := POST; path := url; content_length := 64;
     form_files := []; form_fault := None; json_payload := Val doc;
     make_conditional := unconditional |}.

Definition get (url : string) : request :=
  {| method := GET; path := url; content_length := 0;
     form_files := []; form_fault := None;
     json_payload := Exc UnsupportedMediaType;
     make_conditional := unconditional |}.

End Fixtures.

(** An upload one byte over [MAX_CONTENT_LENGTH]. *)
Definition oversized_upload : request :=
  {| method := POST; path := "/analyze";
     content_length := MAX_CONTENT_LENGTH + 1;
     form_files := [("image", {| filename := "plan.png"; content := "bytes" |})];
     form_fault := None;
     json_payload := Exc Fixtures.UnsupportedMediaType;
     make_conditional := Fixtures.unconditional |}.

(** A JSON body one byte over [MAX_CONTENT_LENGTH]. *)
Definition oversized_json : request :=
  {| method := POST; path := "/generate_plan";
     content_length := MAX_CONTENT_LENGTH + 1;
     form_files := []; form_fault := None;
     json_payload := Val (JDict [("requirements", JStr "two rooms")]);
     make_conditional := Fixtures.unconditional |}.

Module Archive.

Definition analysis_doc : list (string * json) :=
  analysis_record "20240517_123045" "20240517_123045_plan.PNG"
    [("width", JInt 10); ("height", JInt 10); ("aspect_ratio", JFloat float_one)]
    "ROOM: 100sqft".

Definition plan_doc : list (string * json) :=
  plan_record "20240518_090000" (JStr "two rooms") "ROOM: 100sqft".

Definition corpus : list json := [JDict analysis_doc; JDict plan_doc].

(** An output directory with one analysis, a file that is no JSON, one
    plan, and a note; and an upload next to it. *)
Definition shelf : world :=
  {| disk := [("outputs/analysis_20240517_123045.json", Fixtures.dumps (JDict analysis_doc));
              ("outputs/broken.json", "{");
              ("uploads/20240517_123045_plan.PNG", "bytes");
              ("outputs/plan_20240518_090000.json", Fixtures.dumps (JDict plan_doc));
              ("outputs/notes.txt", "keep")];
     trace := [] |}.

Definition contents : list (option (string * kind)) :=
  [Some ("20240517_123045", Analysis); None; Some ("20240518_090000", Plan); None].

End Archive.

(** Environments in which a collaborator fails. *)
Module Faults.

Definition UnidentifiedImageError : exn :=
  PyError "cannot identify image file 'uploads/20240517_123045_scan.png'".

Definition Overloaded : exn := PyError "503 The model is overloaded.".

(** The environment of [Fixtures], with a decoder and a model of one's
    choice. *)
Definition env (decoded : outcome (Z * Z)) (answer : outcome string) : Env :=
  {| clock := fun _ => Fixtures.noon;
     generate_content := fun _ _ => answer;
     decode := fun _ => decoded;
     secure_filename := fun name => name;
     json_dump := Fixtures.dumps;
     json_load := Fixtures.loads [];
     py_str := Fixtures.dumps;
     sort_mixed := fun files => Val files;
     write_fault := fun _ _ => None;
     render := fun text => Val text;
     dump_fault := fun _ => None;
     unserializable := fun _ => None;
     root_path := "";
     GEMINI_API_KEY := "test-key" |}.



End Faults.

(** An environment whose clock moves, and two plans made in it. *)
Module Ticking.

(** A clock that advances by one second at every interaction. *)
Definition tick (n : nat) : datetime :=
  {| year := 2024; month := 5; day := 17;
     hour := 12; minute := 30; second := N.of_nat n; microsecond := 0 |}.

Definition env (corpus : list json) : Env :=
  {| clock := tick;
     generate_content := fun _ _ => Val "ROOM: 100sqft";
     decode := fun _ => Val (10%Z, 10%Z);
     secure_filename := fun name => name;
     json_dump := Fixtures.dumps;
     json_load := Fixtures.loads corpus;
     py_str := Fixtures.dumps;
     sort_mixed := fun files => Val files;
     write_fault := fun _ _ => None;
     render := fun text => Val text;
     dump_fault := fun _ => None;
     unserializable := fun _ => None;
     root_path := "";
     GEMINI_API_KEY := "test-key" |}.

Definition first_plan : list (string * json) :=
  plan_record "20240517_123001" (JStr "two rooms") "ROOM: 100sqft".

Definition second_plan : list (string * json) :=
  plan_record "20240517_123004" (JStr "a loft") "ROOM: 100sqft".

Definition corpus : list json := [JDict first_plan; JDict second_plan].

Definition ask (requirements : string) : request :=
  Fixtures.post_json "/generate_plan" (JDict [("requirements", JStr requirements)]).

End Ticking.

(** An environment whose clock has moved on to the evening after the
    first three interactions. *)
Module Evening.

Definition evening : datetime :=
  {| year := 2024; month := 5; day := 17;
     hour := 19; minute := 0; second := 0; microsecond := 0 |}.

Definition env (corpus : list json) : Env :=
  {| clock := fun n => if (n <? 3)%nat then Fixtures.noon else evening;
     generate_content := fun _ _ => Val "ROOM: 100sqft";
     decode := fun _ => Val (10%Z, 10%Z);
     secure_filename := fun name => name;
     json_dump := Fixtures.dumps;
     json_load := Fixtures.loads corpus;
     py_str := Fixtures.dumps;
     sort_mixed := fun files => Val files;
     write_fault := fun _ _ => None;
     render := fun text => Val text;
     dump_fault := fun _ => None;
     unserializable := fun _ => None;
     root_path := "";
     GEMINI_API_KEY := "test-key" |}.


End Evening.

(** An output directory with two records of one second. *)
Module Twins.

Definition plan_doc : list (string * json) :=
  plan_record "20240517_123045" (JStr "two rooms") "ROOM: 100sqft".

Definition corpus : list json := [JDict Archive.analysis_doc; JDict plan_doc].

(** A plan and an analysis of the same second, the plan first in the
    directory. *)
Definition shelf : world :=
  {| disk := [("outputs/plan_20240517_123045.json", Fixtures.dumps (JDict plan_doc));
              ("outputs/analysis_20240517_123045.json",
               Fixtures.dumps (JDict Archive.analysis_doc))];
     trace := [] |}.

Definition contents : list (option (string * kind)) :=
  [Some ("20240517_123045", Plan); Some ("20240517_123045", Analysis)].

End Twins.

(** An output directory with a record that has no timestamp. *)
Module Undated.

Definition note : list (string * json) := [("analysis", JStr "a kitchen")].

Definition corpus : list json := [JDict note; JDict Archive.analysis_doc].

(** The analysis of [Archive], and before it an object with no
    timestamp. *)
Definition shelf : world :=
  {| disk := [("outputs/note.json", Fixtures.dumps (JDict note));
              ("outputs/analysis_20240517_123045.json",
               Fixtures.dumps (JDict Archive.analysis_doc))];
     trace := [] |}.

End Undated.

(** Hosts to start up on. *)
Module Hosts.

(** A host where every folder can be made and the key is accepted, with
    the environment variable as given; the model is out of reach. *)
Definition host (key : option string) : Host :=
  {| getenv := fun name => if String.eqb name "GEMINI_API_KEY" then key else None;
     makedirs := fun _ => Val tt;
     configure := fun _ => Val tt;
     probe := fun _ => Exc Faults.Overloaded |}.

End Hosts.

(* ================================================================= *)
(** * Lemmas *)

(* ----------------------------------------------------------------- *)
(** ** Strings *)

Lemma contains_app (c : ascii) (a b : string) :
  PyStr.contains c (a ++ b) = PyStr.contains c a || PyStr.contains c b.
Proof.
  induction a as [|x a IH]; simpl; [reflexivity|].
  rewrite IH. now rewrite orb_assoc.
Qed.

Lemma rsplit1_no_sep (sep : ascii) (s : string) :
  PyStr.contains sep s = false -> PyStr.rsplit1 sep s = [s].
Proof.
  induction s as [|a s IH]; simpl; [reflexivity|].
  intros H. apply orb_false_iff in H as [Ha Hs].
  rewrite (IH Hs), Ha. reflexivity.
Qed.

Lemma rsplit1_last (sep : ascii) (stem ext : string) :
  PyStr.contains sep ext = false ->
  PyStr.rsplit1 sep (stem ++ String sep ext) = [stem; ext].
Proof.
  intros Hext. induction stem as [|a stem IH]; simpl.
  - rewrite (rsplit1_no_sep _ _ Hext), Ascii.eqb_refl. reflexivity.
  - rewrite IH. reflexivity.
Qed.

Lemma contains_split (sep : ascii) (s : string) :
  PyStr.contains sep s = true ->
  exists stem ext, s = stem ++ String sep ext /\ PyStr.contains sep ext = false.
Proof.
  induction s as [|a s IH]; simpl; [discriminate|].
  intros H. destruct (PyStr.contains sep s) eqn:Hs.
  - destruct (IH eq_refl) as (stem & ext & -> & Hext).
    exists (String a stem), ext. split; [reflexivity|assumption].
  - rewrite orb_false_r in H. apply Ascii.eqb_eq in H. subst a.
    exists EmptyString, s. split; [reflexivity|assumption].
Qed.

Lemma mem_In (x : string) (l : list string) : PyStr.mem x l = true <-> In x l.
Proof.
  unfold PyStr.mem. rewrite existsb_exists. split.
  - intros (y & Hy & Heq). apply String.eqb_eq in Heq. now subst.
  - intros H. exists x. split; [assumption|apply String.eqb_refl].
Qed.

Lemma append_empty (s : string) : s ++ "" = s.
Proof. induction s as [|c s IH]; cbn; congruence. Qed.

Lemma append_assoc (a b c : string) : (a ++ b) ++ c = a ++ b ++ c.
Proof. induction a as [|x a IH]; cbn; congruence. Qed.

Lemma rev_app (a b : string) : PyStr.rev (a ++ b) = PyStr.rev b ++ PyStr.rev a.
Proof.
  induction a as [|c a IH]; cbn.
  - now rewrite append_empty.
  - now rewrite IH, append_assoc.
Qed.

Lemma startswith_app (p s : string) : PyStr.startswith p (p ++ s) = true.
Proof.
  induction p as [|a p IH]; cbn; [reflexivity|]. now rewrite Ascii.eqb_refl.
Qed.

Lemma endswith_app (p s : string) : PyStr.endswith p (s ++ p) = true.
Proof. unfold PyStr.endswith. rewrite rev_app. apply startswith_app. Qed.

Lemma split_no_sep (sep : ascii) (s : string) :
  PyStr.contains sep s = false -> PyStr.split sep s = [s].
Proof.
  induction s as [|a s IH]; cbn; [reflexivity|].
  intros H. apply orb_false_iff in H as [Ha Hs].
  rewrite Ha, (IH Hs). reflexivity.
Qed.

Lemma startswith_contains (c : ascii) (p s : string) :
  PyStr.contains c p = true -> PyStr.startswith p s = true -> PyStr.contains c s = true.
Proof.
  revert s. induction p as [|a p IH]; intros s; cbn; [discriminate|].
  destruct s as [|b s]; [discriminate|].
  intros Hc Hs. apply andb_true_iff in Hs as [Hab Hs].
  apply Ascii.eqb_eq in Hab. subst b. cbn.
  apply orb_true_iff in Hc as [Hc|Hc]; [now rewrite Hc|].
  rewrite (IH s Hc Hs). apply orb_true_r.
Qed.

Lemma no_slash_startswith (p name : string) :
  PyStr.contains "/" p = true ->
  PyStr.contains "/" name = false ->
  PyStr.startswith p name = false.
Proof.
  intros Hp Hname. destruct (PyStr.startswith p name) eqn:Hs; [|reflexivity].
  now rewrite (startswith_contains _ _ _ Hp Hs) in Hname.
Qed.

Lemma split_segments (s : string) :
  Forall (fun c => PyStr.contains "/" c = false) (PyStr.split "/" s).
Proof.
  induction s as [|a s IH]; cbn [PyStr.split]; [repeat constructor|].
  destruct (Ascii.eqb a "/") eqn:Ha; [constructor; [reflexivity|assumption]|].
  destruct (PyStr.split "/" s) as [|h t]; [repeat constructor; cbn; now rewrite Ha|].
  inversion IH as [|? ? Hh Ht]; subst. constructor; [|assumption].
  cbn. now rewrite Ha, Hh.
Qed.

(* ----------------------------------------------------------------- *)
(** ** Dictionaries and the disk *)

Lemma lookup_update_same {A} (k : string) (v : A) (d : list (string * A)) :
  PyDict.lookup k (PyDict.update k v d) = Some v.
Proof.
  induction d as [|[k' v'] d IH]; cbn.
  - now rewrite String.eqb_refl.
  - destruct (String.eqb k k') eqn:Hk; cbn; rewrite Hk; auto.
Qed.

Lemma lookup_update_other {A} (k k' : string) (v : A) (d : list (string * A)) :
  k' <> k -> PyDict.lookup k' (PyDict.update k v d) = PyDict.lookup k' d.
Proof.
  intros Hne. induction d as [|[k0 v0] d IH]; cbn.
  - apply String.eqb_neq in Hne. now rewrite Hne.
  - destruct (String.eqb k k0) eqn:Hk; cbn.
    + apply String.eqb_eq in Hk. subst k0.
      apply String.eqb_neq in Hne. now rewrite Hne.
    + destruct (String.eqb k' k0); auto.
Qed.

Lemma has_key_update {A} (k k' : string) (v : A) (d : list (string * A)) :
  PyDict.has_key k' d = true -> PyDict.has_key k' (PyDict.update k v d) = true.
Proof.
  unfold PyDict.has_key. destruct (String.eqb_spec k' k) as [->|Hne].
  - now rewrite lookup_update_same.
  - now rewrite lookup_update_other.
Qed.

Lemma lookup_update_cases {A} (k k' : string) (v : A) (d : list (string * A)) (x : A) :
  PyDict.lookup k' d = Some x ->
  PyDict.lookup k' (PyDict.update k v d) = Some x \/ k' = k.
Proof.
  intros H. destruct (String.eqb_spec k' k) as [->|Hne]; [now right|left].
  now rewrite lookup_update_other.
Qed.

Lemma lookup_In {A} (k : string) (v : A) (d : list (string * A)) :
  PyDict.lookup k d = Some v -> In (k, v) d.
Proof.
  induction d as [|[k' v'] d IH]; cbn; [discriminate|].
  destruct (String.eqb_spec k k') as [->|Hne].
  - intros [= ->]. now left.
  - intros H. right. auto.
Qed.

(* ----------------------------------------------------------------- *)
(** ** Allowed file names *)

Example allowed_mixed_case : allowed_file "plan.final.JpEg" = Val true.
Proof. reflexivity. Qed.

Example allowed_hidden_file : allowed_file ".png" = Val true.
Proof. reflexivity. Qed.

Example refused_without_dot : allowed_file "png" = Val false.
Proof. reflexivity. Qed.

Example refused_other_extension : allowed_file "plan.png.exe" = Val false.
Proof. reflexivity. Qed.

(** [allowed_file] never raises, and says yes exactly on the names the
    specification describes. *)
Lemma allowed_file_decides (name : string) :
  exists b, allowed_file name = Val b /\ (b = true <-> has_allowed_extension name).
Proof.
  unfold allowed_file, has_allowed_extension.
  destruct (PyStr.contains "." name) eqn:Hdot.
  - destruct (contains_split _ _ Hdot) as (stem & ext & -> & Hext).
    rewrite (rsplit1_last _ _ _ Hext). cbn [PyStr.index nth_error obind].
    eexists. split; [reflexivity|]. rewrite mem_In. split.
    + intros Hin. exists stem, ext. auto.
    + intros (stem' & ext' & Heq & Hext' & Hin).
      assert (Hr : [stem; ext] = [stem'; ext']).
      { rewrite <- (rsplit1_last "." stem ext Hext), <- (rsplit1_last "." stem' ext' Hext').
        f_equal. exact Heq. }
      injection Hr as _ <-. exact Hin.
  - exists false. split; [reflexivity|]. split; [discriminate|].
    intros (stem & ext & -> & _ & _).
    rewrite contains_app in Hdot. simpl in Hdot.
    rewrite orb_true_r in Hdot. discriminate.
Qed.

(* ----------------------------------------------------------------- *)
(** ** Floats *)

(** [round] goes by the binary value of the quotient: 107/40 lies just
    under 2.675 and gives 2.67; 1/8 is an exact tie and gives the even
    0.12; 1920/1080 gives 1.78. *)
Example round_107_40 :
  obind (PyFloat.int_truediv 107 40) (fun x => Val (PyFloat.round x 2))
  = Val (S754_finite false 6012305502539612 (-51)).
Proof. vm_compute. reflexivity. Qed.

Example round_1_8 :
  obind (PyFloat.int_truediv 1 8) (fun x => Val (PyFloat.round x 2))
  = Val (S754_finite false 8646911284551352 (-56)).
Proof. vm_compute. reflexivity. Qed.

Example round_1920_1080 :
  obind (PyFloat.int_truediv 1920 1080) (fun x => Val (PyFloat.round x 2))
  = Val (S754_finite false 8016407336719483 (-52)).
Proof. vm_compute. reflexivity. Qed.

Example division_by_zero :
  PyFloat.int_truediv 640 0 = Exc PyFloat.ZeroDivisionError.
Proof. reflexivity. Qed.

Lemma div_half_even_nearest (n d : Z) :
  (0 < d -> Z.abs (2 * n - 2 * PyFloat.div_half_even n d * d) <= d)%Z.
Proof.
  intros Hd. unfold PyFloat.div_half_even.
  pose proof (Z.div_mod n d ltac:(lia)) as Hn.
  pose proof (Z.mod_pos_bound n d Hd) as Hr.
  set (q := (n / d)%Z) in *. set (r := (n mod d)%Z) in *.
  assert (Hq : forall k, (2 * n - 2 * (q + k) * d = 2 * r - 2 * k * d)%Z)
    by (intros k; rewrite Hn; ring).
  clearbody q r. clear Hn.
  destruct (Z.compare_spec (2 * r) d) as [Hc|Hc|Hc].
  - destruct (Z.even q); [specialize (Hq 0%Z)|specialize (Hq 1%Z)];
      rewrite ?Z.add_0_r in Hq; rewrite Hq; lia.
  - specialize (Hq 0%Z). rewrite Z.add_0_r in Hq. rewrite Hq. lia.
  - rewrite (Hq 1%Z). lia.
Qed.

Lemma round_two_places (x : spec_float) : two_places x (PyFloat.round x 2).
Proof.
  destruct x as [s|s| |s m e]; cbn [two_places PyFloat.round]; try reflexivity.
  destruct e as [|p|k].
  - exists (Zpos (100 * m) * 2 ^ 0)%Z. repeat split; try lia.
  - exists (Zpos (100 * m) * 2 ^ Zpos p)%Z. repeat split; try lia.
  - exists (PyFloat.div_half_even (Zpos (100 * m)) (Zpos (2 ^ k))).
    split; [reflexivity|]. split; [lia|]. intros _.
    change (- Zneg k)%Z with (Zpos k).
    rewrite <- Pos2Z.inj_pow.
    pose proof (div_half_even_nearest (Zpos (100 * m)) (Zpos (2 ^ k)) ltac:(lia)).
    rewrite Pos2Z.inj_mul in *. lia.
Qed.

Lemma process_image_dimensions_positive (image : Image) (width height : Z) :
  size image = (width, height) -> (0 < width)%Z -> (0 < height)%Z ->
  process_image_dimensions image =
    Val [("width", JInt width);
         ("height", JInt height);
         ("aspect_ratio",
          JFloat (PyFloat.round (PyFloat.nearest false width (Z.to_pos height)) 2))].
Proof.
  intros Hsize Hw Hh. unfold process_image_dimensions. rewrite Hsize.
  destruct height as [|d|d]; try lia. destruct width as [|p|p]; try lia.
  reflexivity.
Qed.

(* ----------------------------------------------------------------- *)
(** ** Timestamps and the paths made from them *)

Lemma digit_cases (n : N) :
  In (Strftime.digit n) ["0"; "1"; "2"; "3"; "4"; "5"; "6"; "7"; "8"; "9"]%char.
Proof.
  unfold Strftime.digit.
  pose proof (N.mod_upper_bound n 10 ltac:(discriminate)) as Hlt.
  generalize dependent (n mod 10)%N. intros k Hlt.
  assert (Hk : In k [0; 1; 2; 3; 4; 5; 6; 7; 8; 9]%N).
  { cbn [In]. lia. }
  cbn [In] in Hk.
  repeat (destruct Hk as [<-|Hk]; [cbn; tauto|]). contradiction.
Qed.

Lemma digit_is_digit (n : N) : is_digit (Strftime.digit n) = true.
Proof.
  pose proof (digit_cases n) as H. cbn [In] in H.
  repeat (destruct H as [<-|H]; [reflexivity|]). contradiction.
Qed.

Lemma digit_not_slash (n : N) : Ascii.eqb "/" (Strftime.digit n) = false.
Proof.
  pose proof (digit_cases n) as H. cbn [In] in H.
  repeat (destruct H as [<-|H]; [reflexivity|]). contradiction.
Qed.

Lemma compact_shape (t : datetime) : is_compact_timestamp (Strftime.compact t) = true.
Proof.
  unfold Strftime.compact, Strftime.pad4, Strftime.pad2.
  cbn [append is_compact_timestamp forallb].
  rewrite !digit_is_digit. reflexivity.
Qed.

Lemma digit_no_slash (n : N) : Ascii.eqb (Strftime.digit n) "/" = false.
Proof. rewrite Ascii.eqb_sym. apply digit_not_slash. Qed.

Lemma compact_no_slash (t : datetime) : PyStr.contains "/" (Strftime.compact t) = false.
Proof.
  unfold Strftime.compact, Strftime.pad4, Strftime.pad2.
  cbn [append PyStr.contains]. rewrite !digit_no_slash. reflexivity.
Qed.

Lemma upload_path (t : datetime) (name : string) :
  posixpath.join UPLOAD_FOLDER (Strftime.compact t ++ "_" ++ name)
  = "uploads/" ++ Strftime.compact t ++ "_" ++ name.
Proof.
  unfold posixpath.join, posixpath.isabs, Strftime.compact, Strftime.pad4.
  cbn [append PyStr.startswith]. rewrite digit_not_slash. reflexivity.
Qed.

Lemma analysis_path (timestamp : string) :
  posixpath.join OUTPUT_FOLDER ("analysis_" ++ timestamp ++ ".json")
  = "outputs/analysis_" ++ timestamp ++ ".json".
Proof. reflexivity. Qed.

Lemma plan_path (timestamp : string) :
  posixpath.join OUTPUT_FOLDER ("plan_" ++ timestamp ++ ".json")
  = "outputs/plan_" ++ timestamp ++ ".json".
Proof. reflexivity. Qed.

Lemma normpath_plain (name : string) :
  plain_name name -> posixpath.normpath name = name.
Proof.
  intros (Hslash & Hne & Hdot & Hdots). unfold posixpath.normpath.
  apply String.eqb_neq in Hne, Hdot, Hdots. rewrite Hne.
  rewrite (no_slash_startswith "/" name eq_refl Hslash).
  rewrite (split_no_sep _ _ Hslash). cbn [fold_left].
  unfold posixpath.norm_step. rewrite Hne, Hdot, Hdots.
  cbn. now rewrite Hne.
Qed.

Lemma safe_join_plain (name : string) :
  plain_name name -> werkzeug.safe_join OUTPUT_FOLDER name = Some ("outputs/" ++ name).
Proof.
  intros Hplain. pose proof Hplain as (Hslash & Hne & Hdot & Hdots).
  unfold werkzeug.safe_join. rewrite (normpath_plain name Hplain).
  apply String.eqb_neq in Hne, Hdots. rewrite Hne, Hdots.
  unfold posixpath.join, posixpath.isabs.
  rewrite (no_slash_startswith "/" name eq_refl Hslash).
  rewrite (no_slash_startswith "../" name eq_refl Hslash).
  reflexivity.
Qed.

Lemma join_plain (name : string) :
  PyStr.contains "/" name = false ->
  posixpath.join OUTPUT_FOLDER name = "outputs/" ++ name.
Proof.
  intros Hslash. unfold posixpath.join, posixpath.isabs.
  rewrite (no_slash_startswith "/" name eq_refl Hslash). reflexivity.
Qed.

Lemma record_name_plain (k : kind) (t : datetime) :
  plain_name (kind_name k ++ "_" ++ Strftime.compact t ++ ".json").
Proof.
  unfold plain_name. split; [|destruct k; repeat split; discriminate].
  rewrite !contains_app, compact_no_slash. destruct k; reflexivity.
Qed.

Lemma record_name_json (k : kind) (timestamp : string) :
  PyStr.endswith ".json" (kind_name k ++ "_" ++ timestamp ++ ".json") = true.
Proof.
  rewrite <- !append_assoc. apply endswith_app.
Qed.

Lemma entry_name_outputs (name : string) :
  plain_name name -> entry_name OUTPUT_FOLDER ("outputs/" ++ name) = Some name.
Proof.
  intros (Hslash & Hne & _). apply String.eqb_neq in Hne.
  unfold entry_name. cbn. rewrite Hne, Hslash. reflexivity.
Qed.

(* ----------------------------------------------------------------- *)
(** ** Where [send_from_directory] can read *)

Example normpath_collapses : posixpath.normpath "a/../../b//c/./d/.." = "../b/c".
Proof. reflexivity. Qed.

Example safe_join_inside : werkzeug.safe_join "outputs" "a/../x.json" = Some "outputs/x.json".
Proof. reflexivity. Qed.

Example safe_join_refuses_parent : werkzeug.safe_join "outputs" "a/../../x.json" = None.
Proof. reflexivity. Qed.

Example safe_join_refuses_absolute : werkzeug.safe_join "outputs" "/etc/passwd" = None.
Proof. reflexivity. Qed.

Lemma norm_step_ok (s : list string) (c : string) :
  stack_ok s -> PyStr.contains "/" c = false ->
  stack_ok (posixpath.norm_step 0 s c).
Proof.
  intros Hs Hc. unfold posixpath.norm_step.
  destruct (String.eqb c "" || String.eqb c ".") eqn:Hskip; [assumption|].
  destruct (String.eqb_spec c "..") as [->|Hne]; cbn [negb orb].
  - destruct s as [|last rest]; cbn [Nat.eqb andb orb].
    + apply (stack_dots 1).
    + destruct (String.eqb_spec last "..") as [->|Hlast].
      * inversion Hs as [k Hk|c' s' [Hc' _] Hs']; subst; [|contradiction].
        destruct k as [|k]; [discriminate|]. apply (stack_dots (S (S k))).
      * inversion Hs as [k Hk|c' s' _ Hs']; subst; [|assumption].
        destruct k as [|k]; [discriminate|]. cbn in Hk. congruence.
  - apply stack_push; [split|]; assumption.
Qed.

Lemma fold_norm_step_ok (l : list string) :
  forall s, stack_ok s ->
            Forall (fun c => PyStr.contains "/" c = false) l ->
            stack_ok (fold_left (posixpath.norm_step 0) l s).
Proof.
  induction l as [|c l IH]; intros s Hs Hl; cbn [fold_left]; [assumption|].
  inversion Hl; subst. apply IH; [|assumption]. now apply norm_step_ok.
Qed.

Lemma stack_ok_bottom (s : list string) :
  stack_ok s -> Forall segment_ok s \/ exists s', rev s = ".." :: s'.
Proof.
  induction 1 as [k|c s Hc Hs [IH|(s' & IH)]].
  - destruct k as [|k]; [left; constructor|right].
    rewrite rev_repeat. now exists (repeat ".." k).
  - left. now constructor.
  - right. cbn [rev]. rewrite IH. now exists (s' ++ [c])%list.
Qed.

Lemma join_dots (s : list string) :
  PyStr.join "/" (".." :: s) = ".." \/
  PyStr.startswith "../" (PyStr.join "/" (".." :: s)) = true.
Proof. destruct s; [left|right]; reflexivity. Qed.

Lemma normpath_relative (name : string) :
  name <> "" ->
  PyStr.startswith "/" name = false ->
  posixpath.normpath name = ".." \/
  PyStr.startswith "../" (posixpath.normpath name) = true \/
  descends (posixpath.normpath name).
Proof.
  intros Hne Hrel. apply String.eqb_neq in Hne.
  unfold posixpath.normpath. rewrite Hne, Hrel. cbn [posixpath.slashes append].
  pose proof (fold_norm_step_ok (PyStr.split "/" name) [] (stack_dots 0)
                (split_segments name)) as Hstack.
  destruct (stack_ok_bottom _ Hstack) as [Hall|(s' & Hrev)].
  - right. right.
    destruct (String.eqb (PyStr.join "/" (rev (fold_left (posixpath.norm_step 0)
                (PyStr.split "/" name) []))) "") eqn:Hempty.
    + exists ["."]. split; [reflexivity|]. repeat constructor. discriminate.
    + eexists. split; [reflexivity|]. now apply Forall_rev.
  - rewrite Hrev. destruct (join_dots s') as [Heq|Hstart].
    + left. now rewrite Heq.
    + right. left.
      destruct (String.eqb (PyStr.join "/" (".." :: s')) "") eqn:Hempty; [|assumption].
      apply String.eqb_eq in Hempty. rewrite Hempty in Hstart. discriminate.
Qed.

Lemma normpath_absolute (name : string) :
  PyStr.startswith "/" name = true ->
  posixpath.isabs (posixpath.normpath name) = true.
Proof.
  intros Habs. unfold posixpath.normpath.
  destruct (String.eqb_spec name "") as [->|_]; [discriminate|].
  rewrite Habs.
  destruct (PyStr.startswith "//" name && negb (PyStr.startswith "///" name));
    reflexivity.
Qed.

(** A path [safe_join] lets through lies under the directory. *)
Lemma safe_join_descends (name full : string) :
  werkzeug.safe_join OUTPUT_FOLDER name = Some full ->
  exists rel, descends rel /\ full = "outputs/" ++ rel.
Proof.
  unfold werkzeug.safe_join. cbn [String.eqb OUTPUT_FOLDER]. cbv zeta.
  destruct (String.eqb_spec name "") as [->|Hne].
  - intros [= <-]. exists "". split; [|reflexivity]. exists []. split; [reflexivity|constructor].
  - destruct (PyStr.startswith "/" name) eqn:Hslash.
    + rewrite (normpath_absolute name Hslash). discriminate.
    + destruct (posixpath.isabs (posixpath.normpath name)) eqn:Habs; [discriminate|].
      cbn [orb].
      destruct (normpath_relative name Hne Hslash) as [Heq|[Hstart|Hdesc]].
      * rewrite Heq. discriminate.
      * rewrite Hstart, orb_true_r. discriminate.
      * destruct (String.eqb (posixpath.normpath name) ".." ||
                  PyStr.startswith "../" (posixpath.normpath name)); [discriminate|].
        intros [= <-]. exists (posixpath.normpath name). split; [assumption|].
        unfold posixpath.join. rewrite Habs. reflexivity.
Qed.

(* ----------------------------------------------------------------- *)
(** ** Sorting newest first *)

Lemma ltb_false_leb (x y : string) : String.ltb x y = false -> String.leb y x = true.
Proof.
  unfold String.ltb, String.leb. rewrite (String.compare_antisym y x).
  destruct (String.compare x y); cbn; congruence.
Qed.

Lemma ltb_true_leb (x y : string) : String.ltb x y = true -> String.leb x y = true.
Proof.
  unfold String.ltb, String.leb. destruct (String.compare x y); congruence.
Qed.

Lemma insert_desc_perm {A} (x : string * A) (l : list (string * A)) :
  Permutation (insert_desc x l) (x :: l).
Proof.
  induction l as [|y l IH]; cbn; [reflexivity|].
  destruct (String.ltb (fst x) (fst y)); [|reflexivity].
  rewrite IH. apply perm_swap.
Qed.

Lemma sort_desc_perm {A} (l : list (string * A)) : Permutation (sort_desc l) l.
Proof.
  induction l as [|x l IH]; cbn; [reflexivity|].
  rewrite insert_desc_perm. now constructor.
Qed.

Lemma insert_desc_hd {A} (a x : string * A) (l : list (string * A)) :
  desc a x -> HdRel desc a l -> HdRel desc a (insert_desc x l).
Proof.
  intros Hax Hal. destruct l as [|y l]; cbn; [now constructor|].
  destruct (String.ltb (fst x) (fst y)); constructor; [|assumption].
  now inversion Hal.
Qed.

Lemma insert_desc_sorted {A} (x : string * A) (l : list (string * A)) :
  Sorted desc l -> Sorted desc (insert_desc x l).
Proof.
  induction 1 as [|y l Hl IH Hy]; cbn; [repeat constructor|].
  destruct (String.ltb (fst x) (fst y)) eqn:Hxy.
  - constructor; [assumption|].
    apply insert_desc_hd; [|assumption]. now apply ltb_true_leb.
  - constructor; [now constructor|]. constructor. now apply ltb_false_leb.
Qed.

Lemma sort_desc_sorted {A} (l : list (string * A)) : Sorted desc (sort_desc l).
Proof.
  induction l as [|x l IH]; cbn; [constructor|]. now apply insert_desc_sorted.
Qed.

Lemma str_keys_spec (files : list (list (string * json))) :
  Forall (fun x => exists ts, PyDict.lookup "timestamp" x = Some (JStr ts)) files ->
  exists keyed, str_keys files = Some keyed /\ map snd keyed = files /\
                Forall keyed_by_timestamp keyed.
Proof.
  induction 1 as [|x files (ts & Hts) _ (keyed & Hk & Hmap & Hall)]; cbn [str_keys].
  - exists []. repeat split; constructor.
  - rewrite Hts, Hk. exists ((ts, x) :: keyed). cbn [map snd].
    rewrite Hmap. repeat split. constructor; assumption.
Qed.

Lemma sorted_entries (l : list (string * list (string * json))) :
  Forall keyed_by_timestamp l -> Sorted desc l -> Sorted newer_or_equal (map snd l).
Proof.
  intros Hall Hs. induction Hs as [|x l Hl IH Hx]; cbn [map]; [constructor|].
  inversion Hall as [|? ? Hkx Hkl]; subst.
  constructor; [now apply IH|].
  destruct l as [|y l]; cbn [map]; constructor.
  inversion Hx as [|? ? Hxy]; subst. inversion Hkl as [|? ? Hky _]; subst.
  exists (fst x), (fst y). repeat split; assumption.
Qed.

(* ----------------------------------------------------------------- *)
(** ** Running a handler *)

(** Case analysis on the next scrutinee of the goal, innermost first. *)
Ltac case_step :=
  match goal with
  | |- context [match ?x with _ => _ end] =>
      lazymatch x with
      | context [match _ with _ => _ end] => fail
      | _ => destruct x eqn:?
      end
  end.

Ltac unfold_monad :=
  unfold try_except, bind, lift, ret, raise, save, Image_open, dump_plan, dump_to,
    jsonify_plan, datetime_now, model_text, write_file, read_file;
  cbn beta iota zeta delta [disk trace fst snd].

Ltac run :=
  repeat first [progress unfold_monad | rewrite lookup_update_same | case_step].

(** A body that parses as JSON was announced as JSON: [get_json] gives
    its value, unless the body is over the limit. *)
Lemma get_json_parsed (req : request) (data : json) :
  json_payload req = Val data ->
  get_json req = if over_limit req then Exc werkzeug.RequestEntityTooLarge else Val data.
Proof. intros H. unfold get_json, is_json. now rewrite H. Qed.

Lemma get_json_within (req : request) :
  over_limit req = false -> get_json req = json_payload req.
Proof. intros H. unfold get_json. rewrite H. now destruct (negb (is_json req)). Qed.

Lemma failure_is_failure (msg : string) : is_failure (jsonify (failure msg)).
Proof. now exists msg. Qed.

Lemma analysis_is_analysis ts fn info text :
  is_analysis (jsonify (analysis_record ts fn info text)).
Proof. now exists ts, fn, info, text. Qed.

Lemma plan_is_plan ts reqs text : is_plan (jsonify (plan_record ts reqs text)).
Proof. now exists ts, reqs, text. Qed.

Create HintDb handlers.
#[local] Hint Resolve failure_is_failure analysis_is_analysis plan_is_plan : handlers.

Lemma analyze_image_try_returns (E : Env) (req : request) (w : world) :
  match analyze_image_try E req w with
  | (Val r, _) => is_failure r \/ is_analysis r
  | (Exc _, _) => True
  end.
Proof.
  unfold analyze_image_try. run; auto with handlers.
Qed.

Lemma generate_plan_try_returns (E : Env) (req : request) (w : world) :
  match generate_plan_try E req w with
  | (Val r, _) => is_failure r \/ is_plan r
  | (Exc _, _) => True
  end.
Proof.
  unfold generate_plan_try. run; auto with handlers.
Qed.

Lemma analyze_image_returns (E : Env) (req : request) (w : world) :
  exists r w', analyze_image E req w = (Val r, w') /\ (is_failure r \/ is_analysis r).
Proof.
  unfold analyze_image, try_except.
  pose proof (analyze_image_try_returns E req w) as H.
  destruct (analyze_image_try E req w) as [[r|e] w']; unfold ret; eauto with handlers.
Qed.

Lemma generate_plan_returns (E : Env) (req : request) (w : world) :
  exists r w', generate_plan E req w = (Val r, w') /\ (is_failure r \/ is_plan r).
Proof.
  unfold generate_plan, try_except.
  pose proof (generate_plan_try_returns E req w) as H.
  destruct (generate_plan_try E req w) as [[r|e] w']; unfold ret; eauto with handlers.
Qed.


(** Everything a successful run of [analyze_image] did, read off its
    response. *)
Lemma analyze_image_success (E : Env) (req : request) (w w' : world)
    (r : response) (d : list (string * json)) :
  analyze_image E req w = (Val r, w') ->
  payload r = Json (JDict d) ->
  PyDict.lookup "success" d = Some (JBool true) ->
  exists file dims image_info text,
    let timestamp := Strftime.compact (clock E (length (trace w))) in
    let stored := timestamp ++ "_" ++ secure_filename E (filename file) in
    let upload_path := posixpath.join UPLOAD_FOLDER stored in
    let image := {| size := dims; source := content file |} in
    let record := analysis_record timestamp stored image_info text in
    let record_path := posixpath.join OUTPUT_FOLDER ("analysis_" ++ timestamp ++ ".json") in
    PyDict.lookup "image" (form_files req) = Some file /\
    decode E (content file) = Val dims /\
    process_image_dimensions image = Val image_info /\
    text <> "" /\
    d = record /\
    disk w' = PyDict.update record_path (json_dump E (JDict record))
                (PyDict.update upload_path (content file) (disk w)) /\
    trace w' = ([EvWrite record_path; EvModel [Text prompt; Picture image];
                 EvRead upload_path; EvWrite upload_path; EvClock] ++ trace w)%list.
Proof.
  unfold analyze_image, analyze_image_try, request_files.
  run.
  all: intros Hrun Hpay Hok; injection Hrun as <- <-; cbn [payload jsonify] in Hpay;
    injection Hpay as <-; try discriminate Hok.
  match goal with
  | Hf : PyDict.lookup "image" _ = Some ?f,
    Hd : decode E _ = Val ?dims,
    Hi : process_image_dimensions _ = Val ?info,
    Ht : String.eqb ?text "" = false |- _ =>
      exists f, dims, info, text; apply String.eqb_neq in Ht
  end.
  cbn [disk trace app]. repeat split; assumption || reflexivity.
Qed.

(** Everything a successful run of [generate_plan] did. *)
Lemma generate_plan_success (E : Env) (req : request) (w w' : world)
    (r : response) (d : list (string * json)) :
  generate_plan E req w = (Val r, w') ->
  payload r = Json (JDict d) ->
  PyDict.lookup "success" d = Some (JBool true) ->
  exists requirements text,
    let timestamp := Strftime.compact (clock E (S (length (trace w)))) in
    let record := plan_record timestamp requirements text in
    let record_path := posixpath.join OUTPUT_FOLDER ("plan_" ++ timestamp ++ ".json") in
    truthy requirements = true /\
    text <> "" /\
    d = record /\
    disk w' = PyDict.update record_path (json_dump E (JDict record)) (disk w) /\
    trace w' = ([EvWrite record_path; EvClock;
                 EvModel [Text (plan_prompt (format_value E requirements))]]
                ++ trace w)%list.
Proof.
  unfold generate_plan, generate_plan_try, get_json.
  run.
  all: intros Hrun Hpay Hok; injection Hrun as <- <-; cbn [payload jsonify] in Hpay;
    injection Hpay as <-; try discriminate Hok.
  all: match goal with
  | Hr : negb (truthy ?reqs) = false,
    Ht : String.eqb ?text "" = false |- _ =>
      exists reqs, text; apply String.eqb_neq in Ht; apply negb_false_iff in Hr
  end.
  all: cbn [disk trace app length]; repeat split; assumption || reflexivity.
Qed.

(* ----------------------------------------------------------------- *)
(** ** What a request does to the disk *)

Lemma analyze_image_disk (E : Env) (req : request) (w : world) :
  wrote_timestamp_named E w (snd (analyze_image E req w)).
Proof.
  unfold wrote_timestamp_named, analyze_image, analyze_image_try.
  run; cbn [snd disk]; rewrite ?upload_path, ?analysis_path.
  all: try (left; reflexivity).
  all: try (right; left; eexists _, _; split; [|reflexivity];
            eexists _, _; split; [left; reflexivity|left; reflexivity]).
  right; right. eexists _, _, _, _. split; [|split; [|reflexivity]].
  - eexists _, _; split; [left; reflexivity|left; reflexivity].
  - eexists _, ""; split; [left; reflexivity|right; left; reflexivity].
Qed.

Lemma generate_plan_disk (E : Env) (req : request) (w : world) :
  wrote_timestamp_named E w (snd (generate_plan E req w)).
Proof.
  unfold wrote_timestamp_named, generate_plan, generate_plan_try.
  run; cbn [snd disk length]; rewrite ?plan_path.
  all: try (left; reflexivity).
  all: right; left; eexists _, _; (split; [|reflexivity]).
  all: eexists _, ""; split; [right; reflexivity|right; right; reflexivity].
Qed.

Lemma scan_disk (E : Env) (names : list string) :
  forall files w, disk (snd (scan E names files w)) = disk w.
Proof.
  induction names as [|name names IH]; intros files w; [reflexivity|].
  cbn [scan]. unfold bind.
  destruct (scan_one E files name w) as [[files'|e] w1] eqn:Hone.
  - rewrite IH. revert Hone. unfold scan_one. run; intros [= _ <-]; reflexivity.
  - revert Hone. unfold scan_one. run; intros [= _ <-]; reflexivity.
Qed.

Lemma get_history_disk (E : Env) (w : world) :
  disk (snd (get_history E w)) = disk w.
Proof.
  unfold get_history, try_except, bind, lift, ret.
  pose proof (scan_disk E (listdir OUTPUT_FOLDER w) [] w) as Hscan.
  destruct (scan E (listdir OUTPUT_FOLDER w) [] w) as [[files|e] w1].
  - destruct (sort_newest_first E files); exact Hscan.
  - exact Hscan.
Qed.

Lemma send_from_directory_disk (E : Env) (req : request) (directory name : string)
    (w : world) :
  disk (snd (send_from_directory E req directory name w)) = disk w.
Proof. unfold send_from_directory, send_file. run; reflexivity. Qed.

Lemma download_file_disk (E : Env) (req : request) (name : string) (w : world) :
  disk (snd (download_file E req name w)) = disk w.
Proof.
  unfold download_file, try_except.
  pose proof (send_from_directory_disk E req OUTPUT_FOLDER name w) as H.
  destruct (send_from_directory E req OUTPUT_FOLDER name w) as [[r|e] w1]; exact H.
Qed.

Lemma test_api_disk (E : Env) (w : world) : disk (snd (test_api E w)) = disk w.
Proof. unfold test_api. run; reflexivity. Qed.

Lemma health_check_disk (E : Env) (w : world) : disk (snd (health_check E w)) = disk w.
Proof. unfold health_check. run; reflexivity. Qed.

Lemma index_disk (E : Env) (w : world) : disk (snd (index E w)) = disk w.
Proof. unfold index. run; reflexivity. Qed.

Lemma view_disk (E : Env) (ep : endpoint) (req : request) (w : world) :
  wrote_timestamp_named E w (snd (view E ep req w)) /\
  (ep <> ep_analyze_image -> ep <> ep_generate_plan ->
   disk (snd (view E ep req w)) = disk w).
Proof.
  destruct ep; cbn [view].
  - split; [left|intros _ _]; apply index_disk.
  - split; [apply analyze_image_disk|congruence].
  - split; [apply generate_plan_disk|congruence].
  - split; [left|intros _ _]; apply test_api_disk.
  - split; [left|intros _ _]; apply get_history_disk.
  - split; [left|intros _ _]; apply download_file_disk.
  - split; [left|intros _ _]; apply health_check_disk.
  - split; [left|intros _ _]; apply send_from_directory_disk.
Qed.

Lemma wsgi_app_disk (E : Env) (req : request) (w : world) :
  wrote_timestamp_named E w (snd (wsgi_app E req w)).
Proof.
  unfold wsgi_app, dispatch_request.
  destruct (url_match (path req) (method req)) as [ep|p| |] eqn:Hroute;
    try (left; reflexivity).
  destruct (view_disk E ep req w) as [Hw _].
  assert (Hsame : forall c : M response,
             snd (let (o, w') := c w in
                  match o with Val r => (r, w') | Exc e => (handle_exception e, w') end)
             = snd (c w)).
  { intros c. destruct (c w) as [[r|e] w1]; reflexivity. }
  destruct (method req); rewrite Hsame; try exact Hw; left; reflexivity.
Qed.

(* ----------------------------------------------------------------- *)
(** ** Routing *)

Example route_analyze : url_match "/analyze" POST = Route ep_analyze_image.
Proof. reflexivity. Qed.

Example route_analyze_get : url_match "/analyze" GET = MethodNotAllowed.
Proof. reflexivity. Qed.

Example route_download_file :
  url_match "/download/plan_20240517_123045.json" GET
  = Route (ep_download_file "plan_20240517_123045.json").
Proof. reflexivity. Qed.

Example route_doubled_slash : url_match "/download//x" GET = RequestRedirect "/download/x".
Proof. reflexivity. Qed.

Example route_parent : url_match "/download/../app.py" GET = NoMatch.
Proof. reflexivity. Qed.

Example route_leading_slashes : url_match "//generate_plan" POST = Route ep_generate_plan.
Proof. reflexivity. Qed.

Example route_root_slashes : url_match "//" GET = Route ep_index.
Proof. reflexivity. Qed.

(** A path under /download/ is matched as it stands. *)
Lemma url_match_download (name : string) (m : http_method) :
  url_match ("/download/" ++ name) m =
  match find_rule ("/download/" ++ name) m with
  | (Some ep, _) => Route ep
  | (None, other_method) =>
      match find_rule (merge_slashes ("/download/" ++ name)) m with
      | (Some _, _) => RequestRedirect (merge_slashes ("/download/" ++ name))
      | (None, other_method') =>
          if other_method || other_method' then MethodNotAllowed else NoMatch
      end
  end.
Proof. reflexivity. Qed.

Example route_tripled_slash : url_match "/download///x" GET = RequestRedirect "/download/x".
Proof. reflexivity. Qed.

Lemma merge_slashes_slash (rest : string) :
  exists r, merge_slashes (String "/" rest) = String "/" r.
Proof.
  induction rest as [|b rest IH]; [now exists ""|].
  change (merge_slashes (String "/" (String b rest)))
    with (if Ascii.eqb "/" "/" && Ascii.eqb b "/"
          then merge_slashes (String b rest)
          else String "/" (merge_slashes (String b rest))).
  destruct (Ascii.eqb_spec b "/") as [->|Hb]; cbn [Ascii.eqb Bool.eqb andb]; eauto.
Qed.

Ltac merge_slash :=
  match goal with
  | |- context [merge_slashes (String "/" ?x)] =>
      let r := fresh "r" in destruct (merge_slashes_slash x) as (r & ->)
  end.

Lemma merge_slashes_other (a : ascii) (rest : string) :
  Ascii.eqb a "/" = false ->
  merge_slashes (String a rest) = String a (merge_slashes rest).
Proof.
  intros Ha. destruct rest as [|b rest]; cbn [merge_slashes]; [reflexivity|].
  rewrite Ha. reflexivity.
Qed.

Lemma merge_slashes_pair (rest : string) :
  merge_slashes (String "/" (String "/" rest)) = merge_slashes (String "/" rest).
Proof. reflexivity. Qed.

Lemma merge_slashes_single (b : ascii) (rest : string) :
  Ascii.eqb b "/" = false ->
  merge_slashes (String "/" (String b rest)) = String "/" (merge_slashes (String b rest)).
Proof.
  intros Hb.
  change (merge_slashes (String "/" (String b rest)))
    with (if Ascii.eqb "/" "/" && Ascii.eqb b "/"
          then merge_slashes (String b rest)
          else String "/" (merge_slashes (String b rest))).
  rewrite Hb. reflexivity.
Qed.

(** Merging slashes keeps a slash in a name that holds [../]. *)
Lemma merged_traversal_has_slash (a b : string) :
  PyStr.contains "/" (merge_slashes (a ++ String "." (String "." (String "/" b)))) = true.
Proof.
  induction a as [|c a IH].
  - cbn [append]. rewrite !merge_slashes_other by reflexivity.
    merge_slash. reflexivity.
  - cbn [append]. destruct (Ascii.eqb c "/") eqn:Hc.
    + apply Ascii.eqb_eq in Hc. subst c. merge_slash. reflexivity.
    + rewrite merge_slashes_other by assumption.
      cbn [PyStr.contains]. rewrite IH. apply orb_true_r.
Qed.

Lemma traversal_has_slash (a b : string) :
  PyStr.contains "/" (a ++ String "." (String "." (String "/" b))) = true.
Proof.
  rewrite contains_app. cbn. apply orb_true_r.
Qed.

(** No rule matches [/download/<name>] when [name] holds [../], neither as
    it stands nor with its slashes merged. *)
Lemma traversal_matches_no_rule (a b : string) (m : http_method) :
  url_match ("/download/" ++ a ++ "../" ++ b) m = NoMatch.
Proof.
  change ("../" ++ b) with (String "." (String "." (String "/" b))).
  set (name := a ++ String "." (String "." (String "/" b))).
  assert (Hfirst : match_rule ("/download/" ++ name) = None).
  { cbn. unfold string_converter. subst name.
    rewrite traversal_has_slash, andb_false_r. reflexivity. }
  assert (Hmerged : match_rule (merge_slashes ("/download/" ++ name)) = None).
  { change (merge_slashes ("/download/" ++ name))
      with ("/download" ++ merge_slashes (String "/" name)).
    assert (Hg : exists g, merge_slashes (String "/" name) = String "/" g /\
                           PyStr.contains "/" g = true).
    { subst name. induction a as [|c a IH].
      - cbn [append]. rewrite merge_slashes_single by reflexivity.
        eexists. split; [reflexivity|].
        apply (merged_traversal_has_slash "" b).
      - cbn [append]. destruct (Ascii.eqb c "/") eqn:Hc.
        + apply Ascii.eqb_eq in Hc. subst c. rewrite merge_slashes_pair.
          apply IH. cbn. unfold string_converter.
          now rewrite traversal_has_slash, andb_false_r.
        + rewrite merge_slashes_single by assumption.
          eexists. split; [reflexivity|].
          apply (merged_traversal_has_slash (String c a) b). }
    destruct Hg as (g & -> & Hg). cbn. unfold string_converter.
    rewrite Hg, andb_false_r. reflexivity. }
  rewrite url_match_download. unfold find_rule. rewrite Hfirst, Hmerged. reflexivity.
Qed.




(** Whatever name it is given, [download_file] leaves the disk alone and
    reads at most one file, under [outputs/]. *)
Lemma download_file_confined (E : Env) (req : request) (name : string) (w : world) :
  disk (snd (download_file E req name w)) = disk w /\
  (trace (snd (download_file E req name w)) = trace w \/
   exists rel, descends rel /\
               trace (snd (download_file E req name w))
               = EvRead (under_root E ("outputs/" ++ rel)) :: trace w).
Proof.
  split; [apply download_file_disk|].
  unfold download_file, send_from_directory, send_file.
  destruct (werkzeug.safe_join OUTPUT_FOLDER name) as [full|] eqn:Hjoin; [|now left].
  destruct (safe_join_descends name full Hjoin) as (rel & Hrel & ->).
  unfold_monad.
  destruct (PyDict.lookup (under_root E ("outputs/" ++ rel)) (disk w)); [right|now left].
  exists rel. split; [exact Hrel|].
  now destruct (make_conditional req _ _).
Qed.

(* ----------------------------------------------------------------- *)
(** ** The history listing *)

Lemma scan_one_spec (E : Env) (w0 w : world) (files : list (list (string * json)))
    (name : string) :
  disk w = disk w0 ->
  exists w', scan_one E files name w = (Val (files ++ scanned E w0 name)%list, w') /\
             disk w' = disk w0.
Proof.
  intros Hdisk. unfold scan_one, scanned. rewrite <- Hdisk.
  run; eexists; rewrite ?app_nil_r; split; reflexivity || assumption.
Qed.

Lemma scan_spec (E : Env) (w0 : world) (names : list string) :
  forall files w,
    disk w = disk w0 ->
    exists w', scan E names files w
               = (Val (files ++ flat_map (scanned E w0) names)%list, w') /\
               disk w' = disk w0.
Proof.
  induction names as [|name names IH]; intros files w Hdisk.
  - exists w. cbn. rewrite app_nil_r. auto.
  - cbn [scan flat_map]. unfold bind.
    destruct (scan_one_spec E w0 w files name Hdisk) as (w1 & -> & Hdisk1).
    destruct (IH (files ++ scanned E w0 name)%list w1 Hdisk1) as (w2 & -> & Hdisk2).
    exists w2. rewrite <- app_assoc. auto.
Qed.

Lemma scanned_holds (E : Env) (w : world) (name text : string)
    (c : option (string * kind)) :
  PyDict.lookup (posixpath.join OUTPUT_FOLDER name) (disk w) = Some text ->
  holds E name text c ->
  scanned E w name = listed name c.
Proof.
  intros Hfile Hc. unfold scanned. rewrite Hfile.
  destruct Hc as [d ts Hjson Hload Hts Hkey|d ts Hjson Hload Hts Hkey|e Hload|v Hload Hv|Hjson].
  - rewrite Hjson, Hload. unfold history_entry. cbn [py_get obind py_in].
    rewrite Hts, Hkey. reflexivity.
  - rewrite Hjson, Hload. unfold history_entry. cbn [py_get obind py_in].
    rewrite Hts, Hkey. reflexivity.
  - rewrite Hload. destruct (PyStr.endswith ".json" name); reflexivity.
  - rewrite Hload. destruct (PyStr.endswith ".json" name); [|reflexivity].
    destruct v; try reflexivity. now destruct (Hv d).
  - rewrite Hjson. reflexivity.
Qed.

Lemma scanned_expected (E : Env) (w : world) (names : list string) :
  forall cs,
    Forall2 (fun f c => holds E (fst f) (snd f) c)
      (flat_map (fun name =>
                   match PyDict.lookup (posixpath.join OUTPUT_FOLDER name) (disk w) with
                   | Some text => [(name, text)]
                   | None => []
                   end) names) cs ->
    flat_map (scanned E w) names
    = expected (flat_map (fun name =>
                   match PyDict.lookup (posixpath.join OUTPUT_FOLDER name) (disk w) with
                   | Some text => [(name, text)]
                   | None => []
                   end) names) cs.
Proof.
  induction names as [|name names IH]; intros cs Hcs; cbn [flat_map] in *.
  - reflexivity.
  - destruct (PyDict.lookup (posixpath.join OUTPUT_FOLDER name) (disk w)) as [text|] eqn:Hfile.
    + cbn [app] in *. inversion Hcs as [|f c fs cs' Hc Hrest]; subst.
      cbn [expected fst]. rewrite (IH cs' Hrest).
      now rewrite (scanned_holds E w name text c Hfile Hc).
    + cbn [app] in *. rewrite (IH cs Hcs). unfold scanned. rewrite Hfile.
      destruct (PyStr.endswith ".json" name); reflexivity.
Qed.

Lemma expected_length (files : list (string * string)) :
  forall cs, length files = length cs ->
             length (expected files cs) = (count_kind Analysis cs + count_kind Plan cs)%nat.
Proof.
  unfold count_kind.
  induction files as [|f files IH]; intros [|c cs] Hlen; try discriminate; [reflexivity|].
  cbn [expected filter]. rewrite length_app, IH by (cbn in Hlen; lia).
  destruct c as [[ts [|]]|]; cbn; lia.
Qed.

Lemma expected_timestamps (files : list (string * string)) :
  forall cs, Forall (fun x => exists ts, PyDict.lookup "timestamp" x = Some (JStr ts))
               (expected files cs).
Proof.
  induction files as [|f files IH]; intros [|c cs]; cbn [expected]; try constructor.
  apply Forall_app. split; [|apply IH].
  destruct c as [[ts k]|]; repeat constructor. now exists ts.
Qed.

(** The listing of a directory of records: all of them, newest first. *)
Lemma get_history_spec (E : Env) (w : world) (cs : list (option (string * kind))) :
  Forall2 (fun f c => holds E (fst f) (snd f) c) (folder_files OUTPUT_FOLDER w) cs ->
  exists entries w',
    get_history E w
    = (Val (jsonify [("files", JList (map JDict entries)); ("success", JBool true)]), w') /\
    disk w' = disk w /\
    Permutation entries (expected (folder_files OUTPUT_FOLDER w) cs) /\
    Sorted newer_or_equal entries.
Proof.
  intros Hcs. unfold get_history, try_except, bind, lift, ret.
  destruct (scan_spec E w (listdir OUTPUT_FOLDER w) [] w eq_refl) as (w1 & -> & Hdisk).
  cbn [app]. unfold folder_files in *.
  rewrite (scanned_expected E w _ cs Hcs).
  destruct (str_keys_spec _ (expected_timestamps
              (flat_map (fun name =>
                 match PyDict.lookup (posixpath.join OUTPUT_FOLDER name) (disk w) with
                 | Some text => [(name, text)]
                 | None => []
                 end) (listdir OUTPUT_FOLDER w)) cs))
    as (keyed & Hkeys & Hmap & Hall).
  unfold sort_newest_first. rewrite Hkeys.
  exists (map snd (sort_desc keyed)), w1. repeat split.
  - exact Hdisk.
  - rewrite <- Hmap. apply Permutation_map, sort_desc_perm.
  - apply sorted_entries; [|apply sort_desc_sorted].
    apply (Permutation_Forall (Permutation_sym (sort_desc_perm keyed)) Hall).
Qed.

Lemma listdir_stored (w : world) (name bytes : string) :
  plain_name name ->
  PyDict.lookup ("outputs/" ++ name) (disk w) = Some bytes ->
  In name (listdir OUTPUT_FOLDER w).
Proof.
  intros Hplain Hfile. unfold listdir. apply in_flat_map.
  exists ("outputs/" ++ name, bytes). split; [now apply lookup_In|].
  cbn [fst]. rewrite (entry_name_outputs name Hplain). now left.
Qed.

Lemma scanned_stored (E : Env) (w : world) (k : kind) (t : datetime)
    (d : list (string * json)) :
  let timestamp := Strftime.compact t in
  let name := kind_name k ++ "_" ++ timestamp ++ ".json" in
  PyDict.lookup ("outputs/" ++ name) (disk w) = Some (json_dump E (JDict d)) ->
  json_load E (json_dump E (JDict d)) = Val (JDict d) ->
  PyDict.lookup "timestamp" d = Some (JStr timestamp) ->
  (PyDict.has_key "analysis" d = true <-> k = Analysis) ->
  In (history_record name timestamp k)
     (flat_map (scanned E w) (listdir OUTPUT_FOLDER w)).
Proof.
  intros timestamp name Hfile Hload Hts Hkey.
  pose proof (record_name_plain k t) as Hplain. fold timestamp name in Hplain.
  apply in_flat_map. exists name.
  split; [exact (listdir_stored w name _ Hplain Hfile)|].
  assert (Hjoin : posixpath.join OUTPUT_FOLDER name = "outputs/" ++ name)
    by (apply join_plain, Hplain).
  rewrite <- Hjoin in Hfile.
  assert (Hholds : holds E name (json_dump E (JDict d)) (Some (timestamp, k))).
  { destruct k.
    - eapply holds_analysis; eauto using record_name_json. now apply Hkey.
    - eapply holds_plan; eauto using record_name_json.
      destruct (PyDict.has_key "analysis" d); [|reflexivity].
      now destruct Hkey as [Hk _]; specialize (Hk eq_refl). }
  rewrite (scanned_holds E w name _ _ Hfile Hholds). now left.
Qed.


(* ----------------------------------------------------------------- *)
(** ** Names the download route takes *)

Lemma slash_free_names (name : string) :
  string_converter name = true -> name = "." \/ name = ".." \/ plain_name name.
Proof.
  unfold string_converter, plain_name. intros H.
  apply andb_true_iff in H as [Hne Hslash].
  apply negb_true_iff in Hne, Hslash. apply String.eqb_neq in Hne.
  destruct (String.eqb_spec name ".") as [->|Hdot]; [now left|].
  destruct (String.eqb_spec name "..") as [->|Hdots]; [now right; left|].
  right. right. repeat split; assumption.
Qed.

Lemma safe_join_segment (name : string) :
  string_converter name = true ->
  werkzeug.safe_join OUTPUT_FOLDER name = None \/
  werkzeug.safe_join OUTPUT_FOLDER name = Some ("outputs/" ++ name).
Proof.
  intros H. destruct (slash_free_names name H) as [->|[->|Hplain]].
  - right. reflexivity.
  - left. reflexivity.
  - right. now apply safe_join_plain.
Qed.

Lemma route_download_segment (name : string) :
  string_converter name = true ->
  url_match ("/download/" ++ name) GET = Route (ep_download_file name).
Proof.
  intros H. rewrite url_match_download. unfold find_rule, match_rule. cbn.
  rewrite H. reflexivity.
Qed.

(* ----------------------------------------------------------------- *)
(** ** What the views return *)

Lemma get_history_returns (E : Env) (w : world) :
  exists d w', get_history E w = (Val (jsonify d), w').
Proof.
  unfold get_history, try_except, bind, lift, ret.
  destruct (scan_spec E w (listdir OUTPUT_FOLDER w) [] w eq_refl) as (w1 & -> & _).
  destruct (sort_newest_first E _); eauto.
Qed.

(** [download_file] always returns: a file in full (200, or 412 when a
    precondition fails), a part of it (206), a bare 304, or its envelope. *)
Lemma download_file_returns (E : Env) (req : request) (name : string) (w : world) :
  exists r w', download_file E req name w = (Val r, w') /\
               (In (status r) [200; 206; 304; 412] /\
                (is_failure r \/ forall j, payload r <> Json j)).
Proof.
  unfold download_file, send_from_directory, send_file.
  run; eexists _, _; (split; [reflexivity|]); cbn [status payload jsonify In];
    (split; [tauto|]); auto with handlers; right; discriminate.
Qed.

(** The five views that answer in JSON always return, with status 200. *)
Lemma json_view_answers (E : Env) (ep : endpoint) (req : request) (w : world) :
  In ep [ep_analyze_image; ep_generate_plan; ep_test_api; ep_get_history; ep_health_check] ->
  exists d w', view E ep req w = (Val (jsonify d), w').
Proof.
  cbn [In]. intros [<-|[<-|[<-|[<-|[<-|[]]]]]]; cbn [view].
  - destruct (analyze_image_returns E req w)
      as (r & w' & -> & [(? & ->)|(? & ? & ? & ? & ->)]); eauto.
  - destruct (generate_plan_returns E req w)
      as (r & w' & -> & [(? & ->)|(? & ? & ? & ->)]); eauto.
  - unfold test_api. run; eauto.
  - apply get_history_returns.
  - unfold health_check. run; eauto.
Qed.

(* ----------------------------------------------------------------- *)
(** ** The files that are served *)





(* ----------------------------------------------------------------- *)
(** ** What the history opens *)

Lemma strip_prefix_app (p s rest : string) :
  strip_prefix p s = Some rest -> s = p ++ rest.
Proof.
  revert s. induction p as [|a p IH]; intros s; cbn.
  - now intros [= ->].
  - destruct s as [|b s]; [discriminate|].
    destruct (Ascii.eqb a b) eqn:Hab; [|discriminate].
    apply Ascii.eqb_eq in Hab. subst b. intros H. now rewrite (IH s H).
Qed.

Lemma In_lookup {A} (k : string) (v : A) (d : list (string * A)) :
  In (k, v) d -> exists v', PyDict.lookup k d = Some v'.
Proof.
  induction d as [|[k' v'] d IH]; cbn; [contradiction|].
  intros [[= -> ->]|Hin].
  - rewrite String.eqb_refl. eauto.
  - destruct (String.eqb k k'); eauto.
Qed.

(** A listed name is one segment, and a file of that name is in the
    folder. *)
Lemma listdir_entry (w : world) (name : string) :
  In name (listdir OUTPUT_FOLDER w) ->
  PyStr.contains "/" name = false /\
  exists text, PyDict.lookup ("outputs/" ++ name) (disk w) = Some text.
Proof.
  unfold listdir. rewrite in_flat_map. intros ([p text] & Hin & Hname). cbn [fst] in Hname.
  unfold entry_name in Hname.
  destruct (strip_prefix (OUTPUT_FOLDER ++ "/") p) as [rest|] eqn:Hstrip; [|contradiction].
  apply strip_prefix_app in Hstrip. subst p.
  destruct (String.eqb rest "" || PyStr.contains "/" rest) eqn:Hrest; [contradiction|].
  destruct Hname as [<-|[]]. apply orb_false_iff in Hrest as [_ Hslash].
  split; [exact Hslash|]. exact (In_lookup _ _ _ Hin).
Qed.

Lemma scan_one_trace (E : Env) (files : list (list (string * json))) (name : string)
    (w : world) :
  PyStr.contains "/" name = false ->
  (exists text, PyDict.lookup ("outputs/" ++ name) (disk w) = Some text) ->
  trace (snd (scan_one E files name w)) = (opened [name] ++ trace w)%list /\
  disk (snd (scan_one E files name w)) = disk w.
Proof.
  intros Hslash (text & Hfile). unfold scan_one, opened. cbn [filter].
  destruct (PyStr.endswith ".json" name); [|split; reflexivity].
  rewrite (join_plain name Hslash).
  unfold try_except, bind, read_file. rewrite Hfile.
  unfold lift, ret. cbn [disk trace].
  destruct (json_load E text) as [data|e]; [|split; reflexivity].
  destruct (history_entry name data); split; reflexivity.
Qed.

Lemma opened_app (a b : list string) : opened (a ++ b) = (opened b ++ opened a)%list.
Proof. unfold opened. now rewrite filter_app, rev_app_distr, map_app. Qed.

Lemma scan_trace (E : Env) (names : list string) :
  forall files w,
    Forall (fun name => PyStr.contains "/" name = false /\
                        exists text, PyDict.lookup ("outputs/" ++ name) (disk w) = Some text)
           names ->
    trace (snd (scan E names files w)) = (opened names ++ trace w)%list.
Proof.
  induction names as [|name names IH]; intros files w Hall; [reflexivity|].
  inversion Hall as [|? ? [Hslash Hfile] Hrest]; subst.
  destruct (scan_one_trace E files name w Hslash Hfile) as [Htrace Hdisk].
  cbn [scan]. unfold bind.
  destruct (scan_one E files name w) as [[files'|e] w1] eqn:Hone; cbn [snd] in *.
  - rewrite IH.
    + rewrite Htrace. change (name :: names) with ([name] ++ names)%list.
      now rewrite opened_app, <- app_assoc.
    + rewrite Hdisk. exact Hrest.
  - exfalso. revert Hone. unfold scan_one. run; discriminate.
Qed.

Lemma get_history_trace (E : Env) (w : world) :
  trace (snd (get_history E w)) = (opened (listdir OUTPUT_FOLDER w) ++ trace w)%list.
Proof.
  assert (Hall : Forall (fun name => PyStr.contains "/" name = false /\
                   exists text, PyDict.lookup ("outputs/" ++ name) (disk w) = Some text)
                   (listdir OUTPUT_FOLDER w)).
  { apply Forall_forall. intros name Hin. now apply listdir_entry. }
  pose proof (scan_trace E (listdir OUTPUT_FOLDER w) [] w Hall) as Hscan.
  unfold get_history, try_except, bind, lift, ret.
  destruct (scan E (listdir OUTPUT_FOLDER w) [] w) as [[files|e] w1]; cbn [snd] in *.
  - destruct (sort_newest_first E files); exact Hscan.
  - exact Hscan.
Qed.

(** The listing is a function of the disk. *)
Lemma get_history_of_disk (E : Env) (w1 w2 : world) :
  disk w1 = disk w2 -> fst (get_history E w1) = fst (get_history E w2).
Proof.
  intros Hdisk. unfold get_history, try_except, bind, lift, ret.
  destruct (scan_spec E w1 (listdir OUTPUT_FOLDER w1) [] w1 eq_refl) as (w1' & -> & _).
  destruct (scan_spec E w1 (listdir OUTPUT_FOLDER w2) [] w2 (eq_sym Hdisk)) as (w2' & -> & _).
  unfold listdir. rewrite Hdisk.
  destruct (sort_newest_first E _); reflexivity.
Qed.

(* ----------------------------------------------------------------- *)
(** ** Calls to the model *)

Lemma opened_no_model (names : list string) : model_calls (opened names) = 0%nat.
Proof.
  unfold opened, model_calls. induction (rev (filter (PyStr.endswith ".json") names)); auto.
Qed.

(** Splits the trace of a finished run into the events the run added and
    the trace it started from. *)
Ltac added_events :=
  cbn [snd trace];
  first [ exists (@nil event); split; [reflexivity|]
        | eexists [_]; split; [reflexivity|]
        | eexists [_; _]; split; [reflexivity|]
        | eexists [_; _; _]; split; [reflexivity|]
        | eexists [_; _; _; _]; split; [reflexivity|]
        | eexists [_; _; _; _; _]; split; [reflexivity|] ].

Lemma view_model_calls (E : Env) (ep : endpoint) (req : request) (w : world) :
  exists events,
    trace (snd (view E ep req w)) = (events ++ trace w)%list /\
    (model_calls events <= 1)%nat /\
    (model_calls events = 1%nat ->
     In ep [ep_analyze_image; ep_generate_plan; ep_test_api]).
Proof.
  destruct ep; cbn [view].
  - unfold index. run; added_events; cbn; (split; [lia|discriminate]).
  - unfold analyze_image, analyze_image_try. run; added_events; cbn; (split; [lia|tauto]).
  - unfold generate_plan, generate_plan_try. run; added_events; cbn; (split; [lia|tauto]).
  - unfold test_api. run; added_events; cbn; (split; [lia|tauto]).
  - exists (opened (listdir OUTPUT_FOLDER w)). split; [apply get_history_trace|].
    rewrite opened_no_model. split; [lia|discriminate].
  - unfold download_file, send_from_directory, send_file. run; added_events; cbn;
      (split; [lia|discriminate]).
  - unfold health_check. run; added_events; cbn; (split; [lia|discriminate]).
  - unfold send_from_directory, send_file. run; added_events; cbn;
      (split; [lia|discriminate]).
Qed.

(* ----------------------------------------------------------------- *)
(** ** Files a pipeline leaves alone *)

Lemma lookup_update_prefix {A} (prefix rest p : string) (v : A) (d : list (string * A)) :
  PyStr.startswith prefix p = false ->
  PyDict.lookup p (PyDict.update (prefix ++ rest) v d) = PyDict.lookup p d.
Proof.
  intros Hp. apply lookup_update_other. intros ->.
  now rewrite startswith_app in Hp.
Qed.

(* ----------------------------------------------------------------- *)
(** ** Timestamps as times *)

Lemma then_by_Eq (c : comparison) : then_by c Eq = c.
Proof. now destruct c. Qed.

Lemma then_by_assoc (a b c : comparison) :
  then_by (then_by a b) c = then_by a (then_by b c).
Proof. now destruct a. Qed.

Lemma then_by_eq (c rest : comparison) : then_by c rest = Eq <-> c = Eq /\ rest = Eq.
Proof. destruct c; cbn; intuition congruence. Qed.

Lemma digit_compare (n m : N) :
  Ascii.compare (Strftime.digit n) (Strftime.digit m) = (n mod 10 ?= m mod 10)%N.
Proof.
  unfold Ascii.compare, Strftime.digit.
  pose proof (N.mod_upper_bound n 10 ltac:(discriminate)).
  pose proof (N.mod_upper_bound m 10 ltac:(discriminate)).
  rewrite !N_ascii_embedding by lia.
  destruct (N.compare_spec (n mod 10) (m mod 10)) as [Heq|Hlt|Hgt].
  - rewrite Heq. apply N.compare_refl.
  - apply N.compare_lt_iff. lia.
  - apply N.compare_gt_iff. lia.
Qed.

Lemma digit_cons_compare (n m : N) (s t : string) :
  String.compare (String (Strftime.digit n) s) (String (Strftime.digit m) t)
  = then_by (n mod 10 ?= m mod 10)%N (String.compare s t).
Proof.
  cbn [String.compare]. rewrite digit_compare.
  now destruct (n mod 10 ?= m mod 10)%N.
Qed.

(** Comparing two numbers is comparing their tens, then their units. *)
Lemma compare_tens (n m : N) :
  (n ?= m)%N = then_by (n / 10 ?= m / 10)%N (n mod 10 ?= m mod 10)%N.
Proof.
  pose proof (N.div_mod n 10 ltac:(discriminate)) as Hn.
  pose proof (N.div_mod m 10 ltac:(discriminate)) as Hm.
  pose proof (N.mod_upper_bound n 10 ltac:(discriminate)) as Hrn.
  pose proof (N.mod_upper_bound m 10 ltac:(discriminate)) as Hrm.
  generalize dependent (n mod 10)%N. generalize dependent (m mod 10)%N.
  generalize dependent (n / 10)%N. generalize dependent (m / 10)%N.
  intros qm qn rm Hm Hrm rn Hn Hrn. subst n m.
  destruct (N.compare_spec qn qm) as [Hq|Hq|Hq]; cbn [then_by].
  - subst qm. destruct (N.compare_spec rn rm) as [Hr|Hr|Hr].
    + subst. apply N.compare_refl.
    + apply N.compare_lt_iff. lia.
    + apply N.compare_gt_iff. lia.
  - apply N.compare_lt_iff. lia.
  - apply N.compare_gt_iff. lia.
Qed.

Lemma pad2_compare (a b : N) (s t : string) :
  (a < 100)%N -> (b < 100)%N ->
  String.compare (Strftime.pad2 a ++ s) (Strftime.pad2 b ++ t)
  = then_by (a ?= b)%N (String.compare s t).
Proof.
  intros Ha Hb. unfold Strftime.pad2. cbn [append].
  rewrite !digit_cons_compare, <- then_by_assoc, (compare_tens a b).
  rewrite (N.mod_small (a / 10) 10), (N.mod_small (b / 10) 10); [reflexivity| |].
  - apply N.Div0.div_lt_upper_bound. lia.
  - apply N.Div0.div_lt_upper_bound. lia.
Qed.

Lemma pad4_compare (a b : N) (s t : string) :
  (a < 10000)%N -> (b < 10000)%N ->
  String.compare (Strftime.pad4 a ++ s) (Strftime.pad4 b ++ t)
  = then_by (a ?= b)%N (String.compare s t).
Proof.
  intros Ha Hb. unfold Strftime.pad4, Strftime.pad2. cbn [append].
  rewrite !digit_cons_compare, <- !then_by_assoc.
  rewrite (compare_tens a b), (compare_tens (a / 10) (b / 10)),
    (compare_tens (a / 10 / 10) (b / 10 / 10)).
  rewrite !N.Div0.div_div. change (10 * 10)%N with 100%N. change (100 * 10)%N with 1000%N.
  rewrite (N.mod_small (a / 1000) 10), (N.mod_small (b / 1000) 10).
  - reflexivity.
  - apply N.Div0.div_lt_upper_bound. lia.
  - apply N.Div0.div_lt_upper_bound. lia.
Qed.

(** The order of two timestamp strings is the order of the readings they
    were printed from. *)
Lemma compact_compare (a b : datetime) :
  calendar a -> calendar b ->
  String.compare (Strftime.compact a) (Strftime.compact b) = compare_seconds a b.
Proof.
  intros (Hy & Hm & Hd & Hh & Hn & Hs) (Hy' & Hm' & Hd' & Hh' & Hn' & Hs').
  unfold Strftime.compact, compare_seconds.
  rewrite pad4_compare by lia. rewrite !pad2_compare by lia.
  change ("_" ++ ?x) with (String "_" x). cbn [String.compare].
  change (Ascii.compare "_" "_") with Eq. cbv iota.
  rewrite !pad2_compare by lia.
  rewrite <- (append_empty (Strftime.pad2 (second a))),
          <- (append_empty (Strftime.pad2 (second b))).
  rewrite pad2_compare by lia. cbn [String.compare]. now rewrite then_by_Eq.
Qed.

Lemma compare_seconds_eq (a b : datetime) :
  compare_seconds a b = Eq <-> same_second a b.
Proof.
  unfold compare_seconds, same_second.
  rewrite !then_by_eq, !N.compare_eq_iff. tauto.
Qed.

Lemma string_compare_refl (s : string) : String.compare s s = Eq.
Proof.
  pose proof (String.compare_antisym s s) as H.
  destruct (String.compare s s); cbn in H; congruence.
Qed.

Lemma compact_same_second (a b : datetime) :
  calendar a -> calendar b ->
  (Strftime.compact a = Strftime.compact b <-> same_second a b).
Proof.
  intros Ha Hb. rewrite <- compare_seconds_eq, <- (compact_compare a b Ha Hb).
  split.
  - intros ->. apply string_compare_refl.
  - apply String.compare_eq_iff.
Qed.

Lemma compact_length (t : datetime) : String.length (Strftime.compact t) = 15%nat.
Proof. reflexivity. Qed.

Lemma append_inv_tail (x y tail : string) :
  String.length x = String.length y -> x ++ tail = y ++ tail -> x = y.
Proof.
  revert y. induction x as [|c x IH]; intros [|c' y] Hlen Happ; try discriminate Hlen.
  - reflexivity.
  - cbn [append] in Happ. injection Happ as -> Happ. f_equal.
    apply IH; [now injection Hlen|exact Happ].
Qed.

Lemma plan_path_injective (a b : datetime) :
  "outputs/plan_" ++ Strftime.compact a ++ ".json"
  = "outputs/plan_" ++ Strftime.compact b ++ ".json" ->
  Strftime.compact a = Strftime.compact b.
Proof.
  intros H.
  assert (Happ : Strftime.compact a ++ ".json" = Strftime.compact b ++ ".json").
  { generalize dependent (Strftime.compact a ++ ".json").
    generalize dependent (Strftime.compact b ++ ".json").
    intros x y H. cbn [append] in H. now injection H. }
  apply (append_inv_tail _ _ ".json"); [|exact Happ].
  now rewrite !compact_length.
Qed.

(* ----------------------------------------------------------------- *)
(** ** A stable sort *)

Lemma ltb_irrefl (s : string) : String.ltb s s = false.
Proof. unfold String.ltb. now rewrite string_compare_refl. Qed.

Lemma insert_desc_key_is {A} (timestamp : string) (x : string * A) (l : list (string * A)) :
  filter (key_is timestamp) (insert_desc x l) = filter (key_is timestamp) (x :: l).
Proof.
  induction l as [|y l IH]; [reflexivity|].
  cbn [insert_desc]. destruct (String.ltb (fst x) (fst y)) eqn:Hlt; [|reflexivity].
  cbn [filter] in *. rewrite IH. unfold key_is.
  destruct (String.eqb_spec (fst x) timestamp) as [Hx|Hx];
    destruct (String.eqb_spec (fst y) timestamp) as [Hy|Hy]; try reflexivity.
  rewrite Hx, Hy, ltb_irrefl in Hlt. discriminate.
Qed.

(** The sort is stable: the entries of one key keep their order. *)
Lemma sort_desc_key_is {A} (timestamp : string) (l : list (string * A)) :
  filter (key_is timestamp) (sort_desc l) = filter (key_is timestamp) l.
Proof.
  induction l as [|x l IH]; [reflexivity|].
  cbn [sort_desc fold_right]. rewrite insert_desc_key_is.
  cbn [filter]. fold (sort_desc l). now rewrite IH.
Qed.

Lemma filter_key_is (timestamp : string) (l : list (string * list (string * json))) :
  Forall keyed_by_timestamp l ->
  filter (with_timestamp timestamp) (map snd l) = map snd (filter (key_is timestamp) l).
Proof.
  induction 1 as [|[t x] l Hx _ IH]; [reflexivity|].
  cbn [map filter snd]. unfold keyed_by_timestamp in Hx. cbn [fst snd] in Hx.
  unfold with_timestamp at 1. rewrite Hx. unfold key_is at 1. cbn [fst].
  destruct (String.eqb t timestamp); cbn [map snd]; now rewrite IH.
Qed.

(** What [get_history] computes when every entry it finds has a string
    for its timestamp: the entries, sorted by that string. *)
Lemma get_history_found (E : Env) (w : world) :
  Forall (fun x => exists t, PyDict.lookup "timestamp" x = Some (JStr t))
         (flat_map (scanned E w) (listdir OUTPUT_FOLDER w)) ->
  exists keyed_entries w',
    map snd keyed_entries = flat_map (scanned E w) (listdir OUTPUT_FOLDER w) /\
    Forall keyed_by_timestamp keyed_entries /\
    get_history E w
    = (Val (jsonify [("files", JList (map JDict (map snd (sort_desc keyed_entries))));
                     ("success", JBool true)]), w').
Proof.
  intros Hall. unfold get_history, try_except, bind, lift, ret.
  destruct (scan_spec E w (listdir OUTPUT_FOLDER w) [] w eq_refl) as (w1 & -> & Hdisk).
  cbn [app].
  destruct (str_keys_spec _ Hall) as (keyed_entries & Hkeys & Hmap & Hkeyed).
  unfold sort_newest_first. rewrite Hkeys.
  exists keyed_entries, w1. repeat split; assumption.
Qed.

Lemma get_history_run (E : Env) (w : world) (cs : list (option (string * kind))) :
  Forall2 (fun f c => holds E (fst f) (snd f) c) (folder_files OUTPUT_FOLDER w) cs ->
  exists keyed_entries w',
    map snd keyed_entries = expected (folder_files OUTPUT_FOLDER w) cs /\
    Forall keyed_by_timestamp keyed_entries /\
    get_history E w
    = (Val (jsonify [("files", JList (map JDict (map snd (sort_desc keyed_entries))));
                     ("success", JBool true)]), w').
Proof.
  intros Hcs. unfold folder_files in *.
  rewrite <- (scanned_expected E w _ cs Hcs). apply get_history_found.
  rewrite (scanned_expected E w _ cs Hcs). apply expected_timestamps.
Qed.

Lemma leb_empty (s : string) : String.leb s "" = true -> s = "".
Proof. destruct s; [reflexivity|discriminate]. Qed.

(** Below an entry with the empty key, a descending list has only empty
    keys. *)
Lemma sorted_below_empty {A} (x : string * A) (l : list (string * A)) :
  Sorted desc (x :: l) -> fst x = "" -> Forall (fun y => key_is "" y = true) (x :: l).
Proof.
  revert x. induction l as [|y l IH]; intros x Hs Hx.
  - constructor; [|constructor]. unfold key_is. now rewrite Hx.
  - inversion Hs as [|? ? Hrest Hhd]; subst. inversion Hhd as [|? ? Hxy]; subst.
    unfold desc in Hxy. rewrite Hx in Hxy. apply leb_empty in Hxy.
    constructor; [unfold key_is; now rewrite Hx|]. now apply IH.
Qed.

Lemma sorted_empty_last {A} (l : list (string * A)) :
  Sorted desc l ->
  exists front back,
    l = (front ++ back)%list /\
    Forall (fun y => key_is "" y = false) front /\
    Forall (fun y => key_is "" y = true) back.
Proof.
  induction l as [|x l IH]; intros Hs.
  - exists [], []. repeat split; constructor.
  - destruct (key_is "" x) eqn:Hx.
    + exists [], (x :: l). repeat split; [constructor|].
      apply sorted_below_empty; [exact Hs|]. now apply String.eqb_eq in Hx.
    + inversion Hs as [|? ? Hrest _]; subst.
      destruct (IH Hrest) as (front & back & -> & Hfront & Hback).
      exists (x :: front), back. repeat split; [now constructor|assumption].
Qed.

Lemma scanned_timestamps (E : Env) (w : world) :
  timestamps_are_strings E w ->
  Forall (fun x => exists t, PyDict.lookup "timestamp" x = Some (JStr t))
         (flat_map (scanned E w) (listdir OUTPUT_FOLDER w)).
Proof.
  intros Hstr. apply Forall_forall. intros x Hx.
  apply in_flat_map in Hx as (name & Hname & Hx).
  destruct (listdir_entry w name Hname) as (Hslash & _).
  unfold scanned in Hx. rewrite (join_plain name Hslash) in Hx.
  destruct (PyStr.endswith ".json" name); [|contradiction].
  destruct (PyDict.lookup ("outputs/" ++ name) (disk w)) as [text|] eqn:Hfile; [|contradiction].
  destruct (json_load E text) as [data|e] eqn:Hload; [|contradiction].
  destruct data as [| | | | | |d]; try contradiction.
  cbn [history_entry py_get obind] in Hx. destruct Hx as [<-|[]].
  cbn [PyDict.lookup String.eqb Ascii.eqb Bool.eqb].
  destruct (PyDict.lookup "timestamp" d) as [v|] eqn:Hts; [|now exists ""].
  destruct (Hstr name text d v Hname Hfile Hload Hts) as (s & ->). now exists s.
Qed.

(* ----------------------------------------------------------------- *)
(** ** Two plans in a row *)

Lemma leb_trans (a b c : string) :
  String.leb a b = true -> String.leb b c = true -> String.leb a c = true.
Proof.
  unfold String.leb. revert b c.
  induction a as [|x a IH]; intros [|y b] [|z c]; cbn [String.compare];
    try reflexivity; try discriminate.
  unfold Ascii.compare.
  destruct (N.compare_spec (N_of_ascii x) (N_of_ascii y)) as [Hxy|Hxy|Hxy];
    destruct (N.compare_spec (N_of_ascii y) (N_of_ascii z)) as [Hyz|Hyz|Hyz];
    try discriminate; intros Hab Hbc.
  - rewrite Hxy, Hyz, N.compare_refl. now apply (IH b c).
  - rewrite Hxy. now rewrite (proj2 (N.compare_lt_iff _ _) Hyz).
  - rewrite <- Hyz. now rewrite (proj2 (N.compare_lt_iff _ _) Hxy).
  - now rewrite (proj2 (N.compare_lt_iff _ _) (N.lt_trans _ _ _ Hxy Hyz)).
Qed.

Lemma newer_or_equal_trans (x y z : list (string * json)) :
  newer_or_equal x y -> newer_or_equal y z -> newer_or_equal x z.
Proof.
  intros (tx & ty & Hx & Hy & Hxy) (ty' & tz & Hy' & Hz & Hyz).
  rewrite Hy in Hy'. injection Hy' as <-.
  exists tx, tz. repeat split; try assumption. now apply (leb_trans tz ty tx).
Qed.

Lemma strongly_sorted_before {A} (R : A -> A -> Prop) (l1 l2 : list A) (x : A) :
  StronglySorted R (l1 ++ x :: l2) -> Forall (fun y => R y x) l1.
Proof.
  induction l1 as [|a l1 IH]; cbn [app]; intros H; [constructor|].
  apply StronglySorted_inv in H as [Hrest Hall]. constructor; [|now apply IH].
  apply (proj1 (Forall_forall _ _) Hall). apply in_or_app. right. now left.
Qed.

(** In a listing sorted newest first, of two entries the strictly newer
    one comes first. *)
Lemma newer_entry_first (entries : list (list (string * json)))
    (x y : list (string * json)) (tx ty : string) :
  Sorted newer_or_equal entries ->
  In x entries -> In y entries ->
  PyDict.lookup "timestamp" x = Some (JStr tx) ->
  PyDict.lookup "timestamp" y = Some (JStr ty) ->
  String.compare ty tx = Lt ->
  exists before between after,
    entries = (before ++ x :: between ++ y :: after)%list.
Proof.
  intros Hsorted Hx Hy Htx Hty Hlt.
  assert (Hstrong : StronglySorted newer_or_equal entries).
  { apply Sorted_StronglySorted; [|exact Hsorted].
    intros a b c. apply newer_or_equal_trans. }
  assert (Hne : x <> y).
  { intros ->. rewrite Htx in Hty. injection Hty as ->.
    now rewrite string_compare_refl in Hlt. }
  destruct (in_split _ _ Hx) as (before & rest & ->).
  apply in_app_or in Hy as [Hy|[Hy|Hy]]; [|contradiction|].
  - exfalso.
    assert (Hyx : newer_or_equal y x)
      by exact (proj1 (Forall_forall _ _) (strongly_sorted_before _ _ _ _ Hstrong) _ Hy).
    destruct Hyx as (ty' & tx' & Hty' & Htx' & Hleb).
    rewrite Hty in Hty'. rewrite Htx in Htx'. injection Hty' as <-. injection Htx' as <-.
    unfold String.leb in Hleb. rewrite String.compare_antisym, Hlt in Hleb. discriminate.
  - destruct (in_split _ _ Hy) as (between & after & ->). now exists before, between, after.
Qed.

Lemma two_plans_stored (E : Env) (req1 req2 : request)
    (w w1 w2 : world) (r1 r2 : response) (d1 d2 : list (string * json)) :
  let t1 := clock E (S (length (trace w))) in
  let t2 := clock E (S (length (trace w1))) in
  generate_plan E req1 w = (Val r1, w1) ->
  payload r1 = Json (JDict d1) ->
  PyDict.lookup "success" d1 = Some (JBool true) ->
  generate_plan E req2 w1 = (Val r2, w2) ->
  payload r2 = Json (JDict d2) ->
  PyDict.lookup "success" d2 = Some (JBool true) ->
  calendar t1 -> calendar t2 -> ~ same_second t1 t2 ->
  (PyDict.lookup "timestamp" d1 = Some (JStr (Strftime.compact t1)) /\
   PyDict.has_key "analysis" d1 = false /\
   PyDict.lookup ("outputs/plan_" ++ Strftime.compact t1 ++ ".json") (disk w2)
     = Some (json_dump E (JDict d1))) /\
  (PyDict.lookup "timestamp" d2 = Some (JStr (Strftime.compact t2)) /\
   PyDict.has_key "analysis" d2 = false /\
   PyDict.lookup ("outputs/plan_" ++ Strftime.compact t2 ++ ".json") (disk w2)
     = Some (json_dump E (JDict d2))).
Proof.
  intros t1 t2 Hrun1 Hpay1 Hok1 Hrun2 Hpay2 Hok2 Hc1 Hc2 Hdiff.
  destruct (generate_plan_success E req1 w w1 r1 d1 Hrun1 Hpay1 Hok1)
    as (reqs1 & text1 & _ & _ & Hd1 & Hdisk1 & _).
  destruct (generate_plan_success E req2 w1 w2 r2 d2 Hrun2 Hpay2 Hok2)
    as (reqs2 & text2 & _ & _ & Hd2 & Hdisk2 & _).
  cbv zeta in Hd1, Hd2, Hdisk1, Hdisk2. rewrite plan_path in Hdisk1, Hdisk2.
  fold t1 in Hd1, Hdisk1. fold t2 in Hd2, Hdisk2.
  split; (split; [subst; reflexivity|split; [subst; reflexivity|]]).
  - rewrite <- Hd1 in Hdisk1. rewrite Hdisk2, lookup_update_other.
    + rewrite Hdisk1. apply lookup_update_same.
    + intros Heq. apply Hdiff. apply (compact_same_second t1 t2 Hc1 Hc2).
      now apply plan_path_injective.
  - rewrite <- Hd2 in Hdisk2. rewrite Hdisk2. apply lookup_update_same.
Qed.

(* ----------------------------------------------------------------- *)
(** ** Floats: a number divided by itself *)

Example flat_image :
  process_image_dimensions {| size := (640, 0)%Z; source := "bytes" |}
  = Exc (PyError "division by zero").
Proof. reflexivity. Qed.

Lemma new_location_exact (steps : Z) : new_location steps 0 = loc_Exact.
Proof. unfold new_location. now destruct (Z.even steps). Qed.

(** The quotient of a positive integer by itself is the float 1.0. *)
Lemma nearest_self (p : positive) : PyFloat.nearest false (Zpos p) p = float_one.
Proof.
  unfold PyFloat.nearest, SFdiv_core_binary.
  set (d := Zdigits2 (Zpos p)).
  replace (d + 0 - (d + 0))%Z with 0%Z by lia.
  change (Z.min (fexp PyFloat.prec PyFloat.emax 0) (0 - 0)) with (-53)%Z.
  change (0 - 0 - -53)%Z with 53%Z. cbv iota.
  rewrite Z.shiftl_mul_pow2 by lia.
  assert (Hdiv : Z.div_eucl (Zpos p * 2 ^ 53) (Zpos p) = ((2 ^ 53)%Z, 0%Z)).
  { assert (Hpair : forall a b, Z.div_eucl a b = ((a / b)%Z, (a mod b)%Z)).
    { intros a b. unfold Z.div, Z.modulo. now destruct (Z.div_eucl a b). }
    rewrite Hpair, Z.mul_comm, Z.div_mul, Z.mod_mul by lia. reflexivity. }
  rewrite Hdiv, new_location_exact. reflexivity.
Qed.

(* ----------------------------------------------------------------- *)
(** ** Start-up *)

Example start_without_key :
  script (Hosts.host None) = (SystemExit 1, folders_made).
Proof. reflexivity. Qed.

Example start_with_key :
  script (Hosts.host (Some "AIza-test"))
  = (Loaded "AIza-test",
     BootRun "0.0.0.0" 5000 true :: BootProbe "Test connection"
     :: BootConfigure "AIza-test" :: folders_made).
Proof. reflexivity. Qed.

Lemma make_folders_ok (H : Host) (paths : list string) :
  (forall p, makedirs H p = Val tt) ->
  forall log, make_folders H paths log = (Val tt, (map BootMakedirs (rev paths) ++ log)%list).
Proof.
  intros Hok. induction paths as [|p paths IH]; intros log; cbn [make_folders]; [reflexivity|].
  rewrite Hok, IH. cbn [rev]. now rewrite map_app, <- app_assoc.
Qed.

(** A module that loaded found a key, had it accepted, and made its
    folders first. *)
Lemma module_body_loaded (H : Host) (key : string) (log : list boot_event) :
  module_body H = (Loaded key, log) ->
  key <> "" /\ getenv H "GEMINI_API_KEY" = Some key /\ configure H key = Val tt /\
  log = BootConfigure key :: folders_made.
Proof.
  unfold module_body.
  destruct (make_folders H _ []) as [[[]|e] log0] eqn:Hmk; [|discriminate].
  destruct (getenv H "GEMINI_API_KEY") as [k|]; [|discriminate].
  destruct (String.eqb_spec k "") as [->|Hne]; [discriminate|].
  destruct (configure H k) as [[]|e] eqn:Hconf; [|discriminate].
  intros [= <- <-]. repeat split; try assumption.
  f_equal. revert Hmk. cbn [make_folders].
  repeat (destruct (makedirs H _); [|discriminate]). now intros [= <-].
Qed.

(* ----------------------------------------------------------------- *)
(** ** Records that stay *)


Lemma record_path_injective (k : kind) (a b : datetime) :
  "outputs/" ++ kind_name k ++ "_" ++ Strftime.compact a ++ ".json"
  = "outputs/" ++ kind_name k ++ "_" ++ Strftime.compact b ++ ".json" ->
  Strftime.compact a = Strftime.compact b.
Proof.
  intros H.
  assert (Happ : Strftime.compact a ++ ".json" = Strftime.compact b ++ ".json").
  { generalize dependent (Strftime.compact a ++ ".json").
    generalize dependent (Strftime.compact b ++ ".json").
    intros x y H. destruct k; cbn [append kind_name] in H; now injection H. }
  apply (append_inv_tail _ _ ".json"); [|exact Happ].
  now rewrite !compact_length.
Qed.




(* ----------------------------------------------------------------- *)
(** ** What each pipeline can replace *)

Lemma analyze_image_keeps (E : Env) (req : request) (w : world) (p text : string) :
  PyDict.lookup p (disk w) = Some text ->
  PyDict.lookup p (disk (snd (analyze_image E req w))) = Some text \/
  analysis_named E w p.
Proof.
  intros Hp. unfold analysis_named, analyze_image, analyze_image_try.
  run; cbn [snd disk]; rewrite ?upload_path, ?analysis_path; auto.
  all: repeat match goal with
    | |- PyDict.lookup ?k (PyDict.update ?q ?v ?d) = Some _ \/ _ =>
        let Hne := fresh "Hne" in
        destruct (String.eqb_spec k q) as [->|Hne];
          [right|rewrite (lookup_update_other q k v d Hne)]
    end; eauto.
Qed.

Lemma generate_plan_keeps (E : Env) (req : request) (w : world) (p text : string) :
  PyDict.lookup p (disk w) = Some text ->
  PyDict.lookup p (disk (snd (generate_plan E req w))) = Some text \/
  plan_named E w p.
Proof.
  intros Hp. unfold plan_named, generate_plan, generate_plan_try.
  run; cbn [snd disk length]; rewrite ?plan_path; auto.
  all: destruct (String.eqb_spec p
         ("outputs/plan_" ++ Strftime.compact (clock E (S (length (trace w)))) ++ ".json"))
         as [->|Hne]; [now right|left; now rewrite lookup_update_other].
Qed.

(** A record is replaced only by a request of its own kind that reads the
    clock in the second of the record. *)
Lemma record_replaced_by_its_kind (E : Env) (req : request) (w : world)
    (k : kind) (t : datetime) (text : string) :
  let p := "outputs/" ++ kind_name k ++ "_" ++ Strftime.compact t ++ ".json" in
  PyDict.lookup p (disk w) = Some text ->
  (PyDict.lookup p (disk (snd (analyze_image E req w))) = Some text \/
   k = Analysis /\ Strftime.compact t = Strftime.compact (clock E (length (trace w)))) /\
  (PyDict.lookup p (disk (snd (generate_plan E req w))) = Some text \/
   k = Plan /\ Strftime.compact t = Strftime.compact (clock E (S (length (trace w))))).
Proof.
  intros p Hp. split.
  - destruct (analyze_image_keeps E req w p text Hp) as [Hkept|[(name & Hname)|Hrecord]];
      [now left| |].
    + destruct k; discriminate Hname.
    + destruct k; [|discriminate Hrecord].
      right. split; [reflexivity|]. exact (record_path_injective Analysis _ _ Hrecord).
  - destruct (generate_plan_keeps E req w p text Hp) as [Hkept|Hrecord]; [now left|].
    destruct k; [discriminate Hrecord|].
    right. split; [reflexivity|]. exact (record_path_injective Plan _ _ Hrecord).
Qed.

(** The disk after a request is the disk before it, or the disk one of
    the views left. *)
Lemma wsgi_app_runs_a_view (E : Env) (req : request) (w : world) :
  snd (wsgi_app E req w) = w \/ exists ep, snd (wsgi_app E req w) = snd (view E ep req w).
Proof.
  unfold wsgi_app, dispatch_request.
  destruct (url_match (path req) (method req)) as [ep|p| |]; try (now left).
  destruct (method req); try (now left);
    right; exists ep; destruct (view E ep req w) as [[r|e] w1]; reflexivity.
Qed.

(* ================================================================= *)
(** * Main theorems *)

Lemma generate_plan_without_requirements (E : Env) (req : request) (w : world)
    (d : list (string * json)) :
  json_payload req = Val (JDict d) ->
  PyDict.lookup "requirements" d = None \/
  PyDict.lookup "requirements" d = Some (JStr "") ->
  exists msg, generate_plan E req w = (Val (jsonify (failure msg)), w) /\
              (over_limit req = false -> msg = "No requirements provided").
Proof.
  intros Hbody Hreq. unfold generate_plan, generate_plan_try.
  rewrite (get_json_parsed req _ Hbody).
  destruct (over_limit req).
  - eexists. unfold_monad. split; [reflexivity|discriminate].
  - exists "No requirements provided".
    unfold_monad. cbn [py_get]. destruct Hreq as [-> | ->]; split; reflexivity.
Qed.

(** C1.  A POST to /generate_plan whose JSON object has no [requirements],
    or the empty string there, is answered with the failure envelope
    [{'error': msg, 'success': False}] (the message being "No requirements
    provided" for a body within the size limit); the world after the
    request is the world before it: the trace has no new call to the
    model, the disk no new or changed file. *)
Theorem empty_requirements_rejected (E : Env) (req : request) (w : world)
    (d : list (string * json)) :
  method req = POST ->
  path req = "/generate_plan" ->
  json_payload req = Val (JDict d) ->
  PyDict.lookup "requirements" d = None \/
  PyDict.lookup "requirements" d = Some (JStr "") ->
  exists msg, wsgi_app E req w = (jsonify (failure msg), w) /\
              (over_limit req = false -> msg = "No requirements provided").
Proof.
  intros Hm Hp Hbody Hreq.
  destruct (generate_plan_without_requirements E req w d Hbody Hreq) as (msg & Hrun & Hmsg).
  exists msg. split; [|exact Hmsg]. unfold wsgi_app, dispatch_request. rewrite Hm, Hp.
  change (url_match "/generate_plan" POST) with (Route ep_generate_plan).
  cbn [view]. rewrite Hrun. reflexivity.
Qed.

Lemma empty_requirements_rejected_witness :
  let req := Fixtures.post_json "/generate_plan" (JDict [("requirements", JStr "")]) in
  exists msg,
    wsgi_app (Fixtures.env []) req Fixtures.empty_world
    = (jsonify (failure msg), Fixtures.empty_world) /\
    (over_limit req = false -> msg = "No requirements provided").
Proof.
  apply (empty_requirements_rejected _ _ _ [("requirements", JStr "")]).
  - reflexivity.
  - reflexivity.
  - reflexivity.
  - right. reflexivity.
Defined.

Lemma analyze_image_rejects (E : Env) (req : request)
    (files : list (string * FileStorage)) (file : FileStorage) (w : world) :
  request_files req = Val files ->
  PyDict.lookup "image" files = Some file ->
  filename file <> "" ->
  allowed_file (filename file) = Val false ->
  analyze_image E req w = (Val invalid_file_type, w).
Proof.
  intros Hform Hfile Hname Hno. apply String.eqb_neq in Hname.
  unfold analyze_image, analyze_image_try.
  rewrite Hform. unfold_monad. rewrite Hfile, Hname, Hno. reflexivity.
Qed.

Lemma analyze_image_accepts (E : Env) (req : request)
    (files : list (string * FileStorage)) (file : FileStorage) (w : world) :
  request_files req = Val files ->
  PyDict.lookup "image" files = Some file ->
  filename file <> "" ->
  allowed_file (filename file) = Val true ->
  fst (analyze_image E req w) <> Val invalid_file_type /\
  went_on w (snd (analyze_image E req w)).
Proof.
  intros Hform Hfile Hname Hyes. apply String.eqb_neq in Hname.
  unfold analyze_image, analyze_image_try, went_on.
  rewrite Hform. unfold_monad. rewrite Hfile, Hname, Hyes. cbn [negb].
  run; cbn [fst snd trace]; (split; [discriminate|]).
  all: try (now exists []).
  all: try (now eexists [_]).
  all: try (now eexists [_; _]).
  all: try (now eexists [_; _; _]).
  all: try (now eexists [_; _; _; _]).
Qed.

(** C2 (as amended).  [allowed_file] says yes exactly when the name holds
    a dot and what follows its last dot, lowercased, is one of png, jpg,
    jpeg, gif, bmp.  For a request whose form is read without error
    ([request.files] returns its files) and an upload with a non-empty
    name, [analyze_image] answers with the invalid-file-type error exactly
    when the name has no such extension, and then nothing was saved: the
    world is unchanged; with such an extension it goes on towards saving.
    The empty name is turned away one step earlier, with the
    no-file-selected error, the world unchanged as well. *)
Theorem upload_validation (E : Env) (req : request)
    (files : list (string * FileStorage)) (file : FileStorage) (w : world) :
  request_files req = Val files ->
  PyDict.lookup "image" files = Some file ->
  (exists b, allowed_file (filename file) = Val b /\
             (b = true <-> has_allowed_extension (filename file))) /\
  (filename file = "" -> analyze_image E req w = (Val no_file_selected, w)) /\
  (filename file <> "" ->
     (fst (analyze_image E req w) = Val invalid_file_type <->
      ~ has_allowed_extension (filename file)) /\
     (~ has_allowed_extension (filename file) -> snd (analyze_image E req w) = w) /\
     (has_allowed_extension (filename file) -> went_on w (snd (analyze_image E req w)))).
Proof.
  intros Hform Hfile.
  destruct (allowed_file_decides (filename file)) as (b & Hb & Hspec).
  split; [now exists b|]. split.
  - intros Hname. unfold analyze_image, analyze_image_try.
    rewrite Hform. unfold_monad. rewrite Hfile, Hname. reflexivity.
  - intros Hname. destruct b.
    + assert (Hext : has_allowed_extension (filename file)) by now apply Hspec.
      destruct (analyze_image_accepts E req files file w Hform Hfile Hname Hb) as [Hne Hon].
      repeat split; tauto.
    + assert (Hext : ~ has_allowed_extension (filename file)).
      { intros H. apply Hspec in H. discriminate. }
      rewrite (analyze_image_rejects E req files file w Hform Hfile Hname Hb).
      repeat split; tauto.
Qed.

Lemma upload_validation_witness :
  let E := Fixtures.env [] in
  let req := Fixtures.upload "floor.txt" "bytes" in
  let file := {| filename := "floor.txt"; content := "bytes" |} in
  let w := Fixtures.empty_world in
  (exists b, allowed_file (filename file) = Val b /\
             (b = true <-> has_allowed_extension (filename file))) /\
  (filename file = "" -> analyze_image E req w = (Val no_file_selected, w)) /\
  (filename file <> "" ->
     (fst (analyze_image E req w) = Val invalid_file_type <->
      ~ has_allowed_extension (filename file)) /\
     (~ has_allowed_extension (filename file) -> snd (analyze_image E req w) = w) /\
     (has_allowed_extension (filename file) -> went_on w (snd (analyze_image E req w)))).
Proof.
  apply (upload_validation (Fixtures.env []) (Fixtures.upload "floor.txt" "bytes")
           [("image", {| filename := "floor.txt"; content := "bytes" |})]
           {| filename := "floor.txt"; content := "bytes" |} Fixtures.empty_world).
  - reflexivity.
  - reflexivity.
Defined.

(** C2 as first stated fails on the empty file name: it has no extension,
    yet the answer is the no-file-selected error, not the invalid-file-type
    one. *)
Lemma empty_filename_is_not_invalid_type :
  ~ has_allowed_extension "" /\
  analyze_image (Fixtures.env []) (Fixtures.upload "" "bytes") Fixtures.empty_world
    = (Val no_file_selected, Fixtures.empty_world) /\
  no_file_selected <> invalid_file_type.
Proof.
  split; [|split].
  - intros (stem & ext & H & _). destruct stem; discriminate.
  - reflexivity.
  - discriminate.
Qed.

(** C3.  When the output directory holds well-formed records (N of
    them analyses, M plans) and, besides, only files the listing skips,
    [get_history] answers with exactly N + M entries: one per record, with
    the file's name and the record's timestamp, tagged "analysis" when the
    parsed object has an [analysis] field and "plan" otherwise, in
    descending order of the timestamp strings. *)
Theorem history_lists_every_record (E : Env) (w : world)
    (cs : list (option (string * kind))) :
  Forall2 (fun f c => holds E (fst f) (snd f) c) (folder_files OUTPUT_FOLDER w) cs ->
  exists entries w',
    get_history E w
    = (Val (jsonify [("files", JList (map JDict entries)); ("success", JBool true)]), w') /\
    length entries = (count_kind Analysis cs + count_kind Plan cs)%nat /\
    Permutation entries (expected (folder_files OUTPUT_FOLDER w) cs) /\
    Sorted newer_or_equal entries.
Proof.
  intros Hcs.
  destruct (get_history_spec E w cs Hcs) as (entries & w' & Hrun & _ & Hperm & Hsorted).
  exists entries, w'. repeat split; try assumption.
  rewrite (Permutation_length Hperm).
  apply expected_length, (Forall2_length Hcs).
Qed.

Lemma history_lists_every_record_witness :
  exists entries w',
    get_history (Fixtures.env Archive.corpus) Archive.shelf
    = (Val (jsonify [("files", JList (map JDict entries)); ("success", JBool true)]), w') /\
    length entries = 2%nat /\
    Permutation entries
      (expected (folder_files OUTPUT_FOLDER Archive.shelf) Archive.contents) /\
    Sorted newer_or_equal entries.
Proof.
  apply (history_lists_every_record (Fixtures.env Archive.corpus) Archive.shelf
           Archive.contents).
  change (folder_files OUTPUT_FOLDER Archive.shelf)
    with [("analysis_20240517_123045.json", Fixtures.dumps (JDict Archive.analysis_doc));
          ("broken.json", "{");
          ("plan_20240518_090000.json", Fixtures.dumps (JDict Archive.plan_doc));
          ("notes.txt", "keep")].
  repeat apply Forall2_cons; try apply Forall2_nil.
  - eapply holds_analysis; reflexivity.
  - eapply holds_unparseable; reflexivity.
  - eapply holds_plan; reflexivity.
  - apply holds_other_file; reflexivity.
Defined.

(** C4.  A request for /download/<filename> whose file name holds [../]
    is answered with the 404 response of [not_found]; no view runs, and
    the world is left as it was: no file, inside or outside [outputs], was
    read or returned.  Nor could [download_file] be made to read outside
    by any other name (a bare [..], say): whatever name it is handed, for
    whatever request, it changes no file and reads at most one, at a path
    that descends from [outputs/] (under the root path of the
    application). *)
Theorem download_traversal_is_not_found (E : Env) (req : request) (w : world)
    (a b : string) :
  path req = "/download/" ++ a ++ "../" ++ b ->
  wsgi_app E req w = (not_found, w) /\
  status not_found = 404 /\
  forall (other : request) name,
    disk (snd (download_file E other name w)) = disk w /\
    (trace (snd (download_file E other name w)) = trace w \/
     exists rel, descends rel /\
       trace (snd (download_file E other name w))
       = EvRead (under_root E ("outputs/" ++ rel)) :: trace w).
Proof.
  intros Hpath.
  split; [|split; [reflexivity|intros other name; apply download_file_confined]].
  unfold wsgi_app, dispatch_request.
  rewrite Hpath, traversal_matches_no_rule. reflexivity.
Qed.

Lemma download_traversal_is_not_found_witness :
  let E := Fixtures.env [] in
  let req := Fixtures.get "/download/../app.py" in
  let w := Fixtures.empty_world in
  wsgi_app E req w = (not_found, w) /\
  status not_found = 404 /\
  forall (other : request) name,
    disk (snd (download_file E other name w)) = disk w /\
    (trace (snd (download_file E other name w)) = trace w \/
     exists rel, descends rel /\
       trace (snd (download_file E other name w))
       = EvRead (under_root E ("outputs/" ++ rel)) :: trace w).
Proof.
  apply (download_traversal_is_not_found (Fixtures.env [])
           (Fixtures.get "/download/../app.py") Fixtures.empty_world "" "app.py").
  reflexivity.
Defined.





(** C7.  A successful analysis read the clock once, at upload time, and
    the YYYYMMDD_HHMMSS string of that one reading is the prefix of the
    stored upload's file name, the [timestamp] field of the persisted
    record, and the middle of the record's file name
    [analysis_<timestamp>.json]. *)
Theorem one_timestamp_names_upload_and_record (E : Env) (req : request)
    (w w' : world) (r : response) (d : list (string * json)) :
  analyze_image E req w = (Val r, w') ->
  payload r = Json (JDict d) ->
  PyDict.lookup "success" d = Some (JBool true) ->
  exists file events,
    let timestamp := Strftime.compact (clock E (length (trace w))) in
    let stored := timestamp ++ "_" ++ secure_filename E (filename file) in
    PyDict.lookup "image" (form_files req) = Some file /\
    is_compact_timestamp timestamp = true /\
    trace w' = (events ++ trace w)%list /\
    clock_readings events = 1%nat /\
    last events EvClock = EvClock /\
    PyDict.lookup ("uploads/" ++ stored) (disk w') = Some (content file) /\
    PyDict.lookup "filename" d = Some (JStr stored) /\
    PyDict.lookup "timestamp" d = Some (JStr timestamp) /\
    PyDict.lookup ("outputs/analysis_" ++ timestamp ++ ".json") (disk w')
      = Some (json_dump E (JDict d)).
Proof.
  intros Hrun Hpay Hok.
  destruct (analyze_image_success E req w w' r d Hrun Hpay Hok)
    as (file & dims & info & text & Hfile & _ & _ & _ & Hd & Hdisk & Htrace).
  cbv zeta in *. rewrite upload_path, analysis_path in *.
  eexists file, _. cbv zeta.
  split; [exact Hfile|]. split; [apply compact_shape|].
  split; [exact Htrace|]. split; [reflexivity|]. split; [reflexivity|].
  rewrite Hdisk, Hd. repeat split.
  - rewrite lookup_update_other by discriminate. apply lookup_update_same.
  - apply lookup_update_same.
Qed.

Lemma one_timestamp_names_upload_and_record_witness :
  let E := Fixtures.env [] in
  let req := Fixtures.upload "plan.PNG" "bytes" in
  let w := Fixtures.empty_world in
  let d := analysis_record "20240517_123045" "20240517_123045_plan.PNG"
             [("width", JInt 10); ("height", JInt 10); ("aspect_ratio", JFloat float_one)]
             "ROOM: 100sqft" in
  let w' := snd (analyze_image E req w) in
  exists file events,
    let timestamp := Strftime.compact (clock E (length (trace w))) in
    let stored := timestamp ++ "_" ++ secure_filename E (filename file) in
    PyDict.lookup "image" (form_files req) = Some file /\
    is_compact_timestamp timestamp = true /\
    trace w' = (events ++ trace w)%list /\
    clock_readings events = 1%nat /\
    last events EvClock = EvClock /\
    PyDict.lookup ("uploads/" ++ stored) (disk w') = Some (content file) /\
    PyDict.lookup "filename" d = Some (JStr stored) /\
    PyDict.lookup "timestamp" d = Some (JStr timestamp) /\
    PyDict.lookup ("outputs/analysis_" ++ timestamp ++ ".json") (disk w')
      = Some (json_dump E (JDict d)).
Proof.
  cbv zeta.
  apply (one_timestamp_names_upload_and_record (Fixtures.env [])
           (Fixtures.upload "plan.PNG" "bytes") Fixtures.empty_world
           (snd (analyze_image (Fixtures.env []) (Fixtures.upload "plan.PNG" "bytes")
                   Fixtures.empty_world))
           (jsonify (analysis_record "20240517_123045" "20240517_123045_plan.PNG"
                       [("width", JInt 10); ("height", JInt 10);
                        ("aspect_ratio", JFloat float_one)] "ROOM: 100sqft"))).
  - vm_compute. reflexivity.
  - reflexivity.
  - reflexivity.
Defined.

(** C8 (as amended).  The 16 MiB limit is enforced where a view reads the
    body: for a request whose body is longer, [request.files] raises the
    payload-too-large error (413) instead of parsing anything, and so does
    [request.get_json()] for a body announced as JSON (for any other body
    it raises what it raises within the limit, the 415 of the
    Content-Type test, which comes first).  So neither pipeline saves a
    file or calls the model: the world after the request is the world
    before it.  A 413 error that leaves a view is answered by [too_large],
    with status 413 and the envelope [{'error': ..., 'success': False}]. *)
Theorem body_limit_enforced_on_read (E : Env) (req : request) (w : world) :
  (MAX_CONTENT_LENGTH < content_length req)%Z ->
  request_files req = Exc werkzeug.RequestEntityTooLarge /\
  (is_json req = true -> get_json req = Exc werkzeug.RequestEntityTooLarge) /\
  (is_json req = false ->
   exists name description, get_json req = Exc (HTTPException 415 name description)) /\
  snd (analyze_image E req w) = w /\
  snd (generate_plan E req w) = w /\
  handle_exception werkzeug.RequestEntityTooLarge = too_large /\
  status too_large = 413 /\
  payload too_large = Json (JDict (failure "File too large. Maximum size is 16MB.")).
Proof.
  intros Hbig. apply Z.ltb_lt in Hbig.
  assert (Hfiles : request_files req = Exc werkzeug.RequestEntityTooLarge)
    by (unfold request_files, over_limit; now rewrite Hbig).
  assert (Hjson : is_json req = true -> get_json req = Exc werkzeug.RequestEntityTooLarge)
    by (intros H; unfold get_json, over_limit; now rewrite H, Hbig).
  assert (Hother : is_json req = false ->
            exists name description, get_json req = Exc (HTTPException 415 name description)).
  { intros H. unfold get_json. rewrite H. cbn [negb]. unfold is_json in H.
    destruct (json_payload req) as [v|[code name description|msg]]; try discriminate H.
    apply negb_false_iff, Nat.eqb_eq in H. subst code. now exists name, description. }
  repeat split; try assumption.
  - unfold analyze_image, analyze_image_try. rewrite Hfiles. reflexivity.
  - unfold generate_plan, generate_plan_try.
    destruct (is_json req) eqn:His.
    + rewrite (Hjson eq_refl). reflexivity.
    + destruct (Hother eq_refl) as (name & description & ->). reflexivity.
Qed.

Lemma body_limit_enforced_on_read_witness :
  let E := Fixtures.env [] in
  let w := Fixtures.empty_world in
  (request_files oversized_upload = Exc werkzeug.RequestEntityTooLarge /\
   get_json oversized_upload = Exc Fixtures.UnsupportedMediaType /\
   snd (analyze_image E oversized_upload w) = w /\
   snd (generate_plan E oversized_upload w) = w) /\
  (request_files oversized_json = Exc werkzeug.RequestEntityTooLarge /\
   get_json oversized_json = Exc werkzeug.RequestEntityTooLarge /\
   snd (analyze_image E oversized_json w) = w /\
   snd (generate_plan E oversized_json w) = w) /\
  status too_large = 413.
Proof.
  cbv zeta.
  destruct (body_limit_enforced_on_read (Fixtures.env []) oversized_upload
              Fixtures.empty_world) as (Hf & _ & _ & Ha & Hp & _ & Hs & _);
    [reflexivity|].
  destruct (body_limit_enforced_on_read (Fixtures.env []) oversized_json
              Fixtures.empty_world) as (Hf' & Hj' & _ & Ha' & Hp' & _);
    [reflexivity|].
  split; [|split; [|exact Hs]].
  - split; [exact Hf|split; [reflexivity|split; [exact Ha|exact Hp]]].
  - split; [exact Hf'|split; [exact (Hj' eq_refl)|split; [exact Ha'|exact Hp']]].
Defined.

(** C8 as first stated fails: a POST to /analyze with a body one byte
    over the limit is routed to [analyze_image], the view runs, and the
    answer is the one of its [except] clause, with status 200; it is not
    the 413 response of [too_large]. *)
Lemma oversized_upload_answered_by_analyze :
  (MAX_CONTENT_LENGTH < content_length oversized_upload)%Z /\
  url_match (path oversized_upload) (method oversized_upload) = Route ep_analyze_image /\
  wsgi_app (Fixtures.env []) oversized_upload Fixtures.empty_world =
    (jsonify (failure
       "Error processing image: 413 Request Entity Too Large: The data value transmitted exceeds the capacity limit."),
     Fixtures.empty_world) /\
  status (fst (wsgi_app (Fixtures.env []) oversized_upload Fixtures.empty_world)) = 200 /\
  fst (wsgi_app (Fixtures.env []) oversized_upload Fixtures.empty_world) <> too_large.
Proof.
  repeat split. discriminate.
Qed.

(** C9 (as amended).  No request deletes a file, and a file a request
    changed bears a name made from a clock reading of that request.  An
    analysis request can replace only its upload
    [uploads/<timestamp>_<name>] and its record
    [outputs/analysis_<timestamp>.json], a plan request only its record
    [outputs/plan_<timestamp>.json]: every file under any other name keeps
    its content, so a record [outputs/<kind>_<timestamp>.json] is replaced
    only by a request of its own kind whose clock reading gives that very
    timestamp.  Every other view (the history, a download, test-api,
    health, the index page, a static file) leaves the disk as it was; and
    the disk after a request is the disk before it or the disk one of the
    views left. *)
Theorem writes_only_under_timestamp_names (E : Env) (req : request) (w : world) :
  (forall p, PyDict.has_key p (disk w) = true ->
             PyDict.has_key p (disk (snd (wsgi_app E req w))) = true) /\
  (forall p text, PyDict.lookup p (disk w) = Some text ->
                  PyDict.lookup p (disk (snd (wsgi_app E req w))) = Some text \/
                  timestamp_named E w p) /\
  (forall p text, PyDict.lookup p (disk w) = Some text ->
                  PyDict.lookup p (disk (snd (analyze_image E req w))) = Some text \/
                  analysis_named E w p) /\
  (forall p text, PyDict.lookup p (disk w) = Some text ->
                  PyDict.lookup p (disk (snd (generate_plan E req w))) = Some text \/
                  plan_named E w p) /\
  (forall k t text,
     let p := "outputs/" ++ kind_name k ++ "_" ++ Strftime.compact t ++ ".json" in
     PyDict.lookup p (disk w) = Some text ->
     (PyDict.lookup p (disk (snd (analyze_image E req w))) = Some text \/
      k = Analysis /\ Strftime.compact t = Strftime.compact (clock E (length (trace w)))) /\
     (PyDict.lookup p (disk (snd (generate_plan E req w))) = Some text \/
      k = Plan /\
      Strftime.compact t = Strftime.compact (clock E (S (length (trace w)))))) /\
  (forall ep, ep <> ep_analyze_image -> ep <> ep_generate_plan ->
              disk (snd (view E ep req w)) = disk w) /\
  (snd (wsgi_app E req w) = w \/
   exists ep, snd (wsgi_app E req w) = snd (view E ep req w)).
Proof.
  pose proof (wsgi_app_disk E req w) as Hw.
  split; [|split; [|split; [|split; [|split; [|split]]]]].
  - intros p Hp.
    destruct Hw as [->|[(q & text & _ & ->)|(q & text & q' & text' & _ & _ & ->)]];
      auto using has_key_update.
  - intros p text Hp.
    destruct Hw as [->|[(q & t & Hq & ->)|(q & t & q' & t' & Hq & Hq' & ->)]].
    + now left.
    + destruct (lookup_update_cases q p t _ _ Hp) as [H| ->]; auto.
    + destruct (lookup_update_cases q p t _ _ Hp) as [H| ->]; auto.
      destruct (lookup_update_cases q' p t' _ _ H) as [H'| ->]; auto.
  - intros p text. apply analyze_image_keeps.
  - intros p text. apply generate_plan_keeps.
  - intros k t text. apply record_replaced_by_its_kind.
  - intros ep. apply view_disk.
  - apply wsgi_app_runs_a_view.
Qed.

(** C9 as first stated fails: two plans generated within one second get
    the same file name, and the second request replaces the record the
    first one wrote. *)
Lemma same_second_plan_replaces_record :
  let E := Fixtures.env [] in
  let first := Fixtures.post_json "/generate_plan" (JDict [("requirements", JStr "two rooms")]) in
  let second := Fixtures.post_json "/generate_plan" (JDict [("requirements", JStr "a loft")]) in
  let w1 := snd (wsgi_app E first Fixtures.empty_world) in
  let w2 := snd (wsgi_app E second w1) in
  exists record record',
    PyDict.lookup "outputs/plan_20240517_123045.json" (disk w1) = Some record /\
    PyDict.lookup "outputs/plan_20240517_123045.json" (disk w2) = Some record' /\
    record <> record'.
Proof.
  cbv zeta. eexists _, _. split; [vm_compute; reflexivity|].
  split; [vm_compute; reflexivity|]. discriminate.
Qed.

(** C10.  For a decoded image of positive width and height,
    [process_image_dimensions] returns the width and the height unchanged
    and, as [aspect_ratio], the float quotient width / height rounded to
    two decimal places; this is the [image_info] of the record of a
    successful analysis.  A 10x10 image gives 1.0; a 1x3 image gives the
    rounded 0.33 (the float 5944751508129055 * 2^-54), not the quotient. *)
Theorem image_info_aspect_ratio :
  (forall image width height,
     size image = (width, height) -> (0 < width)%Z -> (0 < height)%Z ->
     exists x,
       PyFloat.int_truediv width height = Val x /\
       process_image_dimensions image =
         Val [("width", JInt width); ("height", JInt height);
              ("aspect_ratio", JFloat (PyFloat.round x 2))] /\
       two_places x (PyFloat.round x 2)) /\
  (forall E req w w' r d,
     analyze_image E req w = (Val r, w') ->
     payload r = Json (JDict d) ->
     PyDict.lookup "success" d = Some (JBool true) ->
     exists file dims info,
       PyDict.lookup "image" (form_files req) = Some file /\
       decode E (content file) = Val dims /\
       process_image_dimensions {| size := dims; source := content file |} = Val info /\
       PyDict.lookup "image_info" d = Some (JDict info)) /\
  (forall bytes,
     process_image_dimensions {| size := (10, 10)%Z; source := bytes |} =
       Val [("width", JInt 10); ("height", JInt 10);
            ("aspect_ratio", JFloat float_one)]) /\
  (exists third,
     PyFloat.int_truediv 1 3 = Val third /\
     PyFloat.round third 2 = S754_finite false 5944751508129055 (-54) /\
     PyFloat.round third 2 <> third).
Proof.
  split; [|split; [|split]].
  - intros image width height Hsize Hw Hh.
    exists (PyFloat.nearest false width (Z.to_pos height)).
    split; [|split].
    + destruct height as [|h|h]; try lia. destruct width as [|p|p]; try lia. reflexivity.
    + now apply process_image_dimensions_positive.
    + apply round_two_places.
  - intros E req w w' r d Hrun Hpay Hok.
    destruct (analyze_image_success E req w w' r d Hrun Hpay Hok)
      as (file & dims & info & text & Hfile & Hdec & Hinfo & _ & Hd & _).
    exists file, dims, info. rewrite Hd. repeat split; assumption || reflexivity.
  - intros bytes. vm_compute. reflexivity.
  - eexists. split; [reflexivity|]. split; [vm_compute; reflexivity|].
    vm_compute. discriminate.
Qed.

(* ================================================================= *)
(** * Further properties *)

(** What else the code guarantees, beyond the statements of its
    specification. *)

(* ----------------------------------------------------------------- *)
(** ** Start-up *)

(** X1.  The module loads only with a key: when it has loaded, the
    environment held a non-empty GEMINI_API_KEY, the client accepted it,
    and the four folders were made before that.  Without the variable, or
    with an empty one, the interpreter exits with status 1 once the
    folders are made, the client never being configured, and the script
    stops there.  A loaded module run as a script always reaches
    [app.run], on all interfaces, port 5000, with the debugger on, whether
    the connection test succeeded or not. *)
Theorem start_up_needs_a_key (H : Host) :
  (forall key log, module_body H = (Loaded key, log) ->
     key <> "" /\ getenv H "GEMINI_API_KEY" = Some key /\ configure H key = Val tt /\
     log = BootConfigure key :: folders_made) /\
  ((forall p, makedirs H p = Val tt) ->
   getenv H "GEMINI_API_KEY" = None \/ getenv H "GEMINI_API_KEY" = Some "" ->
   module_body H = (SystemExit 1, folders_made) /\ script H = (SystemExit 1, folders_made)) /\
  (forall key log, module_body H = (Loaded key, log) ->
     script H = (Loaded key, BootRun "0.0.0.0" 5000 true :: BootProbe "Test connection" :: log)).
Proof.
  split; [|split].
  - intros key log. apply module_body_loaded.
  - intros Hok Hkey. unfold script, module_body. rewrite (make_folders_ok H _ Hok).
    destruct Hkey as [-> | ->]; split; reflexivity.
  - intros key log Hload. unfold script. rewrite Hload. now destruct (probe H _).
Qed.

(** X2.  In a service whose module loaded, the key is never missing: a
    GET /health reads the clock once, touches no file, and answers with
    status "healthy", the ISO form of that reading, and
    [gemini_configured] true; [api_key_configured], as /test_api reports
    it, is true as well. *)
Theorem loaded_service_reports_its_key (H : Host) (E : Env) (req : request) (w : world)
    (key : string) (log : list boot_event) :
  module_body H = (Loaded key, log) ->
  GEMINI_API_KEY E = key ->
  method req = GET ->
  path req = "/health" ->
  exists d,
    wsgi_app E req w
    = (jsonify d, {| disk := disk w; trace := EvClock :: trace w |}) /\
    PyDict.lookup "status" d = Some (JStr "healthy") /\
    PyDict.lookup "timestamp" d
      = Some (JStr (Strftime.isoformat (clock E (length (trace w))))) /\
    PyDict.lookup "gemini_configured" d = Some (JBool true) /\
    api_key_configured E = JBool true.
Proof.
  intros Hload Hkey Hm Hp.
  destruct (module_body_loaded H key log Hload) as (Hne & _).
  assert (Hconf : api_key_configured E = JBool true).
  { unfold api_key_configured. rewrite Hkey. apply String.eqb_neq in Hne. now rewrite Hne. }
  unfold wsgi_app, dispatch_request. rewrite Hm, Hp.
  change (url_match "/health" GET) with (Route ep_health_check). cbn [view].
  unfold health_check. unfold_monad. eexists. split; [reflexivity|].
  cbn [PyDict.lookup String.eqb Ascii.eqb Bool.eqb]. rewrite Hconf. repeat split.
Qed.

Lemma loaded_service_reports_its_key_witness :
  let E := Fixtures.env [] in
  let w := Fixtures.empty_world in
  exists d,
    wsgi_app E (Fixtures.get "/health") w
    = (jsonify d, {| disk := disk w; trace := EvClock :: trace w |}) /\
    PyDict.lookup "status" d = Some (JStr "healthy") /\
    PyDict.lookup "timestamp" d
      = Some (JStr (Strftime.isoformat (clock E (length (trace w))))) /\
    PyDict.lookup "gemini_configured" d = Some (JBool true) /\
    api_key_configured E = JBool true.
Proof.
  apply (loaded_service_reports_its_key (Hosts.host (Some "test-key")) (Fixtures.env [])
           (Fixtures.get "/health") Fixtures.empty_world "test-key"
           (BootConfigure "test-key" :: folders_made)); reflexivity.
Defined.

(* ----------------------------------------------------------------- *)
(** ** Routes, statuses and what is served *)

(** X3.  Each route takes the methods of its decorator only.  /analyze
    and /generate_plan answer any method but POST (and OPTIONS) with
    405; the index, /test_api, /history, /health and /download/<name>
    answer any method but GET and HEAD (and OPTIONS) with 405.  No view
    runs for such a request: the world is left as it was. *)
Theorem routes_accept_only_their_methods (E : Env) (req : request) (w : world) :
  (In (path req) ["/analyze"; "/generate_plan"] ->
   method req <> POST -> method req <> OPTIONS ->
   wsgi_app E req w = (method_not_allowed, w)) /\
  (In (path req) ["/"; "/test_api"; "/history"; "/health"] ->
   method req <> GET -> method req <> HEAD -> method req <> OPTIONS ->
   wsgi_app E req w = (method_not_allowed, w)) /\
  (forall name, path req = "/download/" ++ name -> string_converter name = true ->
   method req <> GET -> method req <> HEAD -> method req <> OPTIONS ->
   wsgi_app E req w = (method_not_allowed, w)).
Proof.
  unfold wsgi_app, dispatch_request. repeat split.
  - intros Hp Hpost Hopt. cbn [In] in Hp.
    destruct Hp as [<-|[<-|[]]]; destruct (method req); try congruence; reflexivity.
  - intros Hp Hget Hhead Hopt. cbn [In] in Hp.
    destruct Hp as [<-|[<-|[<-|[<-|[]]]]]; destruct (method req); try congruence; reflexivity.
  - intros name Hp Hname Hget Hhead Hopt. rewrite Hp.
    assert (Hfirst : match_rule ("/download/" ++ name) = Some (ep_download_file name))
      by (cbn; now rewrite Hname).
    assert (Hmerged : exists r, merge_slashes ("/download/" ++ name) = "/download/" ++ r).
    { change (merge_slashes ("/download/" ++ name))
        with ("/download" ++ merge_slashes (String "/" name)).
      destruct (merge_slashes_slash name) as (r & ->). now exists r. }
    destruct Hmerged as (r & Hmerged).
    assert (Hsecond : match_rule ("/download/" ++ r)
                      = if string_converter r then Some (ep_download_file r) else None)
      by reflexivity.
    rewrite url_match_download. unfold find_rule. rewrite Hfirst, Hmerged, Hsecond.
    destruct (string_converter r);
      destruct (method req); try congruence; reflexivity.
Qed.

(** X4.  The five views that answer in JSON (analyze, generate-plan,
    test-api, the history and the health check) never raise: whatever the
    request and whatever is on the disk, each returns a JSON response with
    status 200.  So no error handler answers in their place: the answer is
    neither [too_large] nor [internal_error].  [download_file] never
    raises either: it answers with the file (status 200, or 412 when a
    precondition of the request fails), with a part of it (206), with a
    bare 304, or with its own envelope and status 200. *)
Theorem own_views_never_raise (E : Env) (req : request) (w : world) :
  (forall ep,
     In ep [ep_analyze_image; ep_generate_plan; ep_test_api; ep_get_history;
            ep_health_check] ->
     exists d w', view E ep req w = (Val (jsonify d), w') /\
                  status (jsonify d) = 200 /\
                  jsonify d <> too_large /\ jsonify d <> internal_error) /\
  (forall name,
     exists r w', view E (ep_download_file name) req w = (Val r, w') /\
                  In (status r) [200; 206; 304; 412] /\
                  (is_failure r \/ forall j, payload r <> Json j)).
Proof.
  split.
  - intros ep Hep. destruct (json_view_answers E ep req w Hep) as (d & w' & Hrun).
    exists d, w'. repeat split; [exact Hrun|discriminate|discriminate].
  - intros name. apply download_file_returns.
Qed.

(** X5.  A request makes at most one call to the model, and a view makes
    one only if it is [analyze_image], [generate_plan] or [test_api]: the
    history, a download, the health check, the index page and a static
    file cost no call. *)
Theorem model_called_at_most_once (E : Env) (req : request) (w : world) :
  (exists events,
     trace (snd (wsgi_app E req w)) = (events ++ trace w)%list /\
     (model_calls events <= 1)%nat) /\
  (forall ep, exists events,
     trace (snd (view E ep req w)) = (events ++ trace w)%list /\
     (model_calls events <= 1)%nat /\
     (model_calls events = 1%nat ->
      In ep [ep_analyze_image; ep_generate_plan; ep_test_api])).
Proof.
  split; [|intros ep; apply view_model_calls].
  destruct (wsgi_app_runs_a_view E req w) as [->|(ep & ->)].
  - exists []. split; [reflexivity|cbn; lia].
  - destruct (view_model_calls E ep req w) as (events & Htrace & Hle & _).
    now exists events.
Qed.



(** X7.  A GET /download/<name> for a name that is one path segment and
    is not the name of a file in [outputs/] (of the application's root
    path) is answered by the [except] clause of [download_file]: the
    envelope quoting werkzeug's 404, with status 200, and not by the 404
    handler [not_found].  Nothing is read or written. *)
Theorem missing_download_is_answered_200 (E : Env) (req : request) (w : world)
    (name : string) :
  method req = GET ->
  path req = "/download/" ++ name ->
  string_converter name = true ->
  PyDict.lookup (under_root E ("outputs/" ++ name)) (disk w) = None ->
  wsgi_app E req w = (file_not_found, w) /\
  status file_not_found = 200 /\
  file_not_found <> not_found.
Proof.
  intros Hm Hp Hname Hfile. split; [|split; [reflexivity|discriminate]].
  unfold wsgi_app, dispatch_request.
  rewrite Hm, Hp, (route_download_segment name Hname). cbn [view].
  unfold download_file, send_from_directory, send_file.
  destruct (safe_join_segment name Hname) as [-> | ->]; [reflexivity|].
  unfold_monad. rewrite Hfile. reflexivity.
Qed.

Lemma missing_download_is_answered_200_witness :
  wsgi_app (Fixtures.env []) (Fixtures.get "/download/plan_20240101_000000.json") Archive.shelf
  = (file_not_found, Archive.shelf) /\
  status file_not_found = 200 /\
  file_not_found <> not_found.
Proof.
  apply (missing_download_is_answered_200 (Fixtures.env [])
           (Fixtures.get "/download/plan_20240101_000000.json") Archive.shelf
           "plan_20240101_000000.json"); reflexivity.
Defined.

(* ----------------------------------------------------------------- *)
(** ** The analysis pipeline *)

(** X8.  A POST to /analyze whose form is read without error and has no
    file field named [image], whatever other fields it has, is answered
    with the envelope "No image uploaded"; the world is left as it was. *)
Theorem upload_without_image_field (E : Env) (req : request)
    (files : list (string * FileStorage)) (w : world) :
  method req = POST ->
  path req = "/analyze" ->
  request_files req = Val files ->
  PyDict.lookup "image" files = None ->
  wsgi_app E req w = (jsonify (failure "No image uploaded"), w).
Proof.
  intros Hm Hp Hform Hfield. unfold wsgi_app, dispatch_request. rewrite Hm, Hp.
  change (url_match "/analyze" POST) with (Route ep_analyze_image). cbn [view].
  unfold analyze_image, analyze_image_try. rewrite Hform.
  unfold_monad. rewrite Hfield. reflexivity.
Qed.

Lemma upload_without_image_field_witness :
  let req := {| method := POST; path := "/analyze"; content_length := 5;
                form_files := [("file", {| filename := "plan.png"; content := "bytes" |})];
                form_fault := None;
                json_payload := Exc Fixtures.UnsupportedMediaType;
                make_conditional := Fixtures.unconditional |} in
  wsgi_app (Fixtures.env []) req Fixtures.empty_world
  = (jsonify (failure "No image uploaded"), Fixtures.empty_world).
Proof.
  apply (upload_without_image_field (Fixtures.env []) _
           [("file", {| filename := "plan.png"; content := "bytes" |})]);
    reflexivity.
Defined.

(** X9.  An upload with an allowed name that the decoder cannot read is
    saved all the same: once the form is read, the file is written under
    [uploads/<timestamp>_<name>], read back, and stays there when
    [Image.open] raises; the answer is the envelope quoting the decoder's
    error, the model is not called and no record is written. *)
Theorem undecodable_upload_is_kept (E : Env) (req : request) (w : world)
    (files : list (string * FileStorage)) (file : FileStorage) (e : exn) :
  let timestamp := Strftime.compact (clock E (length (trace w))) in
  let stored := "uploads/" ++ timestamp ++ "_" ++ secure_filename E (filename file) in
  request_files req = Val files ->
  PyDict.lookup "image" files = Some file ->
  allowed_file (filename file) = Val true ->
  write_fault E (S (length (trace w))) stored = None ->
  decode E (content file) = Exc e ->
  analyze_image E req w
  = (Val (jsonify (failure ("Error processing image: " ++ str_exn e))),
     {| disk := PyDict.update stored (content file) (disk w);
        trace := [EvRead stored; EvWrite stored; EvClock] ++ trace w |}).
Proof.
  intros timestamp stored Hform Hfile Hname Hwrite Hdecode.
  assert (Hne : String.eqb (filename file) "" = false).
  { destruct (String.eqb_spec (filename file) "") as [Heq|]; [|reflexivity].
    rewrite Heq in Hname. discriminate. }
  unfold analyze_image, analyze_image_try. rewrite Hform.
  unfold_monad. rewrite Hfile, Hne, Hname. cbn [negb].
  rewrite upload_path. fold timestamp. fold stored.
  cbn [length]. rewrite Hwrite. unfold_monad.
  rewrite (lookup_update_same stored (content file) (disk w)), Hdecode. reflexivity.
Qed.

Lemma undecodable_upload_is_kept_witness :
  analyze_image (Faults.env (Exc Faults.UnidentifiedImageError) (Val "ROOM"))
    (Fixtures.upload "scan.png" "not a picture") Fixtures.empty_world
  = (Val (jsonify (failure
       "Error processing image: cannot identify image file 'uploads/20240517_123045_scan.png'")),
     {| disk := [("uploads/20240517_123045_scan.png", "not a picture")];
        trace := [EvRead "uploads/20240517_123045_scan.png";
                  EvWrite "uploads/20240517_123045_scan.png"; EvClock] |}).
Proof.
  apply (undecodable_upload_is_kept
           (Faults.env (Exc Faults.UnidentifiedImageError) (Val "ROOM"))
           (Fixtures.upload "scan.png" "not a picture") Fixtures.empty_world
           [("image", {| filename := "scan.png"; content := "not a picture" |})]
           {| filename := "scan.png"; content := "not a picture" |}
           Faults.UnidentifiedImageError); reflexivity.
Defined.

(** X10.  [process_image_dimensions] raises "division by zero" exactly on
    an image of height 0.  In [analyze_image] an upload that decodes to
    such an image, saved once the form is read, is answered with the
    envelope quoting that error; the upload stays, the model is not called
    and no record is written. *)
Theorem zero_height_is_a_division_by_zero (E : Env) (req : request) (w : world)
    (files : list (string * FileStorage)) (file : FileStorage) (width : Z) :
  let timestamp := Strftime.compact (clock E (length (trace w))) in
  let stored := "uploads/" ++ timestamp ++ "_" ++ secure_filename E (filename file) in
  request_files req = Val files ->
  PyDict.lookup "image" files = Some file ->
  allowed_file (filename file) = Val true ->
  write_fault E (S (length (trace w))) stored = None ->
  decode E (content file) = Val (width, 0%Z) ->
  (forall height,
     process_image_dimensions {| size := (width, height); source := content file |}
     = Exc (PyError "division by zero") <-> height = 0%Z) /\
  analyze_image E req w
  = (Val (jsonify (failure "Error processing image: division by zero")),
     {| disk := PyDict.update stored (content file) (disk w);
        trace := [EvRead stored; EvWrite stored; EvClock] ++ trace w |}).
Proof.
  intros timestamp stored Hform Hfile Hname Hwrite Hdecode. split.
  - intros height. unfold process_image_dimensions. cbn [size].
    destruct height as [|h|h]; cbn [PyFloat.int_truediv obind]; split;
      reflexivity || discriminate || lia.
  - assert (Hne : String.eqb (filename file) "" = false).
    { destruct (String.eqb_spec (filename file) "") as [Heq|]; [|reflexivity].
      rewrite Heq in Hname. discriminate. }
    unfold analyze_image, analyze_image_try. rewrite Hform.
    unfold_monad. rewrite Hfile, Hne, Hname. cbn [negb].
    rewrite upload_path. fold timestamp. fold stored.
    cbn [length]. rewrite Hwrite. unfold_monad.
    rewrite (lookup_update_same stored (content file) (disk w)), Hdecode. reflexivity.
Qed.

Lemma zero_height_is_a_division_by_zero_witness :
  let E := Faults.env (Val (640, 0)%Z) (Val "ROOM") in
  (forall height,
     process_image_dimensions {| size := (640, height)%Z; source := "a line" |}
     = Exc (PyError "division by zero") <-> height = 0%Z) /\
  analyze_image E (Fixtures.upload "line.png" "a line") Fixtures.empty_world
  = (Val (jsonify (failure "Error processing image: division by zero")),
     {| disk := [("uploads/20240517_123045_line.png", "a line")];
        trace := [EvRead "uploads/20240517_123045_line.png";
                  EvWrite "uploads/20240517_123045_line.png"; EvClock] |}).
Proof.
  apply (zero_height_is_a_division_by_zero
           (Faults.env (Val (640, 0)%Z) (Val "ROOM"))
           (Fixtures.upload "line.png" "a line") Fixtures.empty_world
           [("image", {| filename := "line.png"; content := "a line" |})]
           {| filename := "line.png"; content := "a line" |} 640); reflexivity.
Defined.

(** X11.  A square image, whatever its side, has the aspect ratio 1.0
    exactly: the quotient of the side by itself is the float 1.0, and
    rounding leaves it there. *)
Theorem square_image_has_ratio_one (image : Image) (side : Z) :
  (0 < side)%Z ->
  size image = (side, side) ->
  process_image_dimensions image
  = Val [("width", JInt side); ("height", JInt side); ("aspect_ratio", JFloat float_one)].
Proof.
  intros Hside Hsize. unfold process_image_dimensions. rewrite Hsize.
  destruct side as [|p|p]; try lia.
  cbn [PyFloat.int_truediv Z.ltb Z.compare Z.abs obind].
  rewrite nearest_self. reflexivity.
Qed.

Lemma square_image_has_ratio_one_witness :
  process_image_dimensions {| size := (1024, 1024)%Z; source := "bytes" |}
  = Val [("width", JInt 1024); ("height", JInt 1024); ("aspect_ratio", JFloat float_one)].
Proof.
  apply (square_image_has_ratio_one {| size := (1024, 1024)%Z; source := "bytes" |} 1024);
    reflexivity.
Defined.



(** X13.  Whenever [analyze_image] calls the model, it asks about the
    saved upload and nothing else: the text part is the fixed prompt of
    the source, which no field of the request enters, the picture is the
    decoded upload, and that upload is on disk under
    [uploads/<timestamp>_<name>] and still there when the request ends. *)
Theorem analysis_asks_about_the_saved_upload (E : Env) (req : request) (w : world) :
  exists events,
    trace (snd (analyze_image E req w)) = (events ++ trace w)%list /\
    forall parts, In (EvModel parts) events ->
      exists file dims,
        PyDict.lookup "image" (form_files req) = Some file /\
        decode E (content file) = Val dims /\
        parts = [Text prompt; Picture {| size := dims; source := content file |}] /\
        PyDict.lookup
          ("uploads/" ++ Strftime.compact (clock E (length (trace w))) ++ "_"
           ++ secure_filename E (filename file))
          (disk (snd (analyze_image E req w))) = Some (content file).
Proof.
  unfold analyze_image, analyze_image_try, request_files.
  run; added_events; intros parts Hin; cbn [In] in Hin;
    repeat (destruct Hin as [Hin|Hin]; [try discriminate Hin|]); try contradiction.
  all: injection Hin as <-.
  all: match goal with
    | Hf : PyDict.lookup "image" _ = Some ?f, Hd : decode _ _ = Val ?dims |- _ =>
        exists f, dims; repeat split; try assumption; try reflexivity
    end.
  all: cbn [snd disk]; rewrite ?upload_path, ?analysis_path.
  all: try apply lookup_update_same.
  all: rewrite lookup_update_other by discriminate; apply lookup_update_same.
Qed.

(* ----------------------------------------------------------------- *)
(** ** The plan pipeline *)

(** X14.  A POST to /generate_plan within the size limit whose JSON body
    is an object with a falsy [requirements] (null, false, 0, 0.0, an
    empty list or object, like the empty string) is answered "No
    requirements provided"; a body that is JSON but no object (a list, a
    string, a number, null) is answered with the envelope quoting the
    [AttributeError] of [data.get].  In both cases the world is left as
    it was: the model is not called. *)
Theorem body_without_usable_requirements (E : Env) (req : request) (w : world)
    (data : json) :
  method req = POST ->
  path req = "/generate_plan" ->
  over_limit req = false ->
  json_payload req = Val data ->
  (forall d v, data = JDict d -> PyDict.lookup "requirements" d = Some v ->
               truthy v = false ->
               wsgi_app E req w = (jsonify (failure "No requirements provided"), w)) /\
  ((forall d, data <> JDict d) ->
   wsgi_app E req w
   = (jsonify (failure ("Error generating plan: '" ++ type_name data
                        ++ "' object has no attribute 'get'")), w)).
Proof.
  intros Hm Hp Hsize Hbody.
  assert (Hrun : wsgi_app E req w
                 = let (o, w') := generate_plan E req w in
                   match o with Val r => (r, w') | Exc e => (handle_exception e, w') end).
  { unfold wsgi_app, dispatch_request. rewrite Hm, Hp. reflexivity. }
  rewrite Hrun. unfold generate_plan, generate_plan_try.
  rewrite (get_json_within req Hsize), Hbody.
  split.
  - intros d v -> Hreq Hfalse. unfold_monad. cbn [py_get]. rewrite Hreq, Hfalse. reflexivity.
  - intros Hno. unfold_monad. destruct data; try reflexivity. now destruct (Hno d).
Qed.

Lemma body_without_usable_requirements_witness :
  let E := Fixtures.env [] in
  let data := JDict [("requirements", JList [])] in
  let req := Fixtures.post_json "/generate_plan" data in
  let w := Fixtures.empty_world in
  (forall d v, data = JDict d -> PyDict.lookup "requirements" d = Some v ->
               truthy v = false ->
               wsgi_app E req w = (jsonify (failure "No requirements provided"), w)) /\
  ((forall d, data <> JDict d) ->
   wsgi_app E req w
   = (jsonify (failure ("Error generating plan: '" ++ type_name data
                        ++ "' object has no attribute 'get'")), w)).
Proof.
  apply (body_without_usable_requirements (Fixtures.env [])
           (Fixtures.post_json "/generate_plan" (JDict [("requirements", JList [])]))
           Fixtures.empty_world (JDict [("requirements", JList [])])); reflexivity.
Defined.

(** X15.  When the model answers a plan request with the empty text,
    [generate_plan] answers "No response from AI model"; the call to the
    model is all that happened: the clock was not read and nothing was
    written. *)
Theorem empty_model_answer_is_refused (E : Env) (req : request) (w : world)
    (d : list (string * json)) (requirements : json) :
  let parts := [Text (plan_prompt (format_value E requirements))] in
  over_limit req = false ->
  json_payload req = Val (JDict d) ->
  PyDict.lookup "requirements" d = Some requirements ->
  truthy requirements = true ->
  generate_content E (length (trace w)) parts = Val "" ->
  generate_plan E req w
  = (Val (jsonify (failure "No response from AI model")),
     {| disk := disk w; trace := EvModel parts :: trace w |}).
Proof.
  intros parts Hsize Hbody Hreq Htrue Hmodel.
  unfold generate_plan, generate_plan_try.
  rewrite (get_json_within req Hsize), Hbody.
  unfold_monad. cbn [py_get]. rewrite Hreq, Htrue. cbn [negb].
  fold parts. rewrite Hmodel. reflexivity.
Qed.

Lemma empty_model_answer_is_refused_witness :
  let E := Faults.env (Val (10, 10)%Z) (Val "") in
  let requirements := JStr "two rooms" in
  generate_plan E (Fixtures.post_json "/generate_plan" (JDict [("requirements", requirements)]))
    Fixtures.empty_world
  = (Val (jsonify (failure "No response from AI model")),
     {| disk := []; trace := [EvModel [Text (plan_prompt (format_value E requirements))]] |}).
Proof.
  apply (empty_model_answer_is_refused (Faults.env (Val (10, 10)%Z) (Val ""))
           (Fixtures.post_json "/generate_plan" (JDict [("requirements", JStr "two rooms")]))
           Fixtures.empty_world [("requirements", JStr "two rooms")] (JStr "two rooms"));
    reflexivity.
Defined.

(** X16.  A successful plan request did three things, in this order: it
    sent the model one text part, the prompt built around the request's
    [requirements]; it read the clock, after the model had answered; and
    it wrote [outputs/plan_<timestamp>.json] for that reading.  The record
    holds that timestamp, the [requirements] value as the request gave it
    (whatever its JSON type) and the model's non-empty text. *)
Theorem plan_is_stamped_after_the_model_answers (E : Env) (req : request)
    (w w' : world) (r : response) (d : list (string * json)) :
  generate_plan E req w = (Val r, w') ->
  payload r = Json (JDict d) ->
  PyDict.lookup "success" d = Some (JBool true) ->
  exists body requirements text,
    let parts := [Text (plan_prompt (format_value E requirements))] in
    let timestamp := Strftime.compact (clock E (S (length (trace w)))) in
    let stored := "outputs/plan_" ++ timestamp ++ ".json" in
    json_payload req = Val (JDict body) /\
    PyDict.lookup "requirements" body = Some requirements /\
    generate_content E (length (trace w)) parts = Val text /\
    text <> "" /\
    is_compact_timestamp timestamp = true /\
    trace w' = ([EvWrite stored; EvClock; EvModel parts] ++ trace w)%list /\
    d = [("timestamp", JStr timestamp); ("requirements", requirements);
         ("generated_plan", JStr text); ("success", JBool true)] /\
    disk w' = PyDict.update stored (json_dump E (JDict d)) (disk w).
Proof.
  unfold generate_plan, generate_plan_try, get_json.
  run.
  all: intros Hrun Hpay Hok; injection Hrun as <- <-; cbn [payload jsonify] in Hpay;
    injection Hpay as <-; try discriminate Hok.
  all: match goal with
  | Hb : json_payload _ = Val ?data,
    Hg : py_get ?data _ _ = Val ?reqs,
    Hr : negb (truthy ?reqs) = false,
    Hm : generate_content _ _ _ = Val ?text,
    Ht : String.eqb ?text "" = false |- _ =>
      apply String.eqb_neq in Ht; apply negb_false_iff in Hr;
      destruct data as [| | | | |l|body]; try discriminate Hg;
      cbn [py_get] in Hg; injection Hg as Hg;
      destruct (PyDict.lookup "requirements" body) as [v|] eqn:Hlook;
        [subst v|subst reqs; discriminate Hr];
      exists body, reqs, text
  end.
  all: cbv zeta; repeat split; try assumption; try reflexivity.
  all: apply compact_shape.
Qed.

Lemma plan_is_stamped_after_the_model_answers_witness :
  let E := Fixtures.env [] in
  let req := Fixtures.post_json "/generate_plan" (JDict [("requirements", JInt 3)]) in
  let w := Fixtures.empty_world in
  let w' := snd (generate_plan E req w) in
  let d := plan_record "20240517_123045" (JInt 3) "ROOM: 100sqft" in
  exists body requirements text,
    let parts := [Text (plan_prompt (format_value E requirements))] in
    let timestamp := Strftime.compact (clock E (S (length (trace w)))) in
    let stored := "outputs/plan_" ++ timestamp ++ ".json" in
    json_payload req = Val (JDict body) /\
    PyDict.lookup "requirements" body = Some requirements /\
    generate_content E (length (trace w)) parts = Val text /\
    text <> "" /\
    is_compact_timestamp timestamp = true /\
    trace w' = ([EvWrite stored; EvClock; EvModel parts] ++ trace w)%list /\
    d = [("timestamp", JStr timestamp); ("requirements", requirements);
         ("generated_plan", JStr text); ("success", JBool true)] /\
    disk w' = PyDict.update stored (json_dump E (JDict d)) (disk w).
Proof.
  cbv zeta.
  apply (plan_is_stamped_after_the_model_answers (Fixtures.env [])
           (Fixtures.post_json "/generate_plan" (JDict [("requirements", JInt 3)]))
           Fixtures.empty_world
           (snd (generate_plan (Fixtures.env [])
                   (Fixtures.post_json "/generate_plan" (JDict [("requirements", JInt 3)]))
                   Fixtures.empty_world))
           (jsonify (plan_record "20240517_123045" (JInt 3) "ROOM: 100sqft"))
           (plan_record "20240517_123045" (JInt 3) "ROOM: 100sqft")).
  - vm_compute. reflexivity.
  - reflexivity.
  - reflexivity.
Defined.



(* ----------------------------------------------------------------- *)
(** ** The two pipelines side by side *)

(** X18.  Each pipeline writes its own files only.  A plan request leaves
    every file whose path does not begin with [outputs/plan_] as it was,
    present or absent: it never touches an upload or an analysis.  An
    analysis request leaves every file whose path begins neither with
    [uploads/] nor with [outputs/analysis_] as it was: it never touches a
    plan. *)
Theorem pipelines_write_only_their_own_files (E : Env) (req : request) (w : world)
    (p : string) :
  (PyStr.startswith "outputs/plan_" p = false ->
   PyDict.lookup p (disk (snd (generate_plan E req w))) = PyDict.lookup p (disk w)) /\
  (PyStr.startswith "uploads/" p = false ->
   PyStr.startswith "outputs/analysis_" p = false ->
   PyDict.lookup p (disk (snd (analyze_image E req w))) = PyDict.lookup p (disk w)).
Proof.
  split.
  - intros Hplan. unfold generate_plan, generate_plan_try.
    run; cbn [snd disk]; rewrite ?plan_path; try reflexivity.
    all: now apply (lookup_update_prefix "outputs/plan_").
  - intros Hup Han. unfold analyze_image, analyze_image_try.
    run; cbn [snd disk]; rewrite ?upload_path, ?analysis_path; try reflexivity.
    all: rewrite ?(lookup_update_prefix "outputs/analysis_") by exact Han.
    all: now apply (lookup_update_prefix "uploads/").
Qed.

(* ----------------------------------------------------------------- *)
(** ** Timestamps *)

(** X19.  The strings [strftime("%Y%m%d_%H%M%S")] prints are ordered as the
    readings they come from: for two readings of the clock (four-digit
    years), comparing the strings is comparing year, month, day, hour,
    minute and second in turn.  Hence sorting the history by the
    timestamp string is sorting it by time, and two readings get the same
    string, so the same file name, exactly when they fall in the same
    second. *)
Theorem timestamps_order_as_times (a b : datetime) :
  calendar a -> calendar b ->
  String.compare (Strftime.compact a) (Strftime.compact b) = compare_seconds a b /\
  (String.leb (Strftime.compact a) (Strftime.compact b) = true <->
   compare_seconds a b <> Gt) /\
  (Strftime.compact a = Strftime.compact b <-> same_second a b).
Proof.
  intros Ha Hb. split; [now apply compact_compare|]. split; [|now apply compact_same_second].
  unfold String.leb. rewrite (compact_compare a b Ha Hb).
  destruct (compare_seconds a b); split; congruence.
Qed.

Lemma timestamps_order_as_times_witness :
  let a := Fixtures.noon in
  let b := {| year := 2024; month := 5; day := 17;
              hour := 12; minute := 31; second := 2; microsecond := 0 |} in
  String.compare (Strftime.compact a) (Strftime.compact b) = compare_seconds a b /\
  (String.leb (Strftime.compact a) (Strftime.compact b) = true <->
   compare_seconds a b <> Gt) /\
  (Strftime.compact a = Strftime.compact b <-> same_second a b).
Proof.
  apply timestamps_order_as_times; unfold calendar; cbn; lia.
Defined.

(** X20.  Two successful plan requests, one after the other, whose clock
    readings fall in different seconds leave two records: after the
    second request the file of the first still holds the first record,
    next to the file of the second. *)
Theorem plans_of_different_seconds_are_both_kept (E : Env) (req1 req2 : request)
    (w w1 w2 : world) (r1 r2 : response) (d1 d2 : list (string * json)) :
  let t1 := clock E (S (length (trace w))) in
  let t2 := clock E (S (length (trace w1))) in
  generate_plan E req1 w = (Val r1, w1) ->
  payload r1 = Json (JDict d1) ->
  PyDict.lookup "success" d1 = Some (JBool true) ->
  generate_plan E req2 w1 = (Val r2, w2) ->
  payload r2 = Json (JDict d2) ->
  PyDict.lookup "success" d2 = Some (JBool true) ->
  calendar t1 -> calendar t2 -> ~ same_second t1 t2 ->
  PyDict.lookup ("outputs/plan_" ++ Strftime.compact t1 ++ ".json") (disk w2)
    = Some (json_dump E (JDict d1)) /\
  PyDict.lookup ("outputs/plan_" ++ Strftime.compact t2 ++ ".json") (disk w2)
    = Some (json_dump E (JDict d2)).
Proof.
  intros t1 t2 Hrun1 Hpay1 Hok1 Hrun2 Hpay2 Hok2 Hc1 Hc2 Hdiff.
  destruct (two_plans_stored E req1 req2 w w1 w2 r1 r2 d1 d2
              Hrun1 Hpay1 Hok1 Hrun2 Hpay2 Hok2 Hc1 Hc2 Hdiff)
    as [(_ & _ & Hfile1) (_ & _ & Hfile2)].
  split; assumption.
Qed.

Lemma plans_of_different_seconds_are_both_kept_witness :
  let E := Ticking.env [] in
  let w1 := snd (generate_plan E (Ticking.ask "two rooms") Fixtures.empty_world) in
  let w2 := snd (generate_plan E (Ticking.ask "a loft") w1) in
  PyDict.lookup "outputs/plan_20240517_123001.json" (disk w2)
    = Some (json_dump E (JDict Ticking.first_plan)) /\
  PyDict.lookup "outputs/plan_20240517_123004.json" (disk w2)
    = Some (json_dump E (JDict Ticking.second_plan)).
Proof.
  cbv zeta.
  apply (plans_of_different_seconds_are_both_kept (Ticking.env [])
           (Ticking.ask "two rooms") (Ticking.ask "a loft")
           Fixtures.empty_world
           (snd (generate_plan (Ticking.env []) (Ticking.ask "two rooms")
                   Fixtures.empty_world))
           (snd (generate_plan (Ticking.env []) (Ticking.ask "a loft")
                   (snd (generate_plan (Ticking.env []) (Ticking.ask "two rooms")
                           Fixtures.empty_world))))
           (jsonify Ticking.first_plan) (jsonify Ticking.second_plan)
           Ticking.first_plan Ticking.second_plan).
  - vm_compute. reflexivity.
  - reflexivity.
  - reflexivity.
  - vm_compute. reflexivity.
  - reflexivity.
  - reflexivity.
  - unfold calendar. cbn. lia.
  - unfold calendar. cbn. lia.
  - intros (_ & _ & _ & _ & _ & H). discriminate H.
Defined.

(* ----------------------------------------------------------------- *)
(** ** The history *)

(** X21.  [get_history] opens every file of [outputs/] whose name ends in
    .json, each once and in directory order, and opens nothing else; it
    changes no file. *)
Theorem history_opens_the_json_files_once (E : Env) (w : world) :
  trace (snd (get_history E w))
  = (map (fun name => EvRead ("outputs/" ++ name))
         (rev (filter (PyStr.endswith ".json") (listdir OUTPUT_FOLDER w))) ++ trace w)%list /\
  disk (snd (get_history E w)) = disk w.
Proof.
  split; [apply get_history_trace|apply get_history_disk].
Qed.

(** X22.  The sort of the history is stable: among the records of one
    timestamp (an analysis and a plan of the same second, say) the
    listing keeps the order of the directory. *)
Theorem history_keeps_directory_order_among_ties (E : Env) (w : world)
    (cs : list (option (string * kind))) :
  Forall2 (fun f c => holds E (fst f) (snd f) c) (folder_files OUTPUT_FOLDER w) cs ->
  exists entries w',
    get_history E w
    = (Val (jsonify [("files", JList (map JDict entries)); ("success", JBool true)]), w') /\
    forall timestamp,
      filter (with_timestamp timestamp) entries
      = filter (with_timestamp timestamp) (expected (folder_files OUTPUT_FOLDER w) cs).
Proof.
  intros Hcs.
  destruct (get_history_run E w cs Hcs) as (keyed_entries & w' & Hmap & Hall & Hrun).
  exists (map snd (sort_desc keyed_entries)), w'. split; [exact Hrun|].
  intros timestamp. rewrite <- Hmap.
  rewrite !filter_key_is; try assumption.
  - now rewrite sort_desc_key_is.
  - apply (Permutation_Forall (Permutation_sym (sort_desc_perm keyed_entries)) Hall).
Qed.

Lemma history_keeps_directory_order_among_ties_witness :
  exists entries w',
    get_history (Fixtures.env Twins.corpus) Twins.shelf
    = (Val (jsonify [("files", JList (map JDict entries)); ("success", JBool true)]), w') /\
    forall timestamp,
      filter (with_timestamp timestamp) entries
      = filter (with_timestamp timestamp)
          (expected (folder_files OUTPUT_FOLDER Twins.shelf) Twins.contents).
Proof.
  apply (history_keeps_directory_order_among_ties (Fixtures.env Twins.corpus) Twins.shelf
           Twins.contents).
  change (folder_files OUTPUT_FOLDER Twins.shelf)
    with [("plan_20240517_123045.json", Fixtures.dumps (JDict Twins.plan_doc));
          ("analysis_20240517_123045.json", Fixtures.dumps (JDict Archive.analysis_doc))].
  repeat apply Forall2_cons; try apply Forall2_nil.
  - eapply holds_plan; reflexivity.
  - eapply holds_analysis; reflexivity.
Defined.

(** X23.  A .json file of [outputs/] that holds an object with no
    [timestamp] is listed all the same, under the empty timestamp, tagged
    by its [analysis] field like any other; and, the other timestamps
    being strings, it is listed last: the listing is a front of entries
    with a timestamp followed by the entries without. *)
Theorem record_without_timestamp_is_listed_last (E : Env) (w : world)
    (name text : string) (d : list (string * json)) :
  In name (listdir OUTPUT_FOLDER w) ->
  PyStr.endswith ".json" name = true ->
  PyDict.lookup ("outputs/" ++ name) (disk w) = Some text ->
  json_load E text = Val (JDict d) ->
  PyDict.lookup "timestamp" d = None ->
  timestamps_are_strings E w ->
  exists front back w',
    get_history E w
    = (Val (jsonify [("files", JList (map JDict (front ++ back))); ("success", JBool true)]),
       w') /\
    In [("filename", JStr name); ("timestamp", JStr "");
        ("type", JStr (if PyDict.has_key "analysis" d then "analysis" else "plan"))] back /\
    Forall (fun x => with_timestamp "" x = false) front /\
    Forall (fun x => with_timestamp "" x = true) back.
Proof.
  intros Hname Hjson Hfile Hload Hts Hstr.
  destruct (get_history_found E w (scanned_timestamps E w Hstr))
    as (keyed_entries & w' & Hmap & Hkeyed & Hrun).
  assert (Hsorted_keyed : Forall keyed_by_timestamp (sort_desc keyed_entries))
    by apply (Permutation_Forall (Permutation_sym (sort_desc_perm keyed_entries)) Hkeyed).
  destruct (sorted_empty_last _ (sort_desc_sorted keyed_entries))
    as (front & back & Hsplit & Hfront & Hback).
  rewrite Hsplit in Hsorted_keyed. apply Forall_app in Hsorted_keyed as [Hkf Hkb].
  exists (map snd front), (map snd back), w'.
  rewrite <- map_app, <- Hsplit. split; [exact Hrun|].
  set (entry := [("filename", JStr name); ("timestamp", JStr "");
                 ("type", JStr (if PyDict.has_key "analysis" d then "analysis" else "plan"))]).
  assert (Hfront' : Forall (fun x => with_timestamp "" x = false) (map snd front)).
  { apply Forall_forall. intros x Hx.
    assert (Hf : filter (with_timestamp "") (map snd front) = []).
    { rewrite (filter_key_is "" front Hkf).
      replace (filter (key_is "") front) with (@nil (string * list (string * json)));
        [reflexivity|].
      symmetry. clear -Hfront. induction Hfront as [|y l Hy _ IH]; [reflexivity|].
      cbn [filter]. now rewrite Hy. }
    destruct (with_timestamp "" x) eqn:Hw; [|reflexivity].
    assert (Hin : In x (filter (with_timestamp "") (map snd front)))
      by (apply filter_In; auto).
    rewrite Hf in Hin. contradiction. }
  assert (Hback' : Forall (fun x => with_timestamp "" x = true) (map snd back)).
  { apply Forall_forall. intros x Hx. apply in_map_iff in Hx as ([t y] & <- & Hy).
    pose proof (proj1 (Forall_forall _ _) Hkb _ Hy) as Hk.
    pose proof (proj1 (Forall_forall _ _) Hback _ Hy) as Hb.
    unfold keyed_by_timestamp in Hk. unfold key_is in Hb. cbn [fst snd] in *.
    unfold with_timestamp. now rewrite Hk. }
  split; [|split; assumption].
  assert (Hentry : In entry (flat_map (scanned E w) (listdir OUTPUT_FOLDER w))).
  { apply in_flat_map. exists name. split; [exact Hname|].
    destruct (listdir_entry w name Hname) as (Hslash & _).
    unfold scanned. rewrite Hjson, (join_plain name Hslash), Hfile, Hload.
    cbn [history_entry py_get obind py_in]. rewrite Hts. now left. }
  rewrite <- Hmap in Hentry.
  apply (Permutation_in _ (Permutation_map snd (Permutation_sym (sort_desc_perm keyed_entries))))
    in Hentry.
  rewrite Hsplit, map_app in Hentry. apply in_app_or in Hentry as [Hin|Hin]; [|exact Hin].
  pose proof (proj1 (Forall_forall _ _) Hfront' _ Hin) as Hno. discriminate Hno.
Qed.

Lemma record_without_timestamp_is_listed_last_witness :
  let d := Undated.note in
  exists front back w',
    get_history (Fixtures.env Undated.corpus) Undated.shelf
    = (Val (jsonify [("files", JList (map JDict (front ++ back))); ("success", JBool true)]),
       w') /\
    In [("filename", JStr "note.json"); ("timestamp", JStr "");
        ("type", JStr (if PyDict.has_key "analysis" d then "analysis" else "plan"))] back /\
    Forall (fun x => with_timestamp "" x = false) front /\
    Forall (fun x => with_timestamp "" x = true) back.
Proof.
  apply (record_without_timestamp_is_listed_last (Fixtures.env Undated.corpus) Undated.shelf
           "note.json" (Fixtures.dumps (JDict Undated.note)) Undated.note).
  - left. reflexivity.
  - reflexivity.
  - reflexivity.
  - reflexivity.
  - reflexivity.
  - intros name text d v Hname Hfile Hload Hts.
    change (listdir OUTPUT_FOLDER Undated.shelf)
      with ["note.json"; "analysis_20240517_123045.json"] in Hname.
    destruct Hname as [<-|[<-|[]]]; cbn in Hfile; injection Hfile as <-;
      vm_compute in Hload; injection Hload as <-; cbn in Hts.
    + discriminate Hts.
    + injection Hts as <-. now eexists.
Defined.

(** X24.  The listing is a function of the files: two worlds with the
    same disk get the same answer from [get_history], whatever happened
    before; in particular every view but [analyze_image] and
    [generate_plan] (the listing itself, a download, the connection test,
    the health check, the index page, a static file) leaves the answer of
    the next listing as it was. *)
Theorem history_is_repeatable (E : Env) (req : request) (w : world) :
  (forall w1 w2, disk w1 = disk w2 ->
                 fst (get_history E w1) = fst (get_history E w2)) /\
  fst (get_history E (snd (get_history E w))) = fst (get_history E w) /\
  (forall ep, ep <> ep_analyze_image -> ep <> ep_generate_plan ->
     fst (get_history E (snd (view E ep req w))) = fst (get_history E w)).
Proof.
  split; [|split].
  - apply get_history_of_disk.
  - apply get_history_of_disk, get_history_disk.
  - intros ep Hanalyze Hplan. apply get_history_of_disk.
    now apply (view_disk E ep req w).
Qed.

(** X25.  Newest first is latest first.  After two successful plan
    requests in a row, the second at a later second than the first, the
    listing of a directory of well-formed records (the codec reading back
    the two records it wrote) has the entry of the second plan before the
    entry of the first. *)
Theorem later_plan_is_listed_first (E : Env) (req1 req2 : request)
    (w w1 w2 : world) (r1 r2 : response) (d1 d2 : list (string * json))
    (cs : list (option (string * kind))) :
  let t1 := clock E (S (length (trace w))) in
  let t2 := clock E (S (length (trace w1))) in
  let entry t := history_record ("plan_" ++ Strftime.compact t ++ ".json")
                   (Strftime.compact t) Plan in
  generate_plan E req1 w = (Val r1, w1) ->
  payload r1 = Json (JDict d1) ->
  PyDict.lookup "success" d1 = Some (JBool true) ->
  generate_plan E req2 w1 = (Val r2, w2) ->
  payload r2 = Json (JDict d2) ->
  PyDict.lookup "success" d2 = Some (JBool true) ->
  calendar t1 -> calendar t2 -> compare_seconds t1 t2 = Lt ->
  json_load E (json_dump E (JDict d1)) = Val (JDict d1) ->
  json_load E (json_dump E (JDict d2)) = Val (JDict d2) ->
  Forall2 (fun f c => holds E (fst f) (snd f) c) (folder_files OUTPUT_FOLDER w2) cs ->
  exists before between after w',
    get_history E w2
    = (Val (jsonify [("files",
                      JList (map JDict (before ++ entry t2 :: between ++ entry t1 :: after)));
                     ("success", JBool true)]), w').
Proof.
  intros t1 t2 entry Hrun1 Hpay1 Hok1 Hrun2 Hpay2 Hok2 Hc1 Hc2 Hlt Hload1 Hload2 Hcs.
  assert (Hdiff : ~ same_second t1 t2).
  { intros Hsame. apply compare_seconds_eq in Hsame. congruence. }
  destruct (two_plans_stored E req1 req2 w w1 w2 r1 r2 d1 d2
              Hrun1 Hpay1 Hok1 Hrun2 Hpay2 Hok2 Hc1 Hc2 Hdiff)
    as [(Hts1 & Hkey1 & Hfile1) (Hts2 & Hkey2 & Hfile2)].
  fold t1 in Hts1, Hfile1. fold t2 in Hts2, Hfile2.
  assert (Hplan : forall d : list (string * json), PyDict.has_key "analysis" d = false ->
                            (PyDict.has_key "analysis" d = true <-> Plan = Analysis)).
  { intros d Hd. rewrite Hd. split; discriminate. }
  pose proof (scanned_stored E w2 Plan t1 d1 Hfile1 Hload1 Hts1 (Hplan d1 Hkey1)) as Hin1.
  pose proof (scanned_stored E w2 Plan t2 d2 Hfile2 Hload2 Hts2 (Hplan d2 Hkey2)) as Hin2.
  destruct (get_history_spec E w2 cs Hcs) as (entries & w' & Hrun & _ & Hperm & Hsorted).
  unfold folder_files in Hperm, Hcs.
  rewrite <- (scanned_expected E w2 _ cs Hcs) in Hperm.
  apply (Permutation_in _ (Permutation_sym Hperm)) in Hin1, Hin2.
  destruct (newer_entry_first entries (entry t2) (entry t1)
              (Strftime.compact t2) (Strftime.compact t1) Hsorted Hin2 Hin1
              eq_refl eq_refl)
    as (before & between & after & ->).
  - now rewrite (compact_compare t1 t2 Hc1 Hc2).
  - now exists before, between, after, w'.
Qed.

Lemma later_plan_is_listed_first_witness :
  let E := Ticking.env Ticking.corpus in
  let w1 := snd (generate_plan E (Ticking.ask "two rooms") Fixtures.empty_world) in
  let w2 := snd (generate_plan E (Ticking.ask "a loft") w1) in
  exists before between after w',
    get_history E w2
    = (Val (jsonify [("files",
                      JList (map JDict
                        (before
                         ++ history_record "plan_20240517_123004.json" "20240517_123004" Plan
                         :: between
                         ++ history_record "plan_20240517_123001.json" "20240517_123001" Plan
                         :: after)));
                     ("success", JBool true)]), w').
Proof.
  cbv zeta.
  apply (later_plan_is_listed_first (Ticking.env Ticking.corpus)
           (Ticking.ask "two rooms") (Ticking.ask "a loft")
           Fixtures.empty_world
           (snd (generate_plan (Ticking.env Ticking.corpus) (Ticking.ask "two rooms")
                   Fixtures.empty_world))
           (snd (generate_plan (Ticking.env Ticking.corpus) (Ticking.ask "a loft")
                   (snd (generate_plan (Ticking.env Ticking.corpus) (Ticking.ask "two rooms")
                           Fixtures.empty_world))))
           (jsonify Ticking.first_plan) (jsonify Ticking.second_plan)
           Ticking.first_plan Ticking.second_plan
           [Some ("20240517_123001", Plan); Some ("20240517_123004", Plan)]).
  - vm_compute. reflexivity.
  - reflexivity.
  - reflexivity.
  - vm_compute. reflexivity.
  - reflexivity.
  - reflexivity.
  - unfold calendar. cbn. lia.
  - unfold calendar. cbn. lia.
  - reflexivity.
  - reflexivity.
  - reflexivity.
  - change (folder_files OUTPUT_FOLDER
              (snd (generate_plan (Ticking.env Ticking.corpus) (Ticking.ask "a loft")
                      (snd (generate_plan (Ticking.env Ticking.corpus)
                              (Ticking.ask "two rooms") Fixtures.empty_world)))))
      with [("plan_20240517_123001.json", Fixtures.dumps (JDict Ticking.first_plan));
            ("plan_20240517_123004.json", Fixtures.dumps (JDict Ticking.second_plan))].
    repeat apply Forall2_cons; try apply Forall2_nil; eapply holds_plan; reflexivity.
Defined.

(* ----------------------------------------------------------------- *)
(** ** The connection test *)

(** X26.  GET /test_api always answers with status 200, after one call to
    the model and without touching a file.  Whether the call worked is
    told in the body alone: [success] true with the model's text, empty or
    not, when it returned; [success] false with the error's message when
    it raised. *)
Theorem test_api_reports_in_the_body (E : Env) (req : request) (w : world) :
  let parts := [Text "Say 'Hello, Gemini API is working!'"] in
  method req = GET ->
  path req = "/test_api" ->
  exists d,
    wsgi_app E req w
    = (jsonify d, {| disk := disk w; trace := EvModel parts :: trace w |}) /\
    (forall text, generate_content E (length (trace w)) parts = Val text ->
       d = [("success", JBool true); ("message", JStr "API connection successful");
            ("response", JStr text); ("api_key_configured", api_key_configured E)]) /\
    (forall e, generate_content E (length (trace w)) parts = Exc e ->
       d = [("success", JBool false); ("error", JStr (str_exn e));
            ("api_key_configured", api_key_configured E)]).
Proof.
  intros parts Hm Hp. unfold wsgi_app, dispatch_request. rewrite Hm, Hp.
  change (url_match "/test_api" GET) with (Route ep_test_api). cbn [view].
  unfold test_api. unfold_monad. fold parts.
  destruct (generate_content E (length (trace w)) parts) as [text|e];
    eexists; (split; [reflexivity|]); split; intros ? [= <-]; reflexivity.
Qed.

Lemma test_api_reports_in_the_body_witness :
  let E := Faults.env (Val (10, 10)%Z) (Exc Faults.Overloaded) in
  let w := Fixtures.empty_world in
  let parts := [Text "Say 'Hello, Gemini API is working!'"] in
  exists d,
    wsgi_app E (Fixtures.get "/test_api") w
    = (jsonify d, {| disk := disk w; trace := EvModel parts :: trace w |}) /\
    (forall text, generate_content E (length (trace w)) parts = Val text ->
       d = [("success", JBool true); ("message", JStr "API connection successful");
            ("response", JStr text); ("api_key_configured", api_key_configured E)]) /\
    (forall e, generate_content E (length (trace w)) parts = Exc e ->
       d = [("success", JBool false); ("error", JStr (str_exn e));
            ("api_key_configured", api_key_configured E)]).
Proof.
  apply (test_api_reports_in_the_body (Faults.env (Val (10, 10)%Z) (Exc Faults.Overloaded))
           (Fixtures.get "/test_api") Fixtures.empty_world); reflexivity.
Defined.
